(** * SmartAlloc: allocation conflict detection and status derivation

    A shallow embedding of the server's allocation controller
    (createAllocation, updateAllocationStatus, deleteAllocation,
    getAllAllocations), of the status computation of the resource controller
    (getAllResources, getResourceById) and of the Allocation model (schema
    validators, the [timeStatus] virtual, the pre-save hook), together with
    the properties the specification states about them.

    Conventions of the embedding.
    - A MongoDB collection is the list of its documents in natural order.
    - An ObjectId is a natural number; a string handed to Mongoose where an
      ObjectId is expected either casts to one or is malformed ([IdArg]).
      A new document gets the store's next unused id.
    - A JavaScript [Date] is its millisecond count, or Invalid Date
      ([JsDate]); persisted documents only hold valid dates.
    - [new Date()] is a parameter [currentTime] of every handler, read once
      per request.
    - A string is a JavaScript string whose UTF-16 code units are below 256,
      one character per code unit (U+0000 to U+00FF): its length is the
      JavaScript length, and [trim], [toLowerCase] and [toUpperCase] are
      the ECMAScript ones on these code units.
    - Every [await] is a call of the store monad [M], which also logs
      the database calls.  A handler of the monad runs from request to
      response without interruption ([handle], [reachable]); the handlers
      that interleave at their awaits are the tasks of [interleaved]. *)

From Stdlib Require Import ZArith List String Ascii Bool Lia.
From Stdlib Require Import Permutation Sorted.
Import ListNotations.

Local Open Scope string_scope.
Local Open Scope Z_scope.
Local Open Scope list_scope.

(** ** JavaScript values *)

Definition ObjectId := nat.

(** A string given where Mongoose expects an ObjectId. *)
Inductive IdArg :=
| Oid (n : ObjectId)
| Malformed.

Inductive JsDate :=
| ValidDate (ms : Z)
| InvalidDate.

(** Relational operators on dates compare the time values; every comparison
    with NaN is false. *)
Definition date_lt (a b : JsDate) : bool :=
  match a, b with
  | ValidDate x, ValidDate y => x <? y
  | _, _ => false
  end.

Definition date_le (a b : JsDate) : bool :=
  match a, b with
  | ValidDate x, ValidDate y => x <=? y
  | _, _ => false
  end.

Definition date_gt (a b : JsDate) : bool := date_lt b a.
Definition date_ge (a b : JsDate) : bool := date_le b a.

(** [String.prototype.trim] strips white space and line terminators: of
    the code units below 256 these are TAB, LF, VT, FF, CR (9 to 13), SP
    (32) and NBSP (160). *)
Definition isWhiteSpace (c : ascii) : bool :=
  let n := nat_of_ascii c in
  (n =? 32)%nat || ((9 <=? n)%nat && (n <=? 13)%nat) || (n =? 160)%nat.

Fixpoint trimStart (cs : list ascii) : list ascii :=
  match cs with
  | c :: cs' => if isWhiteSpace c then trimStart cs' else cs
  | [] => []
  end.

Definition trim (s : string) : string :=
  string_of_list_ascii
    (rev (trimStart (rev (trimStart (list_ascii_of_string s))))).

(** A string literal between double quotes, as it appears in a message. *)
Definition quoted (s : string) : string :=
  String (ascii_of_nat 34) (s ++ String (ascii_of_nat 34) EmptyString)%string.

(** [!s] for a string-valued body field: absent and empty are both falsy. *)
Definition truthy (s : option string) : option string :=
  match s with
  | Some EmptyString => None
  | other => other
  end.

(** ** Documents *)

Record Resource := {
  resource_id : ObjectId;
  name : string;
  type : string;
  description : string;
  resource_createdAt : Z
}.

Record Allocation := {
  _id : ObjectId;
  resourceId : ObjectId;
  assignedTo : string;
  startTime : Z;
  endTime : Z;
  purpose : string;
  createdAt : Z;
  approvalStatus : string;
  requestedBy : option ObjectId
}.

Record User := {
  user_id : ObjectId;
  role : string
}.

Definition set_approvalStatus (a : Allocation) (s : string) : Allocation :=
  {| _id := _id a; resourceId := resourceId a; assignedTo := assignedTo a;
     startTime := startTime a; endTime := endTime a; purpose := purpose a;
     createdAt := createdAt a; approvalStatus := s;
     requestedBy := requestedBy a |}.

(** The object literal passed to [new Allocation({...})]. *)
Record AllocationInput := {
  in_resourceId : IdArg;
  in_assignedTo : string;
  in_startTime : JsDate;
  in_endTime : JsDate;
  in_purpose : string;
  in_approvalStatus : string;
  in_requestedBy : option ObjectId
}.

(** ** The store *)

Record Db := {
  resources : list Resource;
  allocations : list Allocation;
  nextId : ObjectId
}.

Definition with_allocations (db : Db) (l : list Allocation) : Db :=
  {| resources := resources db; allocations := l; nextId := nextId db |}.

Definition with_resources (db : Db) (l : list Resource) : Db :=
  {| resources := l; allocations := allocations db; nextId := nextId db |}.

Inductive DbCall :=
| Resource_findById_call
| Resource_populate_call
| Allocation_find_call
| Allocation_findOne_call
| Allocation_findById_call
| Allocation_findByIdAndDelete_call
| Allocation_save_call.

(** The message of one path that failed validation: the one the schema gives
    with the validator, or Mongoose's own for a failed cast or enum. *)
Inductive PathError :=
| SchemaMessage (message : string)
| CastFailure (path : string)
| EnumFailure (path : string).

Inductive Thrown :=
| CastError (kind : string)
| ValidationError (errors : list PathError)
| Error (msg : string).

Inductive Outcome (A : Type) :=
| Returned (a : A)
| Threw (e : Thrown).
Arguments Returned {A} a.
Arguments Threw {A} e.

(** The store monad: state, exceptions and the log of database calls. *)
Definition M (A : Type) : Type := Db -> Outcome A * Db * list DbCall.

Definition ret {A} (a : A) : M A := fun db => (Returned a, db, []).

Definition throw {A} (e : Thrown) : M A := fun db => (Threw e, db, []).

Definition bind {A B} (m : M A) (k : A -> M B) : M B :=
  fun db =>
    match m db with
    | (Returned a, db1, l1) =>
        match k a db1 with
        | (r, db2, l2) => (r, db2, l1 ++ l2)
        end
    | (Threw e, db1, l1) => (Threw e, db1, l1)
    end.

Notation "x <- m ;; k" := (bind m (fun x => k))
  (at level 61, m at next level, right associativity).

Definition call {A} (c : DbCall) (f : Db -> Outcome A * Db) : M A :=
  fun db => let (r, db') := f db in (r, db', [c]).

(** [try { ... } catch (error) { ... }] *)
Definition try_catch {A} (m : M A) (handler : Thrown -> A)
  : Db -> A * Db * list DbCall :=
  fun db =>
    match m db with
    | (Returned a, db', l) => (a, db', l)
    | (Threw e, db', l) => (handler e, db', l)
    end.

(** ** Queries on the allocations collection *)

Inductive Cond :=
| IdNe (id : IdArg)
| ResourceIdEq (rid : IdArg)
| ApprovalStatusEq (s : string)
| StartTimeLt (d : JsDate)
| StartTimeLte (d : JsDate)
| StartTimeGt (d : JsDate)
| EndTimeGt (d : JsDate)
| EndTimeGte (d : JsDate).

Definition Query := list Cond.

Definition id_is (i : IdArg) (o : ObjectId) : bool :=
  match i with
  | Oid n => Nat.eqb o n
  | Malformed => false
  end.

Definition holds (c : Cond) (a : Allocation) : bool :=
  match c with
  | IdNe id => negb (id_is id (_id a))
  | ResourceIdEq rid => id_is rid (resourceId a)
  | ApprovalStatusEq s => String.eqb (approvalStatus a) s
  | StartTimeLt d => date_lt (ValidDate (startTime a)) d
  | StartTimeLte d => date_le (ValidDate (startTime a)) d
  | StartTimeGt d => date_gt (ValidDate (startTime a)) d
  | EndTimeGt d => date_gt (ValidDate (endTime a)) d
  | EndTimeGte d => date_ge (ValidDate (endTime a)) d
  end.

Definition matches (q : Query) (a : Allocation) : bool :=
  forallb (fun c => holds c a) q.

(** Mongoose casts the values of a filter to the schema types and rejects the
    query with a CastError when one cannot be cast. *)
Definition castCond (c : Cond) : option Thrown :=
  match c with
  | IdNe Malformed | ResourceIdEq Malformed => Some (CastError "ObjectId")
  | StartTimeLt InvalidDate | StartTimeLte InvalidDate
  | StartTimeGt InvalidDate | EndTimeGt InvalidDate
  | EndTimeGte InvalidDate => Some (CastError "date")
  | _ => None
  end.

Fixpoint castQuery (q : Query) : option Thrown :=
  match q with
  | [] => None
  | c :: q' =>
      match castCond c with
      | Some e => Some e
      | None => castQuery q'
      end
  end.

Definition Allocation_find (q : Query) : M (list Allocation) :=
  call Allocation_find_call (fun db =>
    match castQuery q with
    | Some e => (Threw e, db)
    | None => (Returned (filter (matches q) (allocations db)), db)
    end).

Definition Allocation_findOne (q : Query) : M (option Allocation) :=
  call Allocation_findOne_call (fun db =>
    match castQuery q with
    | Some e => (Threw e, db)
    | None => (Returned (find (matches q) (allocations db)), db)
    end).

Definition Allocation_findById (id : IdArg) : M (option Allocation) :=
  call Allocation_findById_call (fun db =>
    match id with
    | Malformed => (Threw (CastError "ObjectId"), db)
    | Oid n =>
        (Returned (find (fun a => Nat.eqb (_id a) n) (allocations db)), db)
    end).

Definition Resource_findById (id : IdArg) : M (option Resource) :=
  call Resource_findById_call (fun db =>
    match id with
    | Malformed => (Threw (CastError "ObjectId"), db)
    | Oid n =>
        (Returned (find (fun r => Nat.eqb (resource_id r) n) (resources db)),
         db)
    end).

(** [doc.populate('resourceId', 'name type')]: the referenced resource's
    name and type, or null when the reference dangles. *)
Definition populate (a : Allocation) : M (option (string * string)) :=
  call Resource_populate_call (fun db =>
    (Returned
       (option_map (fun r => (name r, type r))
          (find (fun r => Nat.eqb (resource_id r) (resourceId a))
             (resources db))),
     db)).

Fixpoint remove_first (n : ObjectId) (l : list Allocation) : list Allocation :=
  match l with
  | [] => []
  | a :: l' => if Nat.eqb (_id a) n then l' else a :: remove_first n l'
  end.

Definition Allocation_findByIdAndDelete (id : IdArg) : M (option Allocation) :=
  call Allocation_findByIdAndDelete_call (fun db =>
    match id with
    | Malformed => (Threw (CastError "ObjectId"), db)
    | Oid n =>
        match find (fun a => Nat.eqb (_id a) n) (allocations db) with
        | Some a =>
            (Returned (Some a),
             with_allocations db (remove_first n (allocations db)))
        | None => (Returned None, db)
        end
    end).

(** ** The Allocation model: schema, virtuals and hooks *)

(** [assignedTo]: required, at most 100 characters (after [trim]). *)
Definition validate_assignedTo (s : string) : list PathError :=
  if String.eqb s EmptyString
  then [SchemaMessage "Assigned To field is required"]
  else if (100 <? String.length s)%nat
       then [SchemaMessage "Assigned To cannot exceed 100 characters"]
       else [].

(** [purpose]: at most 300 characters (after [trim]). *)
Definition validate_purpose (s : string) : list PathError :=
  if (300 <? String.length s)%nat
  then [SchemaMessage "Purpose cannot exceed 300 characters"]
  else [].

(** [approvalStatus]: enum ['pending', 'approved', 'rejected']. *)
Definition validate_approvalStatus (s : string) : list PathError :=
  if existsb (String.eqb s) ["pending"; "approved"; "rejected"]
  then []
  else [EnumFailure "approvalStatus"].

(** The validators of the paths of a document whose values are cast. *)
Definition validate (doc : Allocation) : list PathError :=
  validate_assignedTo (assignedTo doc) ++ validate_purpose (purpose doc)
  ++ validate_approvalStatus (approvalStatus doc).

(** [new Allocation(input)]: values are cast to the schema types, the
    setters ([trim]) and defaults ([createdAt]) are applied and the document
    gets its [_id].  A value that cannot be cast is reported, with the other
    paths' errors, when the document is validated. *)
Definition cast_errors (i : AllocationInput) : list PathError :=
  match in_resourceId i with
  | Malformed => [CastFailure "resourceId"]
  | Oid _ => []
  end
  ++ match in_startTime i with
     | InvalidDate => [CastFailure "startTime"]
     | ValidDate _ => []
     end
  ++ match in_endTime i with
     | InvalidDate => [CastFailure "endTime"]
     | ValidDate _ => []
     end.

Definition new_Allocation (i : AllocationInput) (id : ObjectId) (now : Z)
  : list PathError + Allocation :=
  match in_resourceId i, in_startTime i, in_endTime i with
  | Oid rid, ValidDate s, ValidDate e =>
      inr {| _id := id; resourceId := rid;
             assignedTo := trim (in_assignedTo i);
             startTime := s; endTime := e;
             purpose := trim (in_purpose i);
             createdAt := now;
             approvalStatus := in_approvalStatus i;
             requestedBy := in_requestedBy i |}
  | _, _, _ =>
      inl (cast_errors i
           ++ validate_assignedTo (trim (in_assignedTo i))
           ++ validate_purpose (trim (in_purpose i))
           ++ validate_approvalStatus (in_approvalStatus i))
  end.

(** [allocationSchema.virtual('isActive')] *)
Definition isActive (this : Allocation) (now : Z) : bool :=
  (startTime this <=? now) && (now <=? endTime this).

(** [allocationSchema.virtual('timeStatus')] *)
Definition timeStatus (this : Allocation) (now : Z) : string :=
  if now <? startTime this then "Upcoming"
  else if (startTime this <=? now) && (now <=? endTime this) then "Active"
  else "Completed".

(** [allocationSchema.pre('save', ...)]: the error handed to [next], if any. *)
Definition pre_save (this : Allocation) : option Thrown :=
  if endTime this <=? startTime this
  then Some (Error "End time must be after start time")
  else None.

(** [allocationSchema.statics.findActiveForResource] *)
Definition findActiveForResource (rid : ObjectId) (now : Z)
  : M (list Allocation) :=
  Allocation_find [ResourceIdEq (Oid rid); StartTimeLte (ValidDate now);
                   EndTimeGte (ValidDate now)].

(** [allocationSchema.statics.findOverlapping] *)
Definition findOverlapping (rid : ObjectId) (startT endT : JsDate)
    (excludeId : option IdArg) : M (list Allocation) :=
  let query := [ResourceIdEq (Oid rid); StartTimeLt endT; EndTimeGt startT] in
  match excludeId with
  | Some id => Allocation_find (query ++ [IdNe id])
  | None => Allocation_find query
  end.

(** [save()] of a new document: built-in validation, then the pre-save hook,
    then the insert. *)
Definition Allocation_create (i : AllocationInput) (now : Z) : M Allocation :=
  call Allocation_save_call (fun db =>
    match new_Allocation i (nextId db) now with
    | inl errors => (Threw (ValidationError errors), db)
    | inr doc =>
        match validate doc with
        | (_ :: _) as errors => (Threw (ValidationError errors), db)
        | [] =>
            match pre_save doc with
            | Some e => (Threw e, db)
            | None =>
                (Returned doc,
                 {| resources := resources db;
                    allocations := allocations db ++ [doc];
                    nextId := S (nextId db) |})
            end
        end
    end).

Fixpoint replace_first (doc : Allocation) (l : list Allocation)
  : list Allocation :=
  match l with
  | [] => []
  | a :: l' =>
      if Nat.eqb (_id a) (_id doc) then doc :: l'
      else a :: replace_first doc l'
  end.

(** [save()] of a document that was read from the store and modified:
    validation, the pre-save hook, then the update of the stored document
    with that [_id]. *)
Definition Allocation_save (doc : Allocation) : M Allocation :=
  call Allocation_save_call (fun db =>
    match validate doc with
    | (_ :: _) as errors => (Threw (ValidationError errors), db)
    | [] =>
        match pre_save doc with
        | Some e => (Threw e, db)
        | None =>
            (Returned doc,
             with_allocations db (replace_first doc (allocations db)))
        end
    end).

(** ** HTTP requests and responses *)

Record Summary := {
  sum_assignedTo : string;
  sum_startTime : Z;
  sum_endTime : Z;
  sum_purpose : string
}.

Definition summary (alloc : Allocation) : Summary :=
  {| sum_assignedTo := assignedTo alloc;
     sum_startTime := startTime alloc;
     sum_endTime := endTime alloc;
     sum_purpose := purpose alloc |}.

(** What a response carries besides [success] and [message]:
    [conflictDetails], [errors], [error] (the message of the caught error)
    or [data] (an allocation with its populated resource name and type). *)
Inductive Payload :=
| NoPayload
| ConflictDetails (resourceName : string) (existingAllocations : list Summary)
| Errors (errors : list PathError)
| ErrorMessage (error : Thrown)
| Data (doc : Allocation) (populated : option (string * string)).

Record Response := {
  status : nat;
  success : bool;
  message : string;
  payload : Payload
}.

Definition json (code : nat) (ok : bool) (msg : string) (p : Payload)
  : Response :=
  {| status := code; success := ok; message := msg; payload := p |}.

(** [req.body] and [req.user] of POST /api/allocations.  A field is [None]
    when the handler's [!field] test finds it missing: absent, null, false,
    0 or NaN; an empty string is falsy as well ([truthy]).  A time field
    that passes the test holds the date [new Date(field)] evaluates to. *)
Record CreateRequest := {
  body_resourceId : option IdArg;
  body_assignedTo : option string;
  body_startTime : option JsDate;
  body_endTime : option JsDate;
  body_purpose : option string;
  user : option User
}.

(** ** The allocation controller *)

Definition isAdmin (u : option User) : bool :=
  match u with
  | Some u => String.eqb (role u) "Super User"
  | None => false
  end.

(** The overlap search of createAllocation. *)
Definition find_conflictingAllocations (resourceId : IdArg)
    (newStartTime newEndTime : JsDate) : M (list Allocation) :=
  Allocation_find [ResourceIdEq resourceId;
                   ApprovalStatusEq "approved";
                   StartTimeLt newEndTime;
                   EndTimeGt newStartTime].

(** The overlap search of updateAllocationStatus. *)
Definition find_conflicts (id : IdArg) (allocation : Allocation)
  : M (list Allocation) :=
  Allocation_find [IdNe id;
                   ResourceIdEq (Oid (resourceId allocation));
                   ApprovalStatusEq "approved";
                   StartTimeLt (ValidDate (endTime allocation));
                   EndTimeGt (ValidDate (startTime allocation))].

Definition createAllocation_try (req : CreateRequest) (currentTime : Z)
  : M Response :=
  match body_resourceId req, truthy (body_assignedTo req),
        body_startTime req, body_endTime req with
  | Some resourceId, Some assignedTo, Some newStartTime, Some newEndTime =>
      if date_le newEndTime newStartTime then
        ret (json 400 false "End time must be after start time" NoPayload)
      else if date_lt newStartTime (ValidDate currentTime) then
        ret (json 400 false "Start time cannot be in the past" NoPayload)
      else
        resource <- Resource_findById resourceId ;;
        match resource with
        | None => ret (json 404 false "Resource not found" NoPayload)
        | Some resource =>
            conflictingAllocations <-
              find_conflictingAllocations resourceId newStartTime newEndTime ;;
            if (0 <? List.length conflictingAllocations)%nat then
              ret (json 409 false
                     "Resource already allocated in this time range"
                     (ConflictDetails (name resource)
                        (map summary conflictingAllocations)))
            else
              let approvalStatus :=
                if isAdmin (user req) then "approved" else "pending" in
              savedAllocation <-
                Allocation_create
                  {| in_resourceId := resourceId;
                     in_assignedTo := assignedTo;
                     in_startTime := newStartTime;
                     in_endTime := newEndTime;
                     in_purpose :=
                       match truthy (body_purpose req) with
                       | Some purpose => purpose
                       | None => EmptyString
                       end;
                     in_approvalStatus := approvalStatus;
                     in_requestedBy := option_map user_id (user req) |}
                  currentTime ;;
              populated <- populate savedAllocation ;;
              ret (json 201 true "Allocation created successfully"
                     (Data savedAllocation populated))
        end
  | _, _, _, _ =>
      ret (json 400 false
             "resourceId, assignedTo, startTime, and endTime are required fields"
             NoPayload)
  end.

Definition createAllocation_catch (error : Thrown) : Response :=
  match error with
  | ValidationError errors => json 400 false "Validation error" (Errors errors)
  | CastError kind =>
      if String.eqb kind "ObjectId"
      then json 400 false "Invalid resource ID format" NoPayload
      else json 500 false "Failed to create allocation"
             (ErrorMessage error)
  | Error _ =>
      json 500 false "Failed to create allocation"
        (ErrorMessage error)
  end.

Definition createAllocation (req : CreateRequest) (currentTime : Z)
  : Db -> Response * Db * list DbCall :=
  try_catch (createAllocation_try req currentTime) createAllocation_catch.

(** [allocations.map(allocation => ...)] of getAllAllocations. *)
Record AllocationWithStatus := {
  aws_allocation : Allocation;
  aws_timeStatus : string
}.

Definition allocationsWithStatus (allocations : list Allocation)
    (currentTime : Z) : list AllocationWithStatus :=
  map (fun allocation =>
         let status :=
           if currentTime <? startTime allocation then "Upcoming"
           else if (startTime allocation <=? currentTime)
                   && (currentTime <=? endTime allocation) then "Active"
           else "Completed" in
         {| aws_allocation := allocation; aws_timeStatus := status |})
      allocations.

Definition deleteAllocation_try (id : IdArg) : M Response :=
  deletedAllocation <- Allocation_findByIdAndDelete id ;;
  match deletedAllocation with
  | None => ret (json 404 false "Allocation not found" NoPayload)
  | Some deletedAllocation =>
      ret (json 200 true "Allocation deleted successfully"
             (Data deletedAllocation None))
  end.

Definition deleteAllocation (id : IdArg) : Db -> Response * Db * list DbCall :=
  try_catch (deleteAllocation_try id)
    (fun error => json 500 false "Failed to delete allocation"
                    (ErrorMessage error)).

(** [req.params.id] and [req.body.status] of PUT /api/allocations/:id/status;
    [None] is a missing status. *)
Definition updateAllocationStatus_try (id : IdArg) (status : option string)
  : M Response :=
  let invalid :=
    ret (json 400 false
           ("Status must be " ++ quoted "approved" ++ " or "
            ++ quoted "rejected")%string
           NoPayload) in
  match status with
  | None => invalid
  | Some status =>
      if negb (existsb (String.eqb status) ["approved"; "rejected"]) then
        invalid
      else
        allocation <- Allocation_findById id ;;
        match allocation with
        | None => ret (json 404 false "Allocation not found" NoPayload)
        | Some allocation =>
            let update :=
              saved <- Allocation_save (set_approvalStatus allocation status) ;;
              populated <- populate saved ;;
              ret (json 200 true
                     ("Allocation " ++ status ++ " successfully")%string
                     (Data saved populated)) in
            if String.eqb status "approved" then
              conflicts <- find_conflicts id allocation ;;
              if (0 <? List.length conflicts)%nat then
                ret (json 409 false
                       "Cannot approve - conflicts with existing approved allocation"
                       NoPayload)
              else update
            else update
        end
  end.

Definition updateAllocationStatus (id : IdArg) (status : option string)
  : Db -> Response * Db * list DbCall :=
  try_catch (updateAllocationStatus_try id status)
    (fun error => json 500 false "Failed to update allocation status"
                    (ErrorMessage error)).

(** ** The resource controller: availability *)

Record ResourceWithStatus := {
  rws_resource : Resource;
  rws_status : string;
  currentAllocation : option Summary
}.

(** The callback of [resources.map(async (resource) => ...)] in
    getAllResources. *)
Definition resourceWithStatus (resource : Resource) (currentTime : Z)
  : M ResourceWithStatus :=
  activeAllocation <-
    Allocation_findOne [ResourceIdEq (Oid (resource_id resource));
                        StartTimeLte (ValidDate currentTime);
                        EndTimeGte (ValidDate currentTime)] ;;
  let status :=
    match activeAllocation with
    | Some _ => "Allocated"
    | None => "Available"
    end in
  ret {| rws_resource := resource;
         rws_status := status;
         currentAllocation := option_map summary activeAllocation |}.

Fixpoint mapM {A B} (f : A -> M B) (l : list A) : M (list B) :=
  match l with
  | [] => ret []
  | x :: l' => y <- f x ;; ys <- mapM f l' ;; ret (y :: ys)
  end.

(** getAllResources, from the list [resources] its query returned. *)
Definition getAllResources (resources : list Resource) (currentTime : Z)
  : M (list ResourceWithStatus) :=
  mapM (fun resource => resourceWithStatus resource currentTime) resources.

(** getResourceById, the body of its try block: [None] is the 404 answer,
    otherwise the resource with its status and [activeAllocation || null]. *)
Record ResourceDetail := {
  rd_resource : Resource;
  rd_status : string;
  rd_currentAllocation : option Allocation
}.

Definition getResourceById (id : IdArg) (currentTime : Z)
  : M (option ResourceDetail) :=
  resource <- Resource_findById id ;;
  match resource with
  | None => ret None
  | Some resource =>
      activeAllocation <-
        Allocation_findOne [ResourceIdEq (Oid (resource_id resource));
                            StartTimeLte (ValidDate currentTime);
                            EndTimeGte (ValidDate currentTime)] ;;
      ret (Some {| rd_resource := resource;
                   rd_status :=
                     match activeAllocation with
                     | Some _ => "Allocated"
                     | None => "Available"
                     end;
                   rd_currentAllocation := activeAllocation |})
  end.

(** ** Running a handler *)

Definition response_of {A} (x : A * Db * list DbCall) : A := fst (fst x).
Definition db_of {A} (x : A * Db * list DbCall) : Db := snd (fst x).

(** The requests that write to the allocations collection. *)
Inductive Request :=
| CreateAllocation (req : CreateRequest)
| UpdateAllocationStatus (id : IdArg) (status : option string)
| DeleteAllocation (id : IdArg).

Definition handle (r : Request) (currentTime : Z) (db : Db)
  : Response * Db * list DbCall :=
  match r with
  | CreateAllocation req => createAllocation req currentTime db
  | UpdateAllocationStatus id status => updateAllocationStatus id status db
  | DeleteAllocation id => deleteAllocation id db
  end.

(** The stores of an engine that serves its requests one at a time: it
    starts without allocations, the resource collection is managed elsewhere
    and may change at any time, and every request is served from its first
    line to its response, at some clock reading, before the next one
    starts.  No handler runs between the awaits of another; for that, see
    [interleaved]. *)
Inductive reachable : Db -> Prop :=
| reachable_init : forall rs n,
    reachable {| resources := rs; allocations := []; nextId := n |}
| reachable_resources : forall db rs,
    reachable db -> reachable (with_resources db rs)
| reachable_handle : forall db r currentTime,
    reachable db -> reachable (db_of (handle r currentTime db)).

(** ** Properties stated by the specification *)

(** Two intervals [s1,e1) and [s2,e2) overlap. *)
Definition overlap (s1 e1 s2 e2 : Z) : Prop := s1 < e2 /\ e1 > s2.

Definition approved (a : Allocation) : Prop := approvalStatus a = "approved".

Definition no_approved_overlap (db : Db) : Prop :=
  forall A B,
    In A (allocations db) -> In B (allocations db) ->
    _id A <> _id B ->
    resourceId A = resourceId B ->
    approved A -> approved B ->
    ~ overlap (startTime A) (endTime A) (startTime B) (endTime B).

Definition unique_ids (db : Db) : Prop :=
  NoDup (map _id (allocations db))
  /\ forall a, In a (allocations db) -> (_id a < nextId db)%nat.

Definition valid_ranges (db : Db) : Prop :=
  forall a, In a (allocations db) -> endTime a > startTime a.

(** The conflict set in the specification's words: the approved allocations
    of the resource whose interval overlaps the proposed one, minus the
    excluded allocation. *)
Definition conflict_set (db : Db) (rid : ObjectId) (s e : Z)
    (excludeAllocationId : option ObjectId) : list Allocation :=
  filter (fun existing =>
            Nat.eqb (resourceId existing) rid
            && String.eqb (approvalStatus existing) "approved"
            && (startTime existing <? e)
            && (endTime existing >? s)
            && match excludeAllocationId with
               | Some x => negb (Nat.eqb (_id existing) x)
               | None => true
               end)
         (allocations db).

(** The allocations that occupy a resource at an instant, whatever their
    approval status. *)
Definition occupies (rid : ObjectId) (now : Z) (a : Allocation) : Prop :=
  resourceId a = rid /\ startTime a <= now <= endTime a.

(** *** The outcomes of createAllocation *)

Definition lookup_resource (db : Db) (n : ObjectId) : option Resource :=
  find (fun r => Nat.eqb (resource_id r) n) (resources db).

Definition populated_of (db : Db) (a : Allocation) : option (string * string) :=
  option_map (fun r => (name r, type r)) (lookup_resource db (resourceId a)).

(** The document createAllocation builds from a request that passed its
    checks. *)
Definition created_doc (req : CreateRequest) (currentTime : Z) (db : Db)
    (rid : ObjectId) (who : string) (s e : Z) : Allocation :=
  {| _id := nextId db; resourceId := rid; assignedTo := trim who;
     startTime := s; endTime := e;
     purpose := trim (match truthy (body_purpose req) with
                      | Some p => p
                      | None => EmptyString
                      end);
     createdAt := currentTime;
     approvalStatus := if isAdmin (user req) then "approved" else "pending";
     requestedBy := option_map user_id (user req) |}.

Definition insert_doc (db : Db) (doc : Allocation) : Db :=
  {| resources := resources db;
     allocations := allocations db ++ [doc];
     nextId := S (nextId db) |}.

Inductive create_result (req : CreateRequest) (currentTime : Z) (db : Db)
  : Response * Db * list DbCall -> Prop :=
| create_refused : forall resp calls,
    status resp <> 201%nat -> status resp <> 409%nat ->
    success resp = false ->
    create_result req currentTime db (resp, db, calls)
| create_conflict : forall rid who s e resource,
    body_resourceId req = Some (Oid rid) ->
    truthy (body_assignedTo req) = Some who ->
    body_startTime req = Some (ValidDate s) ->
    body_endTime req = Some (ValidDate e) ->
    lookup_resource db rid = Some resource ->
    conflict_set db rid s e None <> [] ->
    create_result req currentTime db
      (json 409 false "Resource already allocated in this time range"
         (ConflictDetails (name resource)
            (map summary (conflict_set db rid s e None))),
       db, [Resource_findById_call; Allocation_find_call])
| create_saved : forall rid who s e resource,
    body_resourceId req = Some (Oid rid) ->
    truthy (body_assignedTo req) = Some who ->
    body_startTime req = Some (ValidDate s) ->
    body_endTime req = Some (ValidDate e) ->
    s < e -> currentTime <= s ->
    lookup_resource db rid = Some resource ->
    conflict_set db rid s e None = [] ->
    validate (created_doc req currentTime db rid who s e) = [] ->
    create_result req currentTime db
      (json 201 true "Allocation created successfully"
         (Data (created_doc req currentTime db rid who s e)
            (Some (name resource, type resource))),
       insert_doc db (created_doc req currentTime db rid who s e),
       [Resource_findById_call; Allocation_find_call; Allocation_save_call;
        Resource_populate_call]).

(** *** The outcomes of updateAllocationStatus *)

Definition lookup_allocation (db : Db) (n : ObjectId) : option Allocation :=
  find (fun a => Nat.eqb (_id a) n) (allocations db).

Definition update_doc (db : Db) (doc : Allocation) : Db :=
  with_allocations db (replace_first doc (allocations db)).

Inductive update_result (id : IdArg) (requested : option string) (db : Db)
  : Response * Db * list DbCall -> Prop :=
| update_refused : forall resp calls,
    status resp <> 200%nat -> status resp <> 409%nat ->
    success resp = false ->
    update_result id requested db (resp, db, calls)
| update_conflict : forall n a,
    id = Oid n -> requested = Some "approved" ->
    lookup_allocation db n = Some a ->
    conflict_set db (resourceId a) (startTime a) (endTime a) (Some n) <> [] ->
    update_result id requested db
      (json 409 false
         "Cannot approve - conflicts with existing approved allocation"
         NoPayload,
       db, [Allocation_findById_call; Allocation_find_call])
| update_saved : forall n a st,
    id = Oid n -> requested = Some st ->
    st = "approved" \/ st = "rejected" ->
    lookup_allocation db n = Some a ->
    (st = "approved" ->
     conflict_set db (resourceId a) (startTime a) (endTime a) (Some n) = []) ->
    endTime a > startTime a ->
    validate (set_approvalStatus a st) = [] ->
    update_result id requested db
      (json 200 true ("Allocation " ++ st ++ " successfully")%string
         (Data (set_approvalStatus a st) (populated_of db a)),
       update_doc db (set_approvalStatus a st),
       Allocation_findById_call
       :: (if String.eqb st "approved" then [Allocation_find_call] else [])
       ++ [Allocation_save_call; Resource_populate_call]).

(** *** The invariants of the store *)

Definition schema_valid (db : Db) : Prop :=
  forall a, In a (allocations db) -> validate a = [].

Definition store_invariant (db : Db) : Prop :=
  (unique_ids db /\ schema_valid db)
  /\ valid_ranges db /\ no_approved_overlap db.

(** *** The query for the current occupant *)

Definition active_query (rid : ObjectId) (currentTime : Z) : Query :=
  [ResourceIdEq (Oid rid); StartTimeLte (ValidDate currentTime);
   EndTimeGte (ValidDate currentTime)].

(** ** Scenarios *)

(** Clock readings and times are minutes: 600 is 10:00, 660 is 11:00. *)
Definition roomA : Resource :=
  {| resource_id := 1%nat; name := "Room A"; type := "Room";
     description := "Meeting room"; resource_createdAt := 0 |}.

Definition store0 : Db :=
  {| resources := [roomA]; allocations := []; nextId := 100%nat |}.

Definition admin_user : User := {| user_id := 7%nat; role := "Super User" |}.
Definition standard_user : User := {| user_id := 8%nat; role := "User" |}.

Definition booking_of (rid : IdArg) (u : User) (s e : Z) : CreateRequest :=
  {| body_resourceId := Some rid;
     body_assignedTo := Some "John Doe";
     body_startTime := Some (ValidDate s);
     body_endTime := Some (ValidDate e);
     body_purpose := Some "Team Meeting";
     user := Some u |}.

Definition booking : User -> Z -> Z -> CreateRequest := booking_of (Oid 1%nat).

(** A standard user requests 10:00-11:00, then 10:30-11:30; the second
    request is approved first; it is later rejected, and approved again. *)
Definition store1 : Db :=
  db_of (handle (CreateAllocation (booking standard_user 600 660)) 0 store0).

Definition store2 : Db :=
  db_of (handle (CreateAllocation (booking standard_user 630 690)) 0 store1).

Definition store3 : Db :=
  db_of (handle (UpdateAllocationStatus (Oid 101%nat) (Some "approved")) 0
           store2).

Definition store4 : Db :=
  db_of (handle (UpdateAllocationStatus (Oid 101%nat) (Some "rejected")) 0
           store3).

Definition request_at (id : ObjectId) (s e : Z) (st : string) : Allocation :=
  {| _id := id; resourceId := 1%nat; assignedTo := "John Doe";
     startTime := s; endTime := e; purpose := "Team Meeting";
     createdAt := 0; approvalStatus := st; requestedBy := Some 8%nat |}.

(** ** Further properties of the code *)

(** *** The model's overlap search, in words *)

(** What [findOverlapping] is documented to return: the allocations of the
    resource, of any approval status, whose interval overlaps the proposed
    one, minus the excluded allocation. *)
Definition overlapping_set (db : Db) (rid : ObjectId) (s e : Z)
    (excludeId : option ObjectId) : list Allocation :=
  filter (fun existing =>
            Nat.eqb (resourceId existing) rid
            && (startTime existing <? e)
            && (endTime existing >? s)
            && match excludeId with
               | Some x => negb (Nat.eqb (_id existing) x)
               | None => true
               end)
         (allocations db).

(** *** The read-only handlers *)

(** [.sort({ key: -1 })]: descending by the key.  MongoDB leaves the order
    of documents with equal keys open; here they keep the collection's. *)
Fixpoint insert_desc {A} (key : A -> Z) (x : A) (l : list A) : list A :=
  match l with
  | [] => [x]
  | y :: l' => if key y <=? key x then x :: l else y :: insert_desc key x l'
  end.

Definition sort_desc {A} (key : A -> Z) (l : list A) : list A :=
  fold_right (insert_desc key) [] l.

(** Every element's key is at least the key of every element after it. *)
Definition descending {A} (key : A -> Z) (l : list A) : Prop :=
  StronglySorted (fun x y => key y <= key x) l.

(** The body [{ success: true, count, data }] of a 200 answer. *)
Record Listing (A : Type) := {
  count : nat;
  data : list A
}.
Arguments count {A} _.
Arguments data {A} _.

Definition listing {A} (l : list A) : Listing A :=
  {| count := List.length l; data := l |}.

(** getAllAllocations: every allocation, latest start first, each with its
    computed status.  The handler reads the store only, its query has no
    value to cast, and so it is a function of the store.  In the three
    listings [populate] fills in fields of the referenced documents; they
    are given here by their allocations. *)
Definition getAllAllocations (currentTime : Z) (db : Db)
  : Listing AllocationWithStatus :=
  let allocations := sort_desc startTime (allocations db) in
  let allocationsWithStatus := allocationsWithStatus allocations currentTime in
  listing allocationsWithStatus.

(** getMyAllocations, for the [req.user] the protect middleware has set. *)
Definition getMyAllocations (user : User) (db : Db) : Listing Allocation :=
  let allocations :=
    sort_desc createdAt
      (filter (fun a =>
                 match requestedBy a with
                 | Some u => Nat.eqb u (user_id user)
                 | None => false
                 end)
              (allocations db)) in
  listing allocations.

(** getPendingAllocations. *)
Definition getPendingAllocations (db : Db) : Listing Allocation :=
  let allocations :=
    sort_desc createdAt
      (filter (matches [ApprovalStatusEq "pending"]) (allocations db)) in
  listing allocations.

(** *** The dashboard controller *)

Record RecentAllocation := {
  recent_id : ObjectId;
  recent_resource : string;
  recent_assignedTo : string;
  recent_startTime : Z;
  recent_endTime : Z;
  recent_status : string
}.

Record DashboardStats := {
  totalResources : nat;
  totalAllocations : nat;
  activeAllocations : nat;
  availableResources : Z;
  upcomingAllocations : nat;
  recentAllocations : list RecentAllocation
}.

(** [Allocation.countDocuments(filter)] *)
Definition countDocuments (q : Query) (db : Db) : nat :=
  List.length (filter (matches q) (allocations db)).

(** [Allocation.distinct('resourceId', filter)] *)
Definition distinct_resourceId (q : Query) (db : Db) : list ObjectId :=
  nodup Nat.eq_dec (map resourceId (filter (matches q) (allocations db))).

Definition getDashboardStats (currentTime : Z) (db : Db) : DashboardStats :=
  let totalResources := List.length (resources db) in
  let totalAllocations := List.length (allocations db) in
  let activeAllocations :=
    countDocuments [StartTimeLte (ValidDate currentTime);
                    EndTimeGte (ValidDate currentTime)] db in
  let upcomingAllocations :=
    countDocuments [StartTimeGt (ValidDate currentTime)] db in
  let resourcesWithActiveAllocation :=
    distinct_resourceId [StartTimeLte (ValidDate currentTime);
                         EndTimeGte (ValidDate currentTime)] db in
  let allocatedResourceCount := List.length resourcesWithActiveAllocation in
  let availableResources :=
    Z.of_nat totalResources - Z.of_nat allocatedResourceCount in
  let recentAllocations := firstn 5 (sort_desc createdAt (allocations db)) in
  let recentAllocationsWithStatus :=
    map (fun alloc =>
           let status :=
             if currentTime <? startTime alloc then "Upcoming"
             else if (startTime alloc <=? currentTime)
                     && (currentTime <=? endTime alloc) then "Active"
             else "Completed" in
           {| recent_id := _id alloc;
              recent_resource :=
                match lookup_resource db (resourceId alloc) with
                | Some resource => name resource
                | None => "Unknown"
                end;
              recent_assignedTo := assignedTo alloc;
              recent_startTime := startTime alloc;
              recent_endTime := endTime alloc;
              recent_status := status |})
        recentAllocations in
  {| totalResources := totalResources;
     totalAllocations := totalAllocations;
     activeAllocations := activeAllocations;
     availableResources := availableResources;
     upcomingAllocations := upcomingAllocations;
     recentAllocations := recentAllocationsWithStatus |}.

(** The status getAllResources gives a resource, read off its answer. *)
Definition status_of (resource : Resource) (currentTime : Z) (db : Db)
  : string :=
  match resourceWithStatus resource currentTime db with
  | (Returned r, _, _) => rws_status r
  | (Threw _, _, _) => EmptyString
  end.

(** *** The clients of GET /api/resources *)

(** The Resource Status page: its counters and its filter. *)
Definition availableCount (resources : list ResourceWithStatus) : nat :=
  List.length
    (filter (fun r => String.eqb (rws_status r) "Available") resources).

Definition allocatedCount (resources : list ResourceWithStatus) : nat :=
  List.length
    (filter (fun r => String.eqb (rws_status r) "Allocated") resources).

Definition filteredResources (selected : string)
    (resources : list ResourceWithStatus) : list ResourceWithStatus :=
  filter (fun resource =>
            if String.eqb selected "all" then true
            else if String.eqb selected "available"
                 then String.eqb (rws_status resource) "Available"
            else if String.eqb selected "allocated"
                 then String.eqb (rws_status resource) "Allocated"
            else true)
         resources.

(** The mobile resource list: [isAvailable] of its [renderItem]. *)
Definition isAvailable (item : ResourceWithStatus) : bool :=
  String.eqb (rws_status item) "available".

(** An allocation with its approval status blanked: what the status
    derivations read of it. *)
Definition without_approval (a : Allocation) : Allocation :=
  set_approvalStatus a EmptyString.

(** The item getAllResources returns for a resource. *)
Definition resource_item (resource : Resource) (currentTime : Z) (db : Db)
  : ResourceWithStatus :=
  let activeAllocation :=
    find (matches (active_query (resource_id resource) currentTime))
      (allocations db) in
  {| rws_resource := resource;
     rws_status := match activeAllocation with
                   | Some _ => "Allocated"
                   | None => "Available"
                   end;
     currentAllocation := option_map summary activeAllocation |}.

(** Every allocation refers to a stored resource, and resource ids are
    unique. *)
Definition references_resolve (db : Db) : Prop :=
  NoDup (map resource_id (resources db))
  /\ forall a, In a (allocations db) ->
       exists r, In r (resources db) /\ resource_id r = resourceId a.

(** *** The Resource model and createResource *)

(** [String.prototype.toUpperCase] of a one-character string.  Of the code
    units below 256, a to z, U+00E0 to U+00F6 and U+00F8 to U+00FE map to
    the code unit 32 below; U+00DF (sharp s) maps to the two characters
    'SS'; U+00B5 (micro sign) and U+00FF map to U+039C and U+0178, which
    are no characters of the model ([None]); the others are unchanged. *)
Definition toUpperCase (c : ascii) : option string :=
  let n := nat_of_ascii c in
  if ((97 <=? n)%nat && (n <=? 122)%nat)
     || ((224 <=? n)%nat && (n <=? 254)%nat && negb (n =? 247)%nat)
  then Some (String (ascii_of_nat (n - 32)) EmptyString)
  else if (n =? 223)%nat then Some "SS"
  else if (n =? 181)%nat || (n =? 255)%nat then None
  else Some (String c EmptyString).

(** [resourceSchema.pre('save')]: the first letter of the name is
    capitalised; the assignment runs the [trim] setter of the path again.
    [None] when the capitalised name is no string of the model. *)
Definition Resource_pre_save (this : Resource) : option Resource :=
  match name this with
  | EmptyString => Some this
  | String c rest =>
      match toUpperCase c with
      | Some upper =>
          Some {| resource_id := resource_id this;
                  name := trim (upper ++ rest)%string;
                  type := type this;
                  description := description this;
                  resource_createdAt := resource_createdAt this |}
      | None => None
      end
  end.

Definition validate_name (s : string) : list PathError :=
  if String.eqb s EmptyString
  then [SchemaMessage "Resource name is required"]
  else if (100 <? String.length s)%nat
       then [SchemaMessage "Resource name cannot exceed 100 characters"]
       else [].

Definition validate_type (s : string) : list PathError :=
  if String.eqb s EmptyString
  then [SchemaMessage "Resource type is required"]
  else if (50 <? String.length s)%nat
       then [SchemaMessage "Resource type cannot exceed 50 characters"]
       else [].

Definition validate_description (s : string) : list PathError :=
  if (500 <? String.length s)%nat
  then [SchemaMessage "Description cannot exceed 500 characters"]
  else [].

Definition validate_resource (doc : Resource) : list PathError :=
  validate_name (name doc) ++ validate_type (type doc)
  ++ validate_description (description doc).

(** [req.body] of POST /api/resources. *)
Record ResourceRequest := {
  body_name : option string;
  body_type : option string;
  body_description : option string
}.

Inductive ResourceReply :=
| ResourceCreated (savedResource : Resource)
| ResourceRefused (code : nat) (msg : string) (errors : list PathError).

(** createResource: 201 'Resource created successfully' with the saved
    document, or 400 with its message and, from the catch block, the
    messages of the failed paths.  Validation runs before the schema's
    pre-save hook.  [None] when the hook leaves the strings of the model. *)
Definition createResource (req : ResourceRequest) (currentTime : Z) (db : Db)
  : option (ResourceReply * Db) :=
  match truthy (body_name req), truthy (body_type req) with
  | Some name0, Some type0 =>
      let newResource :=
        {| resource_id := nextId db;
           name := trim name0;
           type := trim type0;
           description :=
             trim (match truthy (body_description req) with
                   | Some description0 => description0
                   | None => EmptyString
                   end);
           resource_createdAt := currentTime |} in
      match validate_resource newResource with
      | (_ :: _) as errors =>
          Some (ResourceRefused 400 "Validation error" errors, db)
      | [] =>
          match Resource_pre_save newResource with
          | Some savedResource =>
              Some (ResourceCreated savedResource,
                    {| resources := resources db ++ [savedResource];
                       allocations := allocations db;
                       nextId := S (nextId db) |})
          | None => None
          end
      end
  | _, _ =>
      Some (ResourceRefused 400 "Name and type are required fields" [], db)
  end.

(** The stores of a server whose resources are only ever created through
    createResource: it starts empty and serves requests one at a time. *)
Inductive served : Db -> Prop :=
| served_init : forall n,
    served {| resources := []; allocations := []; nextId := n |}
| served_createResource : forall db req currentTime reply db',
    served db ->
    createResource req currentTime db = Some (reply, db') ->
    served db'
| served_handle : forall db r currentTime,
    served db -> served (db_of (handle r currentTime db)).

(** The lower-case letters among the code units below 256: a to z, the
    micro sign, and U+00DF to U+00FF without the division sign. *)
Definition is_lower (c : ascii) : bool :=
  let n := nat_of_ascii c in
  ((97 <=? n)%nat && (n <=? 122)%nat)
  || (n =? 181)%nat
  || ((223 <=? n)%nat && (n <=? 255)%nat && negb (n =? 247)%nat).

(** No white space at either end. *)
Definition trimmed (s : string) : Prop := trim s = s.

(** The name the schema validated: not empty, trimmed, at most 100
    characters. *)
Definition valid_name (s : string) : Prop :=
  s <> EmptyString /\ trimmed s /\ (String.length s <= 100)%nat.

(** [stored] is [validated] with its first character in upper case. *)
Definition capitalised (validated stored : string) : Prop :=
  exists c rest upper,
    validated = String c rest
    /\ toUpperCase c = Some upper
    /\ stored = (upper ++ rest)%string.

(** A stored resource: its name is a validated name capitalised, and is
    itself not empty, trimmed and without a lower-case first letter; type
    and description are as validated. *)
Definition well_named (r : Resource) : Prop :=
  name r <> EmptyString
  /\ trimmed (name r)
  /\ (forall c rest, name r = String c rest -> is_lower c = false)
  /\ (exists validated, valid_name validated /\ capitalised validated (name r))
  /\ type r <> EmptyString
  /\ (String.length (type r) <= 50)%nat
  /\ (String.length (description r) <= 500)%nat.

(** *** Authentication and the allocation routes *)

(** A document of the users collection. *)
Record Account := {
  account_id : ObjectId;
  account_name : string;
  account_email : string;
  account_role : string;
  account_password : string;
  account_status : string;
  account_department : string
}.

(** An account without its password: what [select('-password')] keeps, and
    the fields the login answer lists. *)
Record Profile := {
  profile_id : ObjectId;
  profile_name : string;
  profile_email : string;
  profile_role : string;
  profile_department : string;
  profile_status : string
}.

Definition profile_of (account : Account) : Profile :=
  {| profile_id := account_id account;
     profile_name := account_name account;
     profile_email := account_email account;
     profile_role := account_role account;
     profile_department := account_department account;
     profile_status := account_status account |}.

(** [req.user], as the controllers read it. *)
Definition as_user (p : Profile) : User :=
  {| user_id := profile_id p; role := profile_role p |}.

(** A token [generateToken(id)] signed: within its seven days
    [jwt.verify] decodes it to that id. *)
Inductive Token := TokenFor (id : ObjectId).

(** The Authorization header of a request, as [protect] treats it: absent
    or not starting with 'Bearer'; a token [jwt.verify] rejects; a token it
    decodes, with the decoded id. *)
Inductive Authorization :=
| NoBearer
| BearerInvalid
| BearerOf (id : IdArg).


(** The protect middleware: the refusal it answers, or the user it
    attaches to the request before calling [next]. *)
Definition protect (users : list Account) (authorization : Authorization)
  : Response + Profile :=
  match authorization with
  | NoBearer =>
      inl (json 401 false "Not authorized, no token provided" NoPayload)
  | BearerInvalid | BearerOf Malformed =>
      inl (json 401 false "Not authorized, token failed" NoPayload)
  | BearerOf (Oid n) =>
      match find (fun u => Nat.eqb (account_id u) n) users with
      | None => inl (json 401 false "User not found" NoPayload)
      | Some user =>
          if String.eqb (account_status user) "blocked"
          then inl (json 403 false
                      "Your account has been blocked. Contact administrator."
                      NoPayload)
          else inr (profile_of user)
      end
  end.

(** The adminOnly middleware: the refusal, or [None] for [next]. *)
Definition adminOnly (user : option User) : option Response :=
  match user with
  | Some u =>
      if String.eqb (role u) "Super User" then None
      else Some (json 403 false "Access denied. Admin privileges required."
                   NoPayload)
  | None =>
      Some (json 403 false "Access denied. Admin privileges required."
              NoPayload)
  end.

Definition with_user (req : CreateRequest) (u : option User) : CreateRequest :=
  {| body_resourceId := body_resourceId req;
     body_assignedTo := body_assignedTo req;
     body_startTime := body_startTime req;
     body_endTime := body_endTime req;
     body_purpose := body_purpose req;
     user := u |}.

(** The three writing routes of the allocation router: POST / behind
    protect, PUT /:id/status and DELETE /:id behind protect and adminOnly.
    The log lists the calls on the resources and allocations. *)
Definition route (users : list Account) (authorization : Authorization)
    (r : Request) (currentTime : Z) (db : Db)
  : Response * Db * list DbCall :=
  match protect users authorization with
  | inl refusal => (refusal, db, [])
  | inr account =>
      let user := Some (as_user account) in
      match r with
      | CreateAllocation req =>
          createAllocation (with_user req user) currentTime db
      | UpdateAllocationStatus id requested =>
          match adminOnly user with
          | Some refusal => (refusal, db, [])
          | None => updateAllocationStatus id requested db
          end
      | DeleteAllocation id =>
          match adminOnly user with
          | Some refusal => (refusal, db, [])
          | None => deleteAllocation id db
          end
      end
  end.

(** [String.prototype.toLowerCase]: of the code units below 256, A to Z,
    U+00C0 to U+00D6 and U+00D8 to U+00DE map to the code unit 32 above;
    the others are unchanged. *)
Definition toLowerCase_char (c : ascii) : ascii :=
  let n := nat_of_ascii c in
  if ((65 <=? n)%nat && (n <=? 90)%nat)
     || ((192 <=? n)%nat && (n <=? 222)%nat && negb (n =? 215)%nat)
  then ascii_of_nat (n + 32) else c.

Fixpoint toLowerCase (s : string) : string :=
  match s with
  | EmptyString => EmptyString
  | String c s' => String (toLowerCase_char c) (toLowerCase s')
  end.

Inductive LoginReply :=
| LoginOk (data : Profile) (token : Token)
| LoginRefused (code : nat) (msg : string).

(** The setters of the [email] path of the user schema, [trim: true] and
    [lowercase: true].  Mongoose runs the setters of a path, the last
    declared first, on a value that is saved and on a value of a query
    filter. *)
Definition User_email_setters (v : string) : string :=
  trim (toLowerCase v).

(** The login controller.  The filter of [User.findOne] is the entered
    email in lower case, cast by the schema.  [matchPassword] is the model's
    method, bcrypt's comparison of the entered password with the stored
    hash. *)
Definition login (matchPassword : Account -> string -> bool)
    (email password : option string) (users : list Account) : LoginReply :=
  match truthy email, truthy password with
  | Some email0, Some password0 =>
      match find (fun u => String.eqb (account_email u)
                             (User_email_setters (toLowerCase email0)))
              users with
      | None => LoginRefused 401 "Invalid email or password"
      | Some user =>
          if String.eqb (account_status user) "blocked" then
            LoginRefused 403
              "Your account has been blocked. Contact administrator."
          else if matchPassword user password0 then
            LoginOk (profile_of user) (TokenFor (account_id user))
          else LoginRefused 401 "Invalid email or password"
      end
  | _, _ => LoginRefused 400 "Please provide email and password"
  end.

(** The allocations whose approval status is 'approved'. *)
Definition approved_allocations (db : Db) : list Allocation :=
  filter (fun a => String.eqb (approvalStatus a) "approved") (allocations db).

(** *** Vocabulary of the proofs *)

(** [trim] on the list of characters. *)
Definition trim_list (l : list ascii) : list ascii :=
  rev (trimStart (rev (trimStart l))).

(** No white space at either end. *)
Definition clean (l : list ascii) : Prop :=
  trimStart l = l /\ trimStart (rev l) = rev l.

(** What every store built by the handlers satisfies. *)
Definition served_invariant (db : Db) : Prop :=
  store_invariant db
  /\ references_resolve db
  /\ forall r, In r (resources db) ->
       (resource_id r < nextId db)%nat /\ well_named r.

(** The outcomes of createResource. *)
Inductive createResource_result (req : ResourceRequest) (currentTime : Z)
    (db : Db) : option (ResourceReply * Db) -> Prop :=
| resource_refused : forall msg errors,
    createResource_result req currentTime db
      (Some (ResourceRefused 400 msg errors, db))
| resource_unrepresented : forall name0 c rest,
    truthy (body_name req) = Some name0 ->
    trim name0 = String c rest ->
    toUpperCase c = None ->
    createResource_result req currentTime db None
| resource_created : forall name0 type0 c rest upper,
    truthy (body_name req) = Some name0 ->
    truthy (body_type req) = Some type0 ->
    trim name0 = String c rest ->
    toUpperCase c = Some upper ->
    let saved :=
      {| resource_id := nextId db;
         name := (upper ++ rest)%string;
         type := trim type0;
         description :=
           trim (match truthy (body_description req) with
                 | Some d => d
                 | None => EmptyString
                 end);
         resource_createdAt := currentTime |} in
    well_named saved ->
    createResource_result req currentTime db
      (Some (ResourceCreated saved,
             {| resources := resources db ++ [saved];
                allocations := allocations db;
                nextId := S (nextId db) |})).

(** *** A second scenario: resources through the API, and accounts *)

Definition projector_request : ResourceRequest :=
  {| body_name := Some "  projector 2 "; body_type := Some "Equipment";
     body_description := None |}.

Definition projector : Resource :=
  {| resource_id := 1%nat; name := "Projector 2"; type := "Equipment";
     description := EmptyString; resource_createdAt := 0 |}.

Definition served0 : Db :=
  {| resources := []; allocations := []; nextId := 1%nat |}.

Definition served1 : Db :=
  match createResource projector_request 0 served0 with
  | Some (_, db) => db
  | None => served0
  end.

(** Names beyond ASCII: 'eclair room' with U+00E9 first, and a name of 100
    characters that starts with U+00DF. *)
Definition eclair_request : ResourceRequest :=
  {| body_name := Some (String (ascii_of_nat 233) "clair room");
     body_type := Some "Room"; body_description := None |}.

Definition strasse_request : ResourceRequest :=
  {| body_name :=
       Some (String (ascii_of_nat 223)
               (string_of_list_ascii (repeat (ascii_of_nat 97) 99)));
     body_type := Some "Room"; body_description := None |}.

Definition served2 : Db :=
  db_of (handle (CreateAllocation (booking standard_user 600 660)) 0 served1).

Definition alice : Account :=
  {| account_id := 7%nat; account_name := "Alice";
     account_email := "alice@example.com"; account_role := "Super User";
     account_password := "hash-a"; account_status := "active";
     account_department := "IT" |}.

Definition bob : Account :=
  {| account_id := 8%nat; account_name := "Bob";
     account_email := "bob@example.com"; account_role := "User";
     account_password := "hash-b"; account_status := "active";
     account_department := "Sales" |}.

Definition carol : Account :=
  {| account_id := 9%nat; account_name := "Carol";
     account_email := "carol@example.com"; account_role := "Super User";
     account_password := "hash-c"; account_status := "blocked";
     account_department := "IT" |}.

Definition staff : list Account := [alice; bob; carol].


(** ** Requests in flight *)

(** A handler is an [async] function: it runs until its next [await],
    where other handlers may run, and goes on with the awaited result.  A
    [Task] is what is left of a handler: its response, or the database call
    it awaits and what it does with the result. *)
Inductive Task :=
| Finished (response : Response)
| Await (X : Type) (m : M X) (k : X -> Task).

Arguments Await {X} m k.

Notation "x <~ m ;; k" := (Await m (fun x => k))
  (at level 61, m at next level, right associativity).

(** createAllocation, await by await. *)
Definition createAllocation_task (req : CreateRequest) (currentTime : Z)
  : Task :=
  match body_resourceId req, truthy (body_assignedTo req),
        body_startTime req, body_endTime req with
  | Some resourceId, Some assignedTo, Some newStartTime, Some newEndTime =>
      if date_le newEndTime newStartTime then
        Finished (json 400 false "End time must be after start time"
                    NoPayload)
      else if date_lt newStartTime (ValidDate currentTime) then
        Finished (json 400 false "Start time cannot be in the past"
                    NoPayload)
      else
        resource <~ Resource_findById resourceId ;;
        match resource with
        | None => Finished (json 404 false "Resource not found" NoPayload)
        | Some resource =>
            conflictingAllocations <~
              find_conflictingAllocations resourceId newStartTime newEndTime ;;
            if (0 <? List.length conflictingAllocations)%nat then
              Finished (json 409 false
                          "Resource already allocated in this time range"
                          (ConflictDetails (name resource)
                             (map summary conflictingAllocations)))
            else
              let approvalStatus :=
                if isAdmin (user req) then "approved" else "pending" in
              savedAllocation <~
                Allocation_create
                  {| in_resourceId := resourceId;
                     in_assignedTo := assignedTo;
                     in_startTime := newStartTime;
                     in_endTime := newEndTime;
                     in_purpose :=
                       match truthy (body_purpose req) with
                       | Some purpose => purpose
                       | None => EmptyString
                       end;
                     in_approvalStatus := approvalStatus;
                     in_requestedBy := option_map user_id (user req) |}
                  currentTime ;;
              populated <~ populate savedAllocation ;;
              Finished (json 201 true "Allocation created successfully"
                          (Data savedAllocation populated))
        end
  | _, _, _, _ =>
      Finished
        (json 400 false
           "resourceId, assignedTo, startTime, and endTime are required fields"
           NoPayload)
  end.

(** updateAllocationStatus, await by await. *)
Definition updateAllocationStatus_task (id : IdArg) (status : option string)
  : Task :=
  let invalid :=
    Finished (json 400 false
                ("Status must be " ++ quoted "approved" ++ " or "
                 ++ quoted "rejected")%string
                NoPayload) in
  match status with
  | None => invalid
  | Some status =>
      if negb (existsb (String.eqb status) ["approved"; "rejected"]) then
        invalid
      else
        allocation <~ Allocation_findById id ;;
        match allocation with
        | None => Finished (json 404 false "Allocation not found" NoPayload)
        | Some allocation =>
            let update :=
              saved <~ Allocation_save (set_approvalStatus allocation status) ;;
              populated <~ populate saved ;;
              Finished (json 200 true
                          ("Allocation " ++ status ++ " successfully")%string
                          (Data saved populated)) in
            if String.eqb status "approved" then
              conflicts <~ find_conflicts id allocation ;;
              if (0 <? List.length conflicts)%nat then
                Finished
                  (json 409 false
                     "Cannot approve - conflicts with existing approved allocation"
                     NoPayload)
              else update
            else update
        end
  end.

(** deleteAllocation, await by await. *)
Definition deleteAllocation_task (id : IdArg) : Task :=
  deletedAllocation <~ Allocation_findByIdAndDelete id ;;
  match deletedAllocation with
  | None => Finished (json 404 false "Allocation not found" NoPayload)
  | Some deletedAllocation =>
      Finished (json 200 true "Allocation deleted successfully"
                  (Data deletedAllocation None))
  end.

(** A handler in flight: the rest of its try block and its catch block. *)
Record Running := {
  task : Task;
  catch : Thrown -> Response
}.

(** A request arrives: its handler runs up to its first [await]. *)
Definition start (r : Request) (currentTime : Z) : Running :=
  match r with
  | CreateAllocation req =>
      {| task := createAllocation_task req currentTime;
         catch := createAllocation_catch |}
  | UpdateAllocationStatus id status =>
      {| task := updateAllocationStatus_task id status;
         catch := fun error =>
                    json 500 false "Failed to update allocation status"
                      (ErrorMessage error) |}
  | DeleteAllocation id =>
      {| task := deleteAllocation_task id;
         catch := fun error =>
                    json 500 false "Failed to delete allocation"
                      (ErrorMessage error) |}
  end.



Fixpoint update_nth {A} (i : nat) (x : A) (l : list A) : list A :=
  match l, i with
  | [], _ => []
  | _ :: l', O => x :: l'
  | y :: l', S i' => y :: update_nth i' x l'
  end.

(** The store and the handlers in flight.  [resume i]: the database call
    the [i]-th handler awaits is made on the store as it is then, and the
    handler runs on to its next [await] or to its response; an error thrown
    by the call is caught by the handler's catch block. *)
Definition Server : Type := Db * list Running.

Definition resume (i : nat) (s : Server) : Server :=
  let (db, pool) := s in
  match nth_error pool i with
  | Some h =>
      match task h with
      | Finished _ => s
      | Await m k =>
          match m db with
          | (Returned x, db1, _) =>
              (db1, update_nth i {| task := k x; catch := catch h |} pool)
          | (Threw e, db1, _) =>
              (db1,
               update_nth i {| task := Finished (catch h e);
                               catch := catch h |} pool)
          end
      end
  | None => s
  end.

(** The states of a server whose handlers interleave at their awaits: it
    starts without allocations and without requests, the resource collection
    may change at any time, a request may arrive at any time and at any
    clock reading, and any handler in flight may be resumed next. *)
Inductive interleaved : Server -> Prop :=
| interleaved_init : forall rs n,
    interleaved ({| resources := rs; allocations := []; nextId := n |}, [])
| interleaved_resources : forall db pool rs,
    interleaved (db, pool) -> interleaved (with_resources db rs, pool)
| interleaved_request : forall db pool r currentTime,
    interleaved (db, pool) -> interleaved (db, pool ++ [start r currentTime])
| interleaved_resume : forall s i,
    interleaved s -> interleaved (resume i s).

(** What happens on a server, in order: requests arrive and handlers in
    flight are resumed. *)
Inductive Event :=
| Arrives (r : Request) (currentTime : Z)
| Resumes (i : nat).

Definition happen (s : Server) (e : Event) : Server :=
  match e with
  | Arrives r currentTime => (fst s, snd s ++ [start r currentTime])
  | Resumes i => resume i s
  end.

Definition play (events : list Event) (s : Server) : Server :=
  fold_left happen events s.

(** Two administrators book Room A for 10:00-11:00 and for 10:30-11:30 at
    the same moment: each handler looks up the resource, then each searches
    for conflicts, then each saves, then each populates its answer. *)
Definition raced : Server :=
  play [Arrives (CreateAllocation (booking admin_user 600 660)) 0;
        Arrives (CreateAllocation (booking admin_user 630 690)) 0;
        Resumes 0; Resumes 1; Resumes 0; Resumes 1;
        Resumes 0; Resumes 1; Resumes 0; Resumes 1]%nat
    (store0, []).

(** Two standard users request 10:00-11:00 and 10:30-11:30, one after the
    other; then an administrator approves both requests at the same moment:
    each handler reads its allocation, then each searches for conflicts,
    then each saves. *)
Definition raced_approvals : Server :=
  play [Arrives (CreateAllocation (booking standard_user 600 660)) 0;
        Resumes 0; Resumes 0; Resumes 0; Resumes 0;
        Arrives (CreateAllocation (booking standard_user 630 690)) 0;
        Resumes 1; Resumes 1; Resumes 1; Resumes 1;
        Arrives (UpdateAllocationStatus (Oid 100) (Some "approved")) 0;
        Arrives (UpdateAllocationStatus (Oid 101) (Some "approved")) 0;
        Resumes 2; Resumes 3; Resumes 2; Resumes 3;
        Resumes 2; Resumes 3; Resumes 2; Resumes 3]%nat
    (store0, []).



(** What every write keeps on its own: ids are unique and below the next
    id, stored paths are valid, and every interval ends after it starts. *)
Definition sound_documents (db : Db) : Prop :=
  unique_ids db /\ schema_valid db /\ valid_ranges db.

(** Every database call a task can still make keeps the documents sound,
    whatever the store it is made on and whatever earlier calls returned. *)
Fixpoint keeps_sound (t : Task) : Prop :=
  match t with
  | Finished _ => True
  | Await m k =>
      (forall db, sound_documents db -> sound_documents (snd (fst (m db))))
      /\ (forall x, keeps_sound (k x))
  end.

(** *** Lists as collections *)

Section Collections.
Context {A : Type}.
Implicit Types (f : A -> bool) (l : list A).

Lemma find_absent f l :
  (forall x, In x l -> f x = false) -> find f l = None.
Proof.
  induction l as [|x l IH]; simpl; intros H; [reflexivity|].
  rewrite (H x (or_introl eq_refl)). apply IH. intros y Hy. apply H. now right.
Qed.

Lemma find_present f l x :
  find f l = Some x -> In x l /\ f x = true.
Proof.
  induction l as [|y l IH]; simpl; [discriminate|].
  destruct (f y) eqn:E.
  - intros [= ->]. auto.
  - intros H. destruct (IH H). auto.
Qed.

Lemma find_exists f l x :
  In x l -> f x = true -> exists y, find f l = Some y.
Proof.
  induction l as [|y l IH]; simpl; [tauto|].
  intros [->|Hin] Hf.
  - rewrite Hf. eauto.
  - destruct (f y); eauto.
Qed.

Lemma NoDup_snoc l (x : A) :
  NoDup l -> ~ In x l -> NoDup (l ++ [x]).
Proof.
  induction l as [|y l IH]; simpl; intros Hl Hx.
  - constructor; [tauto | constructor].
  - inversion Hl as [|? ? Hy Hl']; subst. constructor.
    + rewrite in_app_iff. simpl. intros [H|[H|[]]]; [tauto|].
      apply Hx. auto.
    + apply IH; tauto.
Qed.

End Collections.

(** *** Time status *)

Lemma timeStatus_cases (a : Allocation) (now : Z) :
  (now < startTime a /\ timeStatus a now = "Upcoming")
  \/ (startTime a <= now <= endTime a /\ timeStatus a now = "Active")
  \/ (startTime a <= now /\ endTime a < now
      /\ timeStatus a now = "Completed").
Proof.
  unfold timeStatus.
  destruct (Z.ltb_spec now (startTime a)); [left; split; trivial|].
  destruct (Z.leb_spec (startTime a) now); [|lia].
  destruct (Z.leb_spec now (endTime a)); simpl.
  - right; left; split; [lia | reflexivity].
  - right; right; repeat split; trivial.
Qed.

Lemma allocationsWithStatus_timeStatus (l : list Allocation) (now : Z) :
  map aws_timeStatus (allocationsWithStatus l now)
  = map (fun a => timeStatus a now) l.
Proof.
  unfold allocationsWithStatus; rewrite map_map; reflexivity.
Qed.

(** C6. The time status is a total, deterministic function of the start time,
    the end time and the clock reading: it is one of Upcoming, Active and
    Completed, it is the same for equal inputs, the controller's inline
    computation agrees with the model's virtual, now < start gives Upcoming,
    and on an allocation (whose end is not before its start) both bounds are
    inclusive: start = now and end = now give Active, now > end gives
    Completed. *)
Theorem timeStatus_total_deterministic_inclusive :
  forall (a : Allocation) (now : Z),
    (timeStatus a now = "Upcoming" \/ timeStatus a now = "Active"
     \/ timeStatus a now = "Completed")
    /\ (forall a' now',
           startTime a' = startTime a -> endTime a' = endTime a ->
           now' = now -> timeStatus a' now' = timeStatus a now)
    /\ (forall l,
           map aws_timeStatus (allocationsWithStatus l now)
           = map (fun x => timeStatus x now) l)
    /\ (now < startTime a -> timeStatus a now = "Upcoming")
    /\ (startTime a <= endTime a ->
        (startTime a = now -> timeStatus a now = "Active")
        /\ (endTime a = now -> timeStatus a now = "Active")
        /\ (startTime a <= now <= endTime a -> timeStatus a now = "Active")
        /\ (now > endTime a -> timeStatus a now = "Completed")).
Proof.
  intros a now.
  split; [destruct (timeStatus_cases a now) as [[_ H]|[[_ H]|(_ & _ & H)]];
          auto|].
  split; [intros a' now' Hs He Hn; unfold timeStatus;
          rewrite Hs, He, Hn; reflexivity|].
  split; [intros l; apply allocationsWithStatus_timeStatus|].
  split.
  - intros H; destruct (timeStatus_cases a now) as [[_ E]|[[? E]|(? & ? & E)]];
      trivial; lia.
  - intros Hwf.
    assert (Hact : startTime a <= now <= endTime a ->
                   timeStatus a now = "Active").
    { intros H; destruct (timeStatus_cases a now)
        as [[? E]|[[? E]|(? & ? & E)]]; trivial; lia. }
    repeat split.
    + intros; apply Hact; lia.
    + intros; apply Hact; lia.
    + exact Hact.
    + intros H; destruct (timeStatus_cases a now)
        as [[? E]|[[? E]|(? & ? & E)]]; trivial; lia.
Qed.

(** *** Status update: validation of the requested status *)

(** C10. A status other than exactly 'approved' or 'rejected', a missing one
    included, is answered with the 400 validation error; no database call is
    made (the allocation is not read, whatever the id) and the store is
    unchanged. *)
Theorem updateAllocationStatus_invalid_status :
  forall (id : IdArg) (status : option string) (db : Db),
    status <> Some "approved" -> status <> Some "rejected" ->
    updateAllocationStatus id status db
    = (json 400 false
         ("Status must be " ++ quoted "approved" ++ " or "
          ++ quoted "rejected")%string NoPayload,
       db, []).
Proof.
  intros id status db Ha Hr.
  unfold updateAllocationStatus, try_catch, updateAllocationStatus_try.
  destruct status as [s|]; [|reflexivity].
  assert (E : existsb (String.eqb s) ["approved"; "rejected"] = false).
  { simpl. destruct (String.eqb_spec s "approved") as [->|_]; [congruence|].
    destruct (String.eqb_spec s "rejected") as [->|_]; [congruence|].
    reflexivity. }
  rewrite E. reflexivity.
Qed.

(** *** Creation: the checks before the overlap search *)

Lemma date_le_valid (a b : Z) :
  date_le (ValidDate a) (ValidDate b) = true <-> a <= b.
Proof. apply Z.leb_le. Qed.

Lemma date_lt_valid (a b : Z) :
  date_lt (ValidDate a) (ValidDate b) = true <-> a < b.
Proof. apply Z.ltb_lt. Qed.

Ltac run_create :=
  unfold createAllocation, try_catch, createAllocation_try.

(** C7. For a request that carries the four required fields, the checks of
    createAllocation come in this order, before the overlap search, each with
    its own error and with the store unchanged: end <= start (as JavaScript
    compares the two dates) is the 400 'End time must be after start time'
    and start < now is the 400 'Start time cannot be in the past', both
    without any database call and whatever the resource id and the stored
    allocations; an id of no existing resource is the 404
    'Resource not found', after the resource lookup only. *)
Theorem createAllocation_preconditions :
  forall (req : CreateRequest) (currentTime : Z) (db : Db)
         (rid : IdArg) (who : string) (s e : JsDate),
    body_resourceId req = Some rid ->
    truthy (body_assignedTo req) = Some who ->
    body_startTime req = Some s ->
    body_endTime req = Some e ->
    (date_le e s = true ->
     createAllocation req currentTime db
     = (json 400 false "End time must be after start time" NoPayload, db, []))
    /\ (date_le e s = false ->
        date_lt s (ValidDate currentTime) = true ->
        createAllocation req currentTime db
        = (json 400 false "Start time cannot be in the past" NoPayload,
           db, []))
    /\ (date_le e s = false ->
        date_lt s (ValidDate currentTime) = false ->
        forall n,
          rid = Oid n ->
          (forall r, In r (resources db) -> resource_id r <> n) ->
          createAllocation req currentTime db
          = (json 404 false "Resource not found" NoPayload,
             db, [Resource_findById_call])).
Proof.
  intros req currentTime db rid who s e Hrid Hwho Hs He.
  run_create. rewrite Hrid, Hwho, Hs, He.
  split; [|split].
  - intros ->. reflexivity.
  - intros -> ->. reflexivity.
  - intros -> -> n -> Hnone.
    unfold bind, Resource_findById, call.
    replace (find (fun r => Nat.eqb (resource_id r) n) (resources db))
      with (@None Resource); [reflexivity|].
    symmetry. apply find_absent. intros r Hr.
    apply Nat.eqb_neq. auto.
Qed.

(** *** The overlap search *)

Lemma conflict_set_In db rid s e ex x :
  In x (conflict_set db rid s e ex)
  <-> In x (allocations db)
      /\ resourceId x = rid
      /\ approved x
      /\ overlap (startTime x) (endTime x) s e
      /\ (forall i, ex = Some i -> _id x <> i).
Proof.
  unfold conflict_set, approved, overlap. rewrite filter_In.
  rewrite !andb_true_iff, Nat.eqb_eq, String.eqb_eq, Z.ltb_lt, Z.gtb_gt.
  assert (Hex : match ex with
                | Some i => negb (Nat.eqb (_id x) i)
                | None => true
                end = true
                <-> forall i, ex = Some i -> _id x <> i).
  { destruct ex as [i|].
    - rewrite negb_true_iff, Nat.eqb_neq. split.
      + intros H j [= <-]. exact H.
      + intros H. apply H. reflexivity.
    - split; [discriminate | reflexivity]. }
  rewrite Hex. tauto.
Qed.

Lemma find_conflictingAllocations_run rid s e db :
  find_conflictingAllocations (Oid rid) (ValidDate s) (ValidDate e) db
  = (Returned (conflict_set db rid s e None), db, [Allocation_find_call]).
Proof.
  unfold find_conflictingAllocations, Allocation_find, call, conflict_set.
  simpl castQuery. cbv iota. do 2 f_equal. f_equal.
  apply filter_ext. intros x. unfold matches. simpl.
  rewrite !andb_true_r, Z.gtb_ltb, !andb_assoc. reflexivity.
Qed.

Lemma find_conflicts_run n a db :
  find_conflicts (Oid n) a db
  = (Returned
       (conflict_set db (resourceId a) (startTime a) (endTime a) (Some n)),
     db, [Allocation_find_call]).
Proof.
  unfold find_conflicts, Allocation_find, call, conflict_set.
  simpl castQuery. cbv iota. do 2 f_equal. f_equal.
  apply filter_ext. intros x. unfold matches. simpl.
  rewrite !andb_true_r, Z.gtb_ltb.
  destruct (Nat.eqb (_id x) n), (Nat.eqb (resourceId x) (resourceId a)),
    (String.eqb (approvalStatus x) "approved"),
    (startTime x <? endTime a), (startTime a <? endTime x); reflexivity.
Qed.

(** A resourceId that is not an ObjectId passes the two time checks and is
    answered by the catch block, once the resource lookup has thrown. *)
Lemma createAllocation_malformed_resourceId req currentTime db who s e :
  body_resourceId req = Some Malformed ->
  truthy (body_assignedTo req) = Some who ->
  body_startTime req = Some s ->
  body_endTime req = Some e ->
  date_le e s = false ->
  date_lt s (ValidDate currentTime) = false ->
  createAllocation req currentTime db
  = (json 400 false "Invalid resource ID format" NoPayload, db,
     [Resource_findById_call]).
Proof.
  intros Hrid Hwho Hs He Hle Hlt. run_create.
  rewrite Hrid, Hwho, Hs, He, Hle, Hlt. reflexivity.
Qed.

(** *** Creation, case by case *)

Ltac refused :=
  first [apply create_refused | apply update_refused];
  simpl; solve [lia | reflexivity].

Lemma createAllocation_cases req currentTime db :
  create_result req currentTime db (createAllocation req currentTime db).
Proof.
  run_create.
  destruct (body_resourceId req) as [rid|] eqn:Hrid;
    [|refused].
  destruct (truthy (body_assignedTo req)) as [who|] eqn:Hwho;
    [|refused].
  destruct (body_startTime req) as [s|] eqn:Hs;
    [|refused].
  destruct (body_endTime req) as [e|] eqn:He;
    [|refused].
  destruct (date_le e s) eqn:Hle; [refused|].
  destruct (date_lt s (ValidDate currentTime)) eqn:Hlt;
    [refused|].
  destruct rid as [rid|]; [|refused].
  unfold bind at 1. unfold Resource_findById, call.
  fold (lookup_resource db rid).
  destruct (lookup_resource db rid) as [resource|] eqn:Hres;
    [|refused].
  destruct s as [s|];
    [|destruct e; refused].
  destruct e as [e|]; [|refused].
  simpl in Hle, Hlt. apply Z.leb_gt in Hle. apply Z.ltb_ge in Hlt.
  unfold bind at 1. rewrite find_conflictingAllocations_run.
  destruct (conflict_set db rid s e None) as [|c cs] eqn:Hc.
  - cbn [List.length Nat.ltb Nat.leb].
    unfold bind, Allocation_create, populate, call, ret.
    cbn [new_Allocation in_resourceId in_startTime in_endTime in_assignedTo
         in_purpose in_approvalStatus in_requestedBy].
    fold (created_doc req currentTime db rid who s e).
    destruct (validate (created_doc req currentTime db rid who s e)) eqn:Hv;
      [|refused].
    unfold pre_save. cbn [created_doc startTime endTime].
    destruct (Z.leb_spec e s); [lia|].
    cbn [resources].
    change (resourceId (created_doc req currentTime db rid who s e))
      with rid.
    fold (lookup_resource db rid). rewrite Hres. cbn [option_map app].
    fold (insert_doc db (created_doc req currentTime db rid who s e)).
    eapply create_saved; eauto.
  - cbn [List.length Nat.ltb Nat.leb ret app]. rewrite <- Hc.
    eapply create_conflict; eauto. rewrite Hc. discriminate.
Qed.

(** *** Status update, case by case *)

Lemma update_save_run a st db :
  (saved <- Allocation_save (set_approvalStatus a st) ;;
   populated <- populate saved ;;
   ret (json 200 true ("Allocation " ++ st ++ " successfully")%string
          (Data saved populated))) db
  = match validate (set_approvalStatus a st) with
    | (_ :: _) as errors =>
        (Threw (ValidationError errors), db, [Allocation_save_call])
    | [] =>
        if endTime a <=? startTime a
        then (Threw (Error "End time must be after start time"), db,
              [Allocation_save_call])
        else (Returned
                (json 200 true ("Allocation " ++ st ++ " successfully")%string
                   (Data (set_approvalStatus a st) (populated_of db a))),
              update_doc db (set_approvalStatus a st),
              [Allocation_save_call; Resource_populate_call])
    end.
Proof.
  unfold bind at 1. unfold Allocation_save, call.
  destruct (validate (set_approvalStatus a st)); [|reflexivity].
  unfold pre_save. cbn [set_approvalStatus startTime endTime].
  destruct (endTime a <=? startTime a); reflexivity.
Qed.

Lemma updateAllocationStatus_cases id status db :
  update_result id status db (updateAllocationStatus id status db).
Proof.
  unfold updateAllocationStatus, try_catch, updateAllocationStatus_try.
  destruct status as [st|]; [|refused].
  assert (Hst : existsb (String.eqb st) ["approved"; "rejected"] = true ->
                st = "approved" \/ st = "rejected").
  { simpl. destruct (String.eqb_spec st "approved"); [auto|].
    destruct (String.eqb_spec st "rejected"); [auto|discriminate]. }
  destruct (existsb (String.eqb st) ["approved"; "rejected"]);
    [|refused].
  specialize (Hst eq_refl). cbn [negb].
  destruct id as [n|]; [|refused].
  unfold bind at 1. unfold Allocation_findById, call.
  fold (lookup_allocation db n).
  destruct (lookup_allocation db n) as [a|] eqn:Ha;
    [|refused].
  destruct (String.eqb_spec st "approved") as [->|Hne].
  - unfold bind at 1. rewrite find_conflicts_run.
    destruct (conflict_set db (resourceId a) (startTime a) (endTime a)
                (Some n)) as [|c cs] eqn:Hc.
    + cbn [List.length Nat.ltb Nat.leb]. rewrite update_save_run.
      destruct (validate (set_approvalStatus a "approved")) eqn:Hv;
        [|refused].
      destruct (Z.leb_spec (endTime a) (startTime a));
        [refused|].
      eapply (update_saved _ _ _ n a "approved"); eauto; lia.
    + cbn [List.length Nat.ltb Nat.leb ret app].
      eapply update_conflict; eauto. rewrite Hc. discriminate.
  - rewrite update_save_run.
    destruct (validate (set_approvalStatus a st)) eqn:Hv;
      [|refused].
    destruct (Z.leb_spec (endTime a) (startTime a));
      [refused|].
    pose proof (update_saved (Oid n) (Some st) db n a st) as R.
    destruct (String.eqb_spec st "approved"); [contradiction|].
    apply R; auto; try lia. intros; contradiction.
Qed.

(** *** Deletion *)

Lemma deleteAllocation_db id db :
  db_of (deleteAllocation id db) = db
  \/ exists n,
      id = Oid n
      /\ db_of (deleteAllocation id db)
         = with_allocations db (remove_first n (allocations db)).
Proof.
  unfold deleteAllocation, try_catch, deleteAllocation_try, bind,
    Allocation_findByIdAndDelete, call.
  destruct id as [n|]; [|left; reflexivity].
  destruct (find (fun a => Nat.eqb (_id a) n) (allocations db));
    [right; exists n; split|left]; reflexivity.
Qed.

Lemma remove_first_In n l x : In x (remove_first n l) -> In x l.
Proof.
  induction l as [|y l IH]; simpl; [tauto|].
  destruct (Nat.eqb (_id y) n); simpl; tauto.
Qed.

Lemma remove_first_NoDup n l :
  NoDup (map _id l) -> NoDup (map _id (remove_first n l)).
Proof.
  induction l as [|y l IH]; simpl; intros H; [constructor|].
  inversion H as [|? ? Hy Hl]; subst.
  destruct (Nat.eqb (_id y) n); simpl; [assumption|].
  constructor; [|auto].
  intros Hin. apply Hy. apply in_map_iff in Hin as (x & Hx & Hin).
  apply in_map_iff. exists x. split; [assumption|].
  eapply remove_first_In; eassumption.
Qed.

(** *** Replacing a document *)

Lemma replace_first_ids doc l :
  map _id (replace_first doc l) = map _id l.
Proof.
  induction l as [|y l IH]; simpl; [reflexivity|].
  destruct (Nat.eqb_spec (_id y) (_id doc)) as [E|_]; simpl; congruence.
Qed.

Lemma replace_first_In doc l x :
  NoDup (map _id l) ->
  In x (replace_first doc l) ->
  x = doc \/ (In x l /\ _id x <> _id doc).
Proof.
  induction l as [|y l IH]; simpl; [tauto|].
  intros H. inversion H as [|? ? Hy Hl]; subst.
  destruct (Nat.eqb_spec (_id y) (_id doc)) as [E|NE]; simpl.
  - intros [<-|Hin]; [auto|]. right. split; [auto|].
    intros Hx. apply Hy. rewrite E, <- Hx. apply in_map. assumption.
  - intros [<-|Hin]; [auto|]. destruct (IH Hl Hin) as [?|[? ?]]; auto.
Qed.

(** *** The invariants of the store *)

Lemma overlap_sym s1 e1 s2 e2 : overlap s1 e1 s2 e2 -> overlap s2 e2 s1 e1.
Proof. unfold overlap. lia. Qed.

Lemma insert_doc_invariant db doc :
  store_invariant db ->
  _id doc = nextId db ->
  endTime doc > startTime doc ->
  conflict_set db (resourceId doc) (startTime doc) (endTime doc) None = [] ->
  validate doc = [] ->
  store_invariant (insert_doc db doc).
Proof.
  intros (((Hnd & Hfresh) & Hvalid) & Hrange & Hno) Hid Hdoc Hc Hv.
  assert (Hfree : forall x, In x (allocations db) ->
                    resourceId x = resourceId doc -> approved x ->
                    ~ overlap (startTime x) (endTime x)
                        (startTime doc) (endTime doc)).
  { intros x Hx Hr Ha Ho.
    assert (Hin : In x (conflict_set db (resourceId doc) (startTime doc)
                          (endTime doc) None)).
    { apply conflict_set_In. repeat split; auto; try apply Ho. discriminate. }
    rewrite Hc in Hin. exact Hin. }
  split; [split; [split|]|split].
  - cbn [insert_doc allocations]. rewrite map_app. simpl.
    apply NoDup_snoc; [assumption|].
    intros Hin. apply in_map_iff in Hin as (x & Hx & Hin).
    apply Hfresh in Hin. lia.
  - cbn [insert_doc allocations nextId]. intros a Ha.
    apply in_app_iff in Ha as [Ha|[<-|[]]]; [apply Hfresh in Ha|]; lia.
  - intros a Ha. cbn [insert_doc allocations] in Ha.
    apply in_app_iff in Ha as [Ha|[<-|[]]]; auto.
  - intros a Ha. cbn [insert_doc allocations] in Ha.
    apply in_app_iff in Ha as [Ha|[<-|[]]]; auto.
  - intros A B HA HB Hne Hres HaA HaB. cbn [insert_doc allocations] in HA, HB.
    apply in_app_iff in HA as [HA|[<-|[]]];
      apply in_app_iff in HB as [HB|[<-|[]]].
    + apply Hno; assumption.
    + apply Hfree; assumption.
    + intros Ho. apply overlap_sym in Ho. revert Ho.
      apply Hfree; auto.
    + congruence.
Qed.

Lemma lookup_allocation_Some db n a :
  lookup_allocation db n = Some a -> In a (allocations db) /\ _id a = n.
Proof.
  intros H. apply find_present in H as [Hin Hid].
  apply Nat.eqb_eq in Hid. auto.
Qed.

Lemma update_doc_invariant db n a st :
  store_invariant db ->
  lookup_allocation db n = Some a ->
  (st = "approved" ->
   conflict_set db (resourceId a) (startTime a) (endTime a) (Some n) = []) ->
  validate (set_approvalStatus a st) = [] ->
  store_invariant (update_doc db (set_approvalStatus a st)).
Proof.
  intros (((Hnd & Hfresh) & Hvalid) & Hrange & Hno) Ha Hc Hv.
  destruct (lookup_allocation_Some _ _ _ Ha) as [Hin Hid].
  set (doc := set_approvalStatus a st).
  assert (Hel : forall x, In x (allocations (update_doc db doc)) ->
                  x = doc \/ (In x (allocations db) /\ _id x <> n)).
  { intros x Hx. cbn [update_doc with_allocations allocations] in Hx.
    apply replace_first_In in Hx; [|assumption].
    rewrite <- Hid. exact Hx. }
  assert (Hfree : forall x, In x (allocations db) -> _id x <> n ->
                    resourceId x = resourceId doc -> approved x ->
                    approved doc ->
                    ~ overlap (startTime x) (endTime x)
                        (startTime doc) (endTime doc)).
  { intros x Hx Hn Hr Hax Had Ho.
    assert (Hx' : In x (conflict_set db (resourceId a) (startTime a)
                          (endTime a) (Some n))).
    { apply conflict_set_In. repeat split; auto; try apply Ho.
      intros i [= <-]. exact Hn. }
    rewrite (Hc Had) in Hx'. exact Hx'. }
  split; [split; [split|]|split].
  - cbn [update_doc with_allocations allocations].
    rewrite replace_first_ids. assumption.
  - intros x Hx. cbn [update_doc with_allocations nextId].
    destruct (Hel x Hx) as [->|[Hx' _]]; [|auto].
    change (_id doc) with (_id a). auto.
  - intros x Hx. destruct (Hel x Hx) as [->|[Hx' _]]; auto.
  - intros x Hx. destruct (Hel x Hx) as [->|[Hx' _]]; [|auto].
    change (endTime a > startTime a). auto.
  - intros A B HA HB Hne Hres HaA HaB.
    destruct (Hel A HA) as [->|[HA' HAn]], (Hel B HB) as [->|[HB' HBn]].
    + congruence.
    + intros Ho. apply overlap_sym in Ho. revert Ho.
      apply Hfree; auto.
    + apply Hfree; assumption.
    + apply Hno; assumption.
Qed.

Lemma remove_first_invariant db n :
  store_invariant db ->
  store_invariant (with_allocations db (remove_first n (allocations db))).
Proof.
  intros (((Hnd & Hfresh) & Hvalid) & Hrange & Hno).
  split; [split; [split|]|split]; cbn [with_allocations allocations nextId].
  - apply remove_first_NoDup. assumption.
  - intros a Ha. apply Hfresh. eapply remove_first_In; eassumption.
  - intros a Ha. apply Hvalid.
    eapply remove_first_In.
    cbn [with_allocations allocations] in Ha. eassumption.
  - intros a Ha. apply Hrange.
    eapply remove_first_In.
    cbn [with_allocations allocations] in Ha. eassumption.
  - intros A B HA HB. cbn [with_allocations allocations] in HA, HB.
    apply Hno; eapply remove_first_In; eassumption.
Qed.

Lemma createAllocation_invariant req currentTime db :
  store_invariant db ->
  store_invariant (db_of (createAllocation req currentTime db)).
Proof.
  intros Hinv.
  destruct (createAllocation_cases req currentTime db); unfold db_of; simpl;
    try assumption.
  apply insert_doc_invariant; simpl; auto. lia.
Qed.

Lemma updateAllocationStatus_invariant id requested db :
  store_invariant db ->
  store_invariant (db_of (updateAllocationStatus id requested db)).
Proof.
  intros Hinv.
  destruct (updateAllocationStatus_cases id requested db); unfold db_of;
    cbn [fst snd]; try assumption.
  eapply update_doc_invariant; eauto.
Qed.

Lemma deleteAllocation_invariant id db :
  store_invariant db -> store_invariant (db_of (deleteAllocation id db)).
Proof.
  intros Hinv. destruct (deleteAllocation_db id db) as [->|(n & _ & ->)];
    [assumption|]. apply remove_first_invariant. assumption.
Qed.

Lemma reachable_invariant db : reachable db -> store_invariant db.
Proof.
  induction 1 as [rs n|db rs _ IH|db r currentTime _ IH].
  - split; [split; [split|]|split]; simpl.
    + constructor.
    + intros a [].
    + intros a [].
    + intros a [].
    + intros A B [].
  - exact IH.
  - destruct r; simpl.
    + apply createAllocation_invariant; assumption.
    + apply updateAllocationStatus_invariant; assumption.
    + apply deleteAllocation_invariant; assumption.
Qed.

(** *** No double booking *)



(** *** Valid time ranges *)

Lemma createAllocation_invalid_range req currentTime db s e :
  body_startTime req = Some (ValidDate s) ->
  body_endTime req = Some (ValidDate e) ->
  e <= s ->
  exists msg,
    createAllocation req currentTime db
    = (json 400 false msg NoPayload, db, []).
Proof.
  intros Hs He Hle. run_create. rewrite Hs, He.
  destruct (body_resourceId req); [|eexists; reflexivity].
  destruct (truthy (body_assignedTo req)); [|eexists; reflexivity].
  simpl. destruct (Z.leb_spec e s); [eexists; reflexivity|lia].
Qed.

(** C9. Every allocation of every store the engine can reach has
    endTime > startTime, whatever its approval status.  A creation request
    whose end is not after its start is answered with a 400 error, makes no
    database call and leaves the store as it was; and the model's pre-save
    hook refuses such a document on every save, of a new document and of a
    modified one alike, without writing. *)
Theorem persisted_allocations_have_valid_range :
  forall db, reachable db ->
    (forall a, In a (allocations db) -> endTime a > startTime a)
    /\ (forall req currentTime s e,
           body_startTime req = Some (ValidDate s) ->
           body_endTime req = Some (ValidDate e) ->
           e <= s ->
           exists msg,
             createAllocation req currentTime db
             = (json 400 false msg NoPayload, db, []))
    /\ (forall doc,
           endTime doc <= startTime doc ->
           pre_save doc = Some (Error "End time must be after start time")
           /\ db_of (Allocation_save doc db) = db)
    /\ (forall i currentTime,
           date_le (in_endTime i) (in_startTime i) = true ->
           db_of (Allocation_create i currentTime db) = db).
Proof.
  intros db Hreach.
  pose proof (reachable_invariant db Hreach) as (_ & Hrange & _).
  split; [exact Hrange|].
  split; [intros; eapply createAllocation_invalid_range; eassumption|].
  split.
  - intros doc Hle.
    assert (E : pre_save doc
                = Some (Error "End time must be after start time")).
    { unfold pre_save. destruct (Z.leb_spec (endTime doc) (startTime doc));
        [reflexivity|lia]. }
    split; [exact E|].
    unfold Allocation_save, call, db_of. rewrite E.
    destruct (validate doc); reflexivity.
  - intros i currentTime Hle.
    unfold Allocation_create, call, db_of, new_Allocation.
    destruct (in_resourceId i); [|reflexivity].
    destruct (in_startTime i) as [s|]; [|reflexivity].
    destruct (in_endTime i) as [e|]; [|reflexivity].
    match goal with |- context [validate ?d] => destruct (validate d) end;
      [|reflexivity].
    unfold pre_save. cbn [startTime endTime]. simpl in Hle. rewrite Hle.
    reflexivity.
Qed.

(** *** The conflict set *)

Lemma createAllocation_accepts req currentTime db rid who s e resource :
  body_resourceId req = Some (Oid rid) ->
  truthy (body_assignedTo req) = Some who ->
  body_startTime req = Some (ValidDate s) ->
  body_endTime req = Some (ValidDate e) ->
  s < e -> currentTime <= s ->
  lookup_resource db rid = Some resource ->
  validate (created_doc req currentTime db rid who s e) = [] ->
  conflict_set db rid s e None = [] ->
  createAllocation req currentTime db
  = (json 201 true "Allocation created successfully"
       (Data (created_doc req currentTime db rid who s e)
          (Some (name resource, type resource))),
     insert_doc db (created_doc req currentTime db rid who s e),
     [Resource_findById_call; Allocation_find_call; Allocation_save_call;
      Resource_populate_call]).
Proof.
  intros Hrid Hwho Hs He Hlt Hnow Hres Hv Hc.
  run_create. rewrite Hrid, Hwho, Hs, He. unfold date_le, date_lt.
  destruct (Z.leb_spec e s); [lia|].
  destruct (Z.ltb_spec s currentTime); [lia|].
  unfold bind at 1. unfold Resource_findById, call.
  fold (lookup_resource db rid). rewrite Hres.
  unfold bind at 1. rewrite find_conflictingAllocations_run, Hc.
  cbn [List.length Nat.ltb Nat.leb].
  unfold bind, Allocation_create, populate, call, ret.
  cbn [new_Allocation in_resourceId in_startTime in_endTime in_assignedTo
       in_purpose in_approvalStatus in_requestedBy].
  fold (created_doc req currentTime db rid who s e). rewrite Hv.
  unfold pre_save. cbn [created_doc startTime endTime].
  destruct (Z.leb_spec e s); [lia|].
  cbn [resources].
  change (resourceId (created_doc req currentTime db rid who s e)) with rid.
  fold (lookup_resource db rid). rewrite Hres. reflexivity.
Qed.

(** C2. The overlap search of createAllocation and the one of
    updateAllocationStatus return exactly the conflict set: the stored
    allocations of the resource whose approval status is 'approved' with
    existing.start < new.end and existing.end > new.start, minus the
    allocation being approved in the second case.  Pending and rejected
    allocations are never in it, and neither is an allocation that the
    proposed interval only touches at a boundary.  When every approved
    allocation of the resource ends by the proposed start or starts from the
    proposed end on, as when the proposal merely touches them, the set is
    empty and a request that passes the other checks is accepted and
    persisted. *)
Theorem conflict_set_exact :
  forall (db : Db) (rid : ObjectId) (s e : Z),
    find_conflictingAllocations (Oid rid) (ValidDate s) (ValidDate e) db
    = (Returned (conflict_set db rid s e None), db, [Allocation_find_call])
    /\ (forall n a,
           find_conflicts (Oid n) a db
           = (Returned (conflict_set db (resourceId a) (startTime a)
                          (endTime a) (Some n)),
              db, [Allocation_find_call]))
    /\ (forall ex x,
           In x (conflict_set db rid s e ex)
           <-> In x (allocations db)
               /\ resourceId x = rid
               /\ approvalStatus x = "approved"
               /\ (startTime x < e /\ endTime x > s)
               /\ (forall i, ex = Some i -> _id x <> i))
    /\ (forall ex x,
           approvalStatus x = "pending" \/ approvalStatus x = "rejected" ->
           ~ In x (conflict_set db rid s e ex))
    /\ (forall ex x,
           endTime x = s \/ e = startTime x ->
           ~ In x (conflict_set db rid s e ex))
    /\ ((forall x, In x (allocations db) -> resourceId x = rid ->
                   approvalStatus x = "approved" ->
                   endTime x <= s \/ e <= startTime x) ->
        conflict_set db rid s e None = []
        /\ forall req currentTime who resource,
             body_resourceId req = Some (Oid rid) ->
             truthy (body_assignedTo req) = Some who ->
             body_startTime req = Some (ValidDate s) ->
             body_endTime req = Some (ValidDate e) ->
             s < e -> currentTime <= s ->
             lookup_resource db rid = Some resource ->
             validate (created_doc req currentTime db rid who s e) = [] ->
             createAllocation req currentTime db
             = (json 201 true "Allocation created successfully"
                  (Data (created_doc req currentTime db rid who s e)
                     (Some (name resource, type resource))),
                insert_doc db (created_doc req currentTime db rid who s e),
                [Resource_findById_call; Allocation_find_call;
                 Allocation_save_call; Resource_populate_call])).
Proof.
  intros db rid s e.
  split; [apply find_conflictingAllocations_run|].
  split; [intros; apply find_conflicts_run|].
  split; [intros; apply conflict_set_In|].
  split.
  { intros ex x Hst Hin. apply conflict_set_In in Hin as (_ & _ & Hap & _).
    unfold approved in Hap. destruct Hst; congruence. }
  split.
  { intros ex x Htouch Hin.
    apply conflict_set_In in Hin as (_ & _ & _ & [? ?] & _). lia. }
  intros Hfree.
  assert (Hc : conflict_set db rid s e None = []).
  { destruct (conflict_set db rid s e None) as [|x l] eqn:E; [reflexivity|].
    assert (Hin : In x (conflict_set db rid s e None))
      by (rewrite E; now left).
    apply conflict_set_In in Hin as (Hx & Hr & Hap & [? ?] & _).
    specialize (Hfree x Hx Hr Hap). lia. }
  split; [exact Hc|].
  intros. eapply createAllocation_accepts; eassumption.
Qed.

(** *** Resource availability *)

Lemma matches_occupies rid now a :
  matches (active_query rid now) a = true <-> occupies rid now a.
Proof.
  unfold matches, active_query, occupies. simpl.
  rewrite !andb_true_iff, Nat.eqb_eq, !Z.leb_le. tauto.
Qed.

Lemma resourceWithStatus_run resource now db :
  resourceWithStatus resource now db
  = (Returned
       {| rws_resource := resource;
          rws_status :=
            match find (matches (active_query (resource_id resource) now))
                    (allocations db) with
            | Some _ => "Allocated"
            | None => "Available"
            end;
          currentAllocation :=
            option_map summary
              (find (matches (active_query (resource_id resource) now))
                 (allocations db)) |},
     db, [Allocation_findOne_call]).
Proof. reflexivity. Qed.

Lemma getResourceById_run n resource now db :
  lookup_resource db n = Some resource ->
  getResourceById (Oid n) now db
  = (Returned
       (Some {| rd_resource := resource;
                rd_status :=
                  match find (matches (active_query (resource_id resource) now))
                          (allocations db) with
                  | Some _ => "Allocated"
                  | None => "Available"
                  end;
                rd_currentAllocation :=
                  find (matches (active_query (resource_id resource) now))
                    (allocations db) |}),
     db, [Resource_findById_call; Allocation_findOne_call]).
Proof.
  intros H. unfold getResourceById, bind, Resource_findById, call.
  fold (lookup_resource db n). rewrite H. reflexivity.
Qed.

(** C3, as the code has it.  The resource status is 'Allocated' exactly when
    some stored allocation of the resource, of any approval status, has
    start <= now <= end, and 'Available' otherwise; when 'Allocated' the
    projection returned with it is the assignee, interval and purpose of
    such an allocation (the one its query finds), and getResourceById
    computes the same status and returns that allocation. *)
Theorem resource_status_ignores_approval :
  forall (resource : Resource) (now : Z) (db : Db),
  exists r,
    resourceWithStatus resource now db
    = (Returned r, db, [Allocation_findOne_call])
    /\ rws_resource r = resource
    /\ (rws_status r = "Allocated" \/ rws_status r = "Available")
    /\ (rws_status r = "Allocated"
        <-> exists a, In a (allocations db)
                      /\ occupies (resource_id resource) now a)
    /\ (rws_status r = "Available"
        <-> ~ exists a, In a (allocations db)
                        /\ occupies (resource_id resource) now a)
    /\ (rws_status r = "Allocated" ->
        exists a, In a (allocations db)
                  /\ occupies (resource_id resource) now a
                  /\ currentAllocation r = Some (summary a))
    /\ (forall n,
           lookup_resource db n = Some resource ->
           exists d,
             getResourceById (Oid n) now db
             = (Returned (Some d), db,
                [Resource_findById_call; Allocation_findOne_call])
             /\ rd_status d = rws_status r
             /\ option_map summary (rd_currentAllocation d)
                = currentAllocation r).
Proof.
  intros resource now db. eexists. split; [apply resourceWithStatus_run|].
  cbn [rws_resource rws_status currentAllocation].
  set (q := matches (active_query (resource_id resource) now)).
  destruct (find q (allocations db)) as [a|] eqn:E.
  - destruct (find_present _ _ _ E) as [Hin Hq].
    apply matches_occupies in Hq.
    split; [reflexivity|]. split; [auto|].
    split; [split; eauto|].
    split; [split; [discriminate|intros H; exfalso; eauto]|].
    split; [intros _; exists a; auto|].
    intros n Hn. eexists. split; [apply getResourceById_run; exact Hn|].
    fold q. rewrite E. split; reflexivity.
  - assert (Hnone : ~ exists a, In a (allocations db)
                               /\ occupies (resource_id resource) now a).
    { intros (a & Hin & Ho). apply matches_occupies in Ho.
      destruct (find_exists q _ a Hin Ho) as [y Hy]. congruence. }
    split; [reflexivity|]. split; [auto|].
    split; [split; [discriminate|intros H; exfalso; auto]|].
    split; [split; auto|].
    split; [discriminate|].
    intros n Hn. eexists. split; [apply getResourceById_run; exact Hn|].
    fold q. rewrite E. split; reflexivity.
Qed.

(** *** Approval status transitions *)

Lemma lookup_insert db doc n a :
  lookup_allocation db n = Some a ->
  lookup_allocation (insert_doc db doc) n = Some a.
Proof.
  unfold lookup_allocation. cbn [insert_doc allocations].
  induction (allocations db) as [|y l IH]; simpl; [discriminate|].
  destruct (Nat.eqb (_id y) n); auto.
Qed.

Lemma find_replace_first doc l n :
  find (fun a => Nat.eqb (_id a) n) (replace_first doc l)
  = if Nat.eqb (_id doc) n
    then option_map (fun _ => doc) (find (fun a => Nat.eqb (_id a) n) l)
    else find (fun a => Nat.eqb (_id a) n) l.
Proof.
  induction l as [|y l IH]; simpl.
  - destruct (Nat.eqb (_id doc) n); reflexivity.
  - destruct (Nat.eqb_spec (_id y) (_id doc)) as [E|NE]; simpl.
    + rewrite E. destruct (Nat.eqb (_id doc) n); reflexivity.
    + rewrite IH.
      destruct (Nat.eqb_spec (_id y) n) as [E1|NE1];
        destruct (Nat.eqb_spec (_id doc) n) as [E2|NE2];
        try reflexivity. congruence.
Qed.

Lemma find_remove_first_other n m l :
  n <> m ->
  find (fun a => Nat.eqb (_id a) n) (remove_first m l)
  = find (fun a => Nat.eqb (_id a) n) l.
Proof.
  intros Hne. induction l as [|y l IH]; simpl; [reflexivity|].
  destruct (Nat.eqb_spec (_id y) m) as [E|NE]; simpl.
  - destruct (Nat.eqb_spec (_id y) n); [congruence|reflexivity].
  - rewrite IH. reflexivity.
Qed.

Lemma find_remove_first_same m l :
  NoDup (map _id l) ->
  find (fun a => Nat.eqb (_id a) m) (remove_first m l) = None.
Proof.
  induction l as [|y l IH]; simpl; intros H; [reflexivity|].
  inversion H as [|? ? Hy Hl]; subst.
  destruct (Nat.eqb_spec (_id y) m) as [E|NE]; simpl.
  - apply find_absent. intros x Hx. apply Nat.eqb_neq. intros Hxm.
    apply Hy. rewrite E, <- Hxm. apply in_map. assumption.
  - destruct (Nat.eqb_spec (_id y) m); [contradiction|]. auto.
Qed.

Lemma reject_run db n a :
  store_invariant db ->
  lookup_allocation db n = Some a ->
  updateAllocationStatus (Oid n) (Some "rejected") db
  = (json 200 true "Allocation rejected successfully"
       (Data (set_approvalStatus a "rejected") (populated_of db a)),
     update_doc db (set_approvalStatus a "rejected"),
     [Allocation_findById_call; Allocation_save_call;
      Resource_populate_call]).
Proof.
  intros ((_ & Hvalid) & Hrange & _) Ha.
  destruct (lookup_allocation_Some _ _ _ Ha) as [Hin _].
  unfold updateAllocationStatus, try_catch, updateAllocationStatus_try.
  cbn [existsb String.eqb Ascii.eqb Bool.eqb orb negb].
  unfold bind at 1. unfold Allocation_findById, call.
  fold (lookup_allocation db n). rewrite Ha.
  rewrite update_save_run.
  assert (Hv : validate (set_approvalStatus a "rejected") = []).
  { pose proof (Hvalid a Hin) as Hva. unfold validate in *.
    cbn [set_approvalStatus assignedTo purpose approvalStatus].
    apply app_eq_nil in Hva as [H1 H2]. apply app_eq_nil in H2 as [H2 _].
    rewrite H1, H2. reflexivity. }
  rewrite Hv. pose proof (Hrange a Hin).
  destruct (Z.leb_spec (endTime a) (startTime a)); [lia|reflexivity].
Qed.

Lemma approve_run db n a :
  store_invariant db ->
  lookup_allocation db n = Some a ->
  conflict_set db (resourceId a) (startTime a) (endTime a) (Some n) = [] ->
  updateAllocationStatus (Oid n) (Some "approved") db
  = (json 200 true "Allocation approved successfully"
       (Data (set_approvalStatus a "approved") (populated_of db a)),
     update_doc db (set_approvalStatus a "approved"),
     [Allocation_findById_call; Allocation_find_call; Allocation_save_call;
      Resource_populate_call]).
Proof.
  intros ((_ & Hvalid) & Hrange & _) Ha Hnone.
  destruct (lookup_allocation_Some _ _ _ Ha) as [Hin _].
  unfold updateAllocationStatus, try_catch, updateAllocationStatus_try.
  cbn [existsb String.eqb Ascii.eqb Bool.eqb orb negb].
  unfold bind at 1. unfold Allocation_findById, call.
  fold (lookup_allocation db n). rewrite Ha.
  unfold bind at 1. rewrite find_conflicts_run, Hnone.
  cbn [List.length Nat.ltb Nat.leb]. rewrite update_save_run.
  assert (Hv : validate (set_approvalStatus a "approved") = []).
  { pose proof (Hvalid a Hin) as Hva. unfold validate in *.
    cbn [set_approvalStatus assignedTo purpose approvalStatus].
    apply app_eq_nil in Hva as [H1 H2]. apply app_eq_nil in H2 as [H2 _].
    rewrite H1, H2. reflexivity. }
  rewrite Hv. pose proof (Hrange a Hin).
  destruct (Z.leb_spec (endTime a) (startTime a)); [lia|reflexivity].
Qed.

Lemma approve_refused_run db n a :
  lookup_allocation db n = Some a ->
  conflict_set db (resourceId a) (startTime a) (endTime a) (Some n) <> [] ->
  updateAllocationStatus (Oid n) (Some "approved") db
  = (json 409 false
       "Cannot approve - conflicts with existing approved allocation"
       NoPayload,
     db, [Allocation_findById_call; Allocation_find_call]).
Proof.
  intros Ha Hsome.
  unfold updateAllocationStatus, try_catch, updateAllocationStatus_try.
  cbn [existsb String.eqb Ascii.eqb Bool.eqb orb negb].
  unfold bind at 1. unfold Allocation_findById, call.
  fold (lookup_allocation db n). rewrite Ha.
  unfold bind at 1. rewrite find_conflicts_run.
  destruct (conflict_set db (resourceId a) (startTime a) (endTime a)
              (Some n)); [contradiction|reflexivity].
Qed.

Lemma lookup_update_doc db n a st :
  lookup_allocation db n = Some a ->
  lookup_allocation (update_doc db (set_approvalStatus a st)) n
  = Some (set_approvalStatus a st).
Proof.
  intros Ha. unfold lookup_allocation, update_doc.
  cbn [with_allocations allocations]. rewrite find_replace_first.
  cbn [set_approvalStatus _id].
  destruct (lookup_allocation_Some _ _ _ Ha) as [_ Hid].
  rewrite Hid, Nat.eqb_refl. fold (lookup_allocation db n). rewrite Ha.
  reflexivity.
Qed.

(** C4, as the code has it.  The approval status of a stored allocation
    changes only through updateAllocationStatus on its id, and only to the
    requested 'approved' or 'rejected'; the current status is not consulted,
    so a decided allocation can be decided again: rejecting always takes
    effect, from 'pending', 'approved' and 'rejected' alike, and approving
    takes effect when no other approved allocation of the resource overlaps
    and is refused with 409, the store unchanged, when one does.  No request
    sets a status back to 'pending'. *)
Theorem status_changes_only_by_update :
  forall db, reachable db ->
  forall n a,
    lookup_allocation db n = Some a ->
    (forall r currentTime,
        lookup_allocation (db_of (handle r currentTime db)) n = Some a
        \/ (r = DeleteAllocation (Oid n)
            /\ lookup_allocation (db_of (handle r currentTime db)) n = None)
        \/ (exists st,
               r = UpdateAllocationStatus (Oid n) (Some st)
               /\ (st = "approved" \/ st = "rejected")
               /\ lookup_allocation (db_of (handle r currentTime db)) n
                  = Some (set_approvalStatus a st)
               /\ (st = "approved" ->
                   conflict_set db (resourceId a) (startTime a) (endTime a)
                     (Some n) = [])))
    /\ lookup_allocation
         (db_of (updateAllocationStatus (Oid n) (Some "rejected") db)) n
       = Some (set_approvalStatus a "rejected")
    /\ (conflict_set db (resourceId a) (startTime a) (endTime a) (Some n)
        = [] ->
        status (response_of
                  (updateAllocationStatus (Oid n) (Some "approved") db))
        = 200%nat
        /\ lookup_allocation
             (db_of (updateAllocationStatus (Oid n) (Some "approved") db)) n
           = Some (set_approvalStatus a "approved"))
    /\ (conflict_set db (resourceId a) (startTime a) (endTime a) (Some n)
        <> [] ->
        updateAllocationStatus (Oid n) (Some "approved") db
        = (json 409 false
             "Cannot approve - conflicts with existing approved allocation"
             NoPayload,
           db, [Allocation_findById_call; Allocation_find_call])).
Proof.
  intros db Hreach n a Ha.
  pose proof (reachable_invariant db Hreach) as Hinv.
  assert (Hnd : NoDup (map _id (allocations db))) by apply Hinv.
  split; [|split; [|split]].
  - intros [req|id requested|id] currentTime; cbn [handle].
    + left. destruct (createAllocation_cases req currentTime db);
        unfold db_of; cbn [fst snd]; auto using lookup_insert.
    + destruct (updateAllocationStatus_cases id requested db)
        as [| |m a' st -> -> Hst Ha' Hc _ _]; unfold db_of; cbn [fst snd];
        auto.
      unfold lookup_allocation, update_doc.
      cbn [with_allocations allocations]. rewrite find_replace_first.
      cbn [set_approvalStatus _id].
      destruct (lookup_allocation_Some _ _ _ Ha') as [_ Hid'].
      rewrite Hid'. fold (lookup_allocation db n).
      destruct (Nat.eqb_spec m n) as [->|NE]; [|auto].
      right. right. exists st. rewrite Ha. rewrite Ha in Ha'.
      injection Ha' as <-. auto.
    + destruct (deleteAllocation_db id db) as [->|(m & -> & ->)]; [auto|].
      unfold lookup_allocation. cbn [with_allocations allocations].
      destruct (Nat.eq_dec n m) as [<-|NE].
      * right. left. split; [reflexivity|].
        apply find_remove_first_same. assumption.
      * left. rewrite find_remove_first_other by assumption. exact Ha.
  - rewrite (reject_run db n a Hinv Ha). unfold db_of. cbn [fst snd].
    apply lookup_update_doc. exact Ha.
  - intros Hnone. rewrite (approve_run db n a Hinv Ha Hnone).
    unfold db_of, response_of. cbn [fst snd]. split; [reflexivity|].
    apply lookup_update_doc. exact Ha.
  - apply approve_refused_run. exact Ha.
Qed.

(** *** Approval status of a new allocation *)

(** C8. The approval status persisted with a new allocation is decided by
    the creator's role alone: whenever createAllocation answers 201, the
    document it inserted (its only write) has status 'approved' if the
    requesting user's role is 'Super User' and 'pending' otherwise, so an
    administrator's booking is stored as approved from the start. *)
Theorem created_status_by_role :
  forall (req : CreateRequest) (currentTime : Z) (db : Db),
    status (response_of (createAllocation req currentTime db)) = 201%nat ->
    exists doc populated,
      createAllocation req currentTime db
      = (json 201 true "Allocation created successfully" (Data doc populated),
         insert_doc db doc,
         [Resource_findById_call; Allocation_find_call; Allocation_save_call;
          Resource_populate_call])
      /\ approvalStatus doc
         = (if isAdmin (user req) then "approved" else "pending")
      /\ (isAdmin (user req) = true
          <-> exists u, user req = Some u /\ role u = "Super User")
      /\ ((exists u, user req = Some u /\ role u = "Super User") ->
          approvalStatus doc = "approved")
      /\ (~ (exists u, user req = Some u /\ role u = "Super User") ->
          approvalStatus doc = "pending").
Proof.
  intros req currentTime db H201.
  assert (Hadm : isAdmin (user req) = true
                 <-> exists u, user req = Some u /\ role u = "Super User").
  { unfold isAdmin. destruct (user req) as [u|].
    - rewrite String.eqb_eq. split; [eauto|]. intros (u' & [= <-] & H). exact H.
    - split; [discriminate|]. intros (u' & H & _). discriminate. }
  destruct (createAllocation_cases req currentTime db)
    as [resp calls Hn _ _| |rid who s e resource];
    unfold response_of in H201; cbn [fst snd] in H201.
  - contradiction.
  - discriminate.
  - do 2 eexists. split; [reflexivity|]. cbn [created_doc approvalStatus].
    split; [reflexivity|]. split; [exact Hadm|]. split.
    + intros Hu. apply Hadm in Hu. rewrite Hu. reflexivity.
    + intros Hu. destruct (isAdmin (user req)); [|reflexivity].
      exfalso. apply Hu, Hadm. reflexivity.
Qed.

(** *** Conflict reports *)

Lemma createAllocation_conflict_report req currentTime db :
  status (response_of (createAllocation req currentTime db)) = 409%nat ->
  exists rid s e resource,
    body_resourceId req = Some (Oid rid)
    /\ body_startTime req = Some (ValidDate s)
    /\ body_endTime req = Some (ValidDate e)
    /\ conflict_set db rid s e None <> []
    /\ createAllocation req currentTime db
       = (json 409 false "Resource already allocated in this time range"
            (ConflictDetails (name resource)
               (map summary (conflict_set db rid s e None))),
          db, [Resource_findById_call; Allocation_find_call]).
Proof.
  intros H409.
  destruct (createAllocation_cases req currentTime db)
    as [resp calls _ Hn _|rid who s e resource| ];
    unfold response_of in H409; cbn [fst snd] in H409.
  - contradiction.
  - exists rid, s, e, resource. auto.
  - discriminate.
Qed.

(** *** The scenarios, run *)

Lemma store3_allocations :
  allocations store1 = [request_at 100%nat 600 660 "pending"]
  /\ allocations store3
     = [request_at 100%nat 600 660 "pending";
        request_at 101%nat 630 690 "approved"].
Proof. split; reflexivity. Qed.

Lemma store3_reachable : reachable store3.
Proof. do 3 apply reachable_handle. apply reachable_init. Qed.

(** The catch block at work: a blank assignee passes the required-fields
    check and fails the schema's validation on save; an end time that is not
    a date makes the overlap query throw. *)
Example createAllocation_blank_assignee :
  createAllocation
    {| body_resourceId := Some (Oid 1%nat); body_assignedTo := Some "  ";
       body_startTime := Some (ValidDate 600);
       body_endTime := Some (ValidDate 660);
       body_purpose := None; user := Some standard_user |} 0 store0
  = (json 400 false "Validation error"
       (Errors [SchemaMessage "Assigned To field is required"]),
     store0,
     [Resource_findById_call; Allocation_find_call; Allocation_save_call]).
Proof. reflexivity. Qed.

Example createAllocation_invalid_end_date :
  createAllocation
    {| body_resourceId := Some (Oid 1%nat); body_assignedTo := Some "John Doe";
       body_startTime := Some (ValidDate 600);
       body_endTime := Some InvalidDate;
       body_purpose := None; user := Some standard_user |} 0 store0
  = (json 500 false "Failed to create allocation"
       (ErrorMessage (CastError "date")),
     store0, [Resource_findById_call; Allocation_find_call]).
Proof. reflexivity. Qed.

Lemma timeStatus_total_deterministic_inclusive_witness :
  timeStatus (request_at 100%nat 600 660 "pending") 600 = "Active"
  /\ timeStatus (request_at 100%nat 600 660 "pending") 660 = "Active"
  /\ timeStatus (request_at 100%nat 600 660 "pending") 661 = "Completed"
  /\ timeStatus (request_at 100%nat 600 660 "pending") 599 = "Upcoming".
Proof.
  pose (a := request_at 100%nat 600 660 "pending").
  assert (Hwf : startTime a <= endTime a) by (simpl; lia).
  split; [|split; [|split]].
  - destruct (timeStatus_total_deterministic_inclusive a 600)
      as (_ & _ & _ & _ & H).
    apply (proj1 (H Hwf)). reflexivity.
  - destruct (timeStatus_total_deterministic_inclusive a 660)
      as (_ & _ & _ & _ & H).
    apply (proj1 (proj2 (H Hwf))). reflexivity.
  - destruct (timeStatus_total_deterministic_inclusive a 661)
      as (_ & _ & _ & _ & H).
    apply (proj2 (proj2 (proj2 (H Hwf)))). simpl. lia.
  - destruct (timeStatus_total_deterministic_inclusive a 599)
      as (_ & _ & _ & H & _).
    apply H. simpl. lia.
Defined.

Lemma updateAllocationStatus_invalid_status_witness :
  db_of (updateAllocationStatus (Oid 100%nat) (Some "pending") store3) = store3
  /\ status (response_of (updateAllocationStatus Malformed None store3))
     = 400%nat.
Proof.
  split.
  - rewrite (updateAllocationStatus_invalid_status (Oid 100%nat)
               (Some "pending") store3);
      [reflexivity|discriminate|discriminate].
  - rewrite (updateAllocationStatus_invalid_status Malformed None store3);
      [reflexivity|discriminate|discriminate].
Defined.

Lemma createAllocation_preconditions_witness :
  createAllocation (booking standard_user 660 600) 0 store3
  = (json 400 false "End time must be after start time" NoPayload, store3, [])
  /\ createAllocation (booking_of Malformed standard_user 600 660) 601 store3
     = (json 400 false "Start time cannot be in the past" NoPayload,
        store3, [])
  /\ createAllocation (booking_of (Oid 2%nat) standard_user 600 660) 0 store3
     = (json 404 false "Resource not found" NoPayload, store3,
        [Resource_findById_call]).
Proof.
  split; [|split].
  - apply (createAllocation_preconditions (booking standard_user 660 600) 0
             store3 (Oid 1%nat) "John Doe" (ValidDate 660) (ValidDate 600)
             eq_refl eq_refl eq_refl eq_refl).
    reflexivity.
  - apply (createAllocation_preconditions
             (booking_of Malformed standard_user 600 660) 601
             store3 Malformed "John Doe" (ValidDate 600) (ValidDate 660)
             eq_refl eq_refl eq_refl eq_refl); reflexivity.
  - apply (createAllocation_preconditions
             (booking_of (Oid 2%nat) standard_user 600 660) 0
             store3 (Oid 2%nat) "John Doe" (ValidDate 600) (ValidDate 660)
             eq_refl eq_refl eq_refl eq_refl) with (n := 2%nat);
      try reflexivity.
    intros r Hr. vm_compute in Hr. destruct Hr as [<-|[]]. discriminate.
Defined.

Lemma created_status_by_role_witness :
  exists doc populated,
    response_of (createAllocation (booking admin_user 700 760) 0 store3)
    = json 201 true "Allocation created successfully" (Data doc populated)
    /\ approvalStatus doc = "approved".
Proof.
  destruct (created_status_by_role (booking admin_user 700 760) 0 store3
              eq_refl) as (doc & populated & Hrun & _ & _ & Hadmin & _).
  exists doc, populated. split.
  - rewrite Hrun. reflexivity.
  - apply Hadmin. exists admin_user. split; reflexivity.
Defined.


Lemma persisted_allocations_have_valid_range_witness :
  reachable store3
  /\ forall a, In a (allocations store3) -> endTime a > startTime a.
Proof.
  split; [exact store3_reachable|].
  exact (proj1 (persisted_allocations_have_valid_range store3
                  store3_reachable)).
Defined.

Lemma conflict_set_exact_witness :
  conflict_set store3 1%nat 690 720 None = []
  /\ status (response_of (createAllocation (booking standard_user 690 720) 0
                            store3)) = 201%nat.
Proof.
  destruct (conflict_set_exact store3 1%nat 690 720)
    as (_ & _ & _ & _ & _ & H).
  destruct H as [Hc Hacc].
  { intros x Hx _ Hap. vm_compute in Hx.
    destruct Hx as [<-|[<-|[]]]; simpl; [discriminate|lia]. }
  split; [exact Hc|].
  rewrite (Hacc (booking standard_user 690 720) 0 "John Doe" roomA
             eq_refl eq_refl eq_refl eq_refl eq_refl); reflexivity || lia.
Defined.

Lemma status_changes_only_by_update_witness :
  reachable store3 /\ reachable store4
  /\ lookup_allocation store3 101%nat
     = Some (request_at 101%nat 630 690 "approved")
  /\ lookup_allocation store4 101%nat
     = Some (request_at 101%nat 630 690 "rejected")
  /\ lookup_allocation
       (db_of (updateAllocationStatus (Oid 101%nat) (Some "approved") store4))
       101%nat
     = Some (request_at 101%nat 630 690 "approved")
  /\ db_of (updateAllocationStatus (Oid 100%nat) (Some "approved") store3)
     = store3.
Proof.
  assert (H4 : reachable store4)
    by (apply reachable_handle; exact store3_reachable).
  split; [exact store3_reachable|]. split; [exact H4|].
  split; [reflexivity|]. split; [|split].
  - exact (proj1 (proj2 (status_changes_only_by_update store3
                           store3_reachable 101%nat
                           (request_at 101%nat 630 690 "approved") eq_refl))).
  - destruct (status_changes_only_by_update store4 H4 101%nat
                (request_at 101%nat 630 690 "rejected") eq_refl)
      as (_ & _ & Happrove & _).
    exact (proj2 (Happrove eq_refl)).
  - destruct (status_changes_only_by_update store3 store3_reachable 100%nat
                (request_at 100%nat 600 660 "pending") eq_refl)
      as (_ & _ & _ & Hrefuse).
    rewrite Hrefuse; [reflexivity|discriminate].
Defined.

(** Against C3 as stated.  A pending request alone makes its resource
    'Allocated': at 10:10 the only allocation of Room A is the pending
    10:00-11:00 request, no approved allocation covers that instant, and the
    status is 'Allocated' with the pending request as current occupant. *)
Lemma allocated_without_approved_allocation :
  resourceWithStatus roomA 610 store1
  = (Returned {| rws_resource := roomA;
                 rws_status := "Allocated";
                 currentAllocation :=
                   Some (summary (request_at 100%nat 600 660 "pending")) |},
     store1, [Allocation_findOne_call])
  /\ ~ (exists a, In a (allocations store1)
                  /\ resourceId a = resource_id roomA
                  /\ approvalStatus a = "approved"
                  /\ startTime a <= 610 <= endTime a).
Proof.
  split; [reflexivity|].
  intros (a & Hin & _ & Hap & _). vm_compute in Hin.
  destruct Hin as [<-|[]]. discriminate.
Qed.

(** Against C4 as stated.  A decided allocation changes status: the
    approved 10:30-11:30 request of a reachable store is rejected by a status
    update, and the rejected request is then approved by another. *)
Lemma decided_allocation_changes_status :
  reachable store3
  /\ option_map approvalStatus (lookup_allocation store3 101%nat)
     = Some "approved"
  /\ option_map approvalStatus
       (lookup_allocation
          (db_of (handle (UpdateAllocationStatus (Oid 101%nat)
                            (Some "rejected")) 0 store3)) 101%nat)
     = Some "rejected"
  /\ option_map approvalStatus
       (lookup_allocation
          (db_of (handle (UpdateAllocationStatus (Oid 101%nat)
                            (Some "approved")) 0 store4)) 101%nat)
     = Some "approved".
Proof.
  split; [exact store3_reachable|]. repeat split; reflexivity.
Qed.

(** C5. Both conflict rejections are 409 responses, but only createAllocation
    reports the colliding allocations.  In the store where the 10:30-11:30
    request is approved, approving the pending 10:00-11:00 request collides
    with it and is answered 409 with a message and no list, whereas a new
    request for 10:00-11:00 is answered 409 with the colliding allocation's
    assignee, interval and purpose. *)
Theorem approve_conflict_reports_no_allocations :
  reachable store3
  /\ conflict_set store3 1%nat 600 660 (Some 100%nat)
     = [request_at 101%nat 630 690 "approved"]
  /\ updateAllocationStatus (Oid 100%nat) (Some "approved") store3
     = (json 409 false
          "Cannot approve - conflicts with existing approved allocation"
          NoPayload,
        store3, [Allocation_findById_call; Allocation_find_call])
  /\ createAllocation (booking standard_user 600 660) 0 store3
     = (json 409 false "Resource already allocated in this time range"
          (ConflictDetails "Room A"
             [summary (request_at 101%nat 630 690 "approved")]),
        store3, [Resource_findById_call; Allocation_find_call]).
Proof.
  split; [exact store3_reachable|]. repeat split; reflexivity.
Qed.

(** ** Further properties of the code *)

(** *** The Allocation model's statics *)

Lemma filter_filter {A} (f g : A -> bool) (l : list A) :
  filter f (filter g l) = filter (fun x => g x && f x) l.
Proof.
  induction l as [|x l IH]; simpl; [reflexivity|].
  destruct (g x); simpl; [destruct (f x)|]; rewrite IH; reflexivity.
Qed.

Lemma overlapping_set_In db rid s e ex x :
  In x (overlapping_set db rid s e ex)
  <-> In x (allocations db)
      /\ resourceId x = rid
      /\ overlap (startTime x) (endTime x) s e
      /\ (forall i, ex = Some i -> _id x <> i).
Proof.
  unfold overlapping_set, overlap. rewrite filter_In.
  rewrite !andb_true_iff, Nat.eqb_eq, Z.ltb_lt, Z.gtb_gt.
  assert (Hex : match ex with
                | Some i => negb (Nat.eqb (_id x) i)
                | None => true
                end = true
                <-> forall i, ex = Some i -> _id x <> i).
  { destruct ex as [i|].
    - rewrite negb_true_iff, Nat.eqb_neq. split.
      + intros H j [= <-]. exact H.
      + intros H. apply H. reflexivity.
    - split; [discriminate | reflexivity]. }
  rewrite Hex. tauto.
Qed.

Lemma findOverlapping_run rid s e ex db :
  findOverlapping rid (ValidDate s) (ValidDate e) (option_map Oid ex) db
  = (Returned (overlapping_set db rid s e ex), db, [Allocation_find_call]).
Proof.
  unfold findOverlapping, overlapping_set.
  destruct ex as [i|]; cbn [option_map app]; unfold Allocation_find, call;
    simpl castQuery; cbv iota; do 2 f_equal; f_equal; apply filter_ext;
    intros x; unfold matches; simpl; rewrite !andb_true_r, Z.gtb_ltb.
  - destruct (Nat.eqb (resourceId x) rid), (startTime x <? e),
      (s <? endTime x), (Nat.eqb (_id x) i); reflexivity.
  - rewrite !andb_assoc. reflexivity.
Qed.

(** X1. findOverlapping returns the allocations of the resource that overlap
    the proposed interval whatever their approval status, minus the excluded
    one; the conflict set the controller checks is exactly the approved part
    of that result, so a pending or rejected allocation that findOverlapping
    reports never blocks a booking.  An exclude id that is not an ObjectId
    makes the query fail with a CastError and nothing is returned. *)
Theorem findOverlapping_and_conflict_set :
  forall (db : Db) (rid : ObjectId) (s e : Z) (ex : option ObjectId),
    findOverlapping rid (ValidDate s) (ValidDate e) (option_map Oid ex) db
    = (Returned (overlapping_set db rid s e ex), db, [Allocation_find_call])
    /\ (forall x,
           In x (overlapping_set db rid s e ex)
           <-> In x (allocations db)
               /\ resourceId x = rid
               /\ (startTime x < e /\ endTime x > s)
               /\ (forall i, ex = Some i -> _id x <> i))
    /\ conflict_set db rid s e ex
       = filter (fun x => String.eqb (approvalStatus x) "approved")
           (overlapping_set db rid s e ex)
    /\ (forall x,
           In x (overlapping_set db rid s e ex) ->
           approvalStatus x <> "approved" ->
           ~ In x (conflict_set db rid s e ex))
    /\ findOverlapping rid (ValidDate s) (ValidDate e) (Some Malformed) db
       = (Threw (CastError "ObjectId"), db, [Allocation_find_call]).
Proof.
  intros db rid s e ex.
  split; [apply findOverlapping_run|].
  split; [intros; apply overlapping_set_In|].
  split.
  { unfold conflict_set, overlapping_set. rewrite filter_filter.
    apply filter_ext. intros x.
    destruct (Nat.eqb (resourceId x) rid),
      (String.eqb (approvalStatus x) "approved"), (startTime x <? e),
      (endTime x >? s);
      destruct ex; simpl; try reflexivity;
      destruct (Nat.eqb (_id x) o); reflexivity. }
  split; [|reflexivity].
  intros x _ Hna Hin. apply conflict_set_In in Hin as (_ & _ & Hap & _).
  exact (Hna Hap).
Qed.

Lemma findActiveForResource_run rid now db :
  findActiveForResource rid now db
  = (Returned (filter (matches (active_query rid now)) (allocations db)),
     db, [Allocation_find_call]).
Proof. reflexivity. Qed.

Lemma find_head_filter {A} (f : A -> bool) (l : list A) :
  find f l = hd_error (filter f l).
Proof.
  induction l as [|x l IH]; simpl; [reflexivity|].
  destruct (f x); [reflexivity|exact IH].
Qed.

(** X2. findActiveForResource returns the resource's allocations for which
    the isActive virtual holds, of any approval status, in collection order;
    isActive is true exactly when timeStatus is 'Active'; and the resource
    controller reports the resource 'Allocated' exactly when that list is not
    empty, with its first element as current allocation. *)
Theorem findActiveForResource_and_status :
  forall (resource : Resource) (now : Z) (db : Db),
  exists l r,
    findActiveForResource (resource_id resource) now db
    = (Returned l, db, [Allocation_find_call])
    /\ resourceWithStatus resource now db
       = (Returned r, db, [Allocation_findOne_call])
    /\ (forall a,
           In a l
           <-> In a (allocations db)
               /\ resourceId a = resource_id resource
               /\ isActive a now = true)
    /\ (forall a, isActive a now = true <-> timeStatus a now = "Active")
    /\ (rws_status r = "Allocated" <-> l <> [])
    /\ (rws_status r = "Available" <-> l = [])
    /\ currentAllocation r = option_map summary (hd_error l).
Proof.
  intros resource now db. do 2 eexists.
  split; [apply findActiveForResource_run|].
  split; [apply resourceWithStatus_run|].
  cbn [rws_status currentAllocation]. rewrite find_head_filter.
  set (l := filter (matches (active_query (resource_id resource) now))
              (allocations db)).
  split.
  { intros a. unfold l. rewrite filter_In, matches_occupies.
    unfold occupies, isActive. rewrite andb_true_iff, !Z.leb_le. tauto. }
  split.
  { intros a. unfold isActive.
    rewrite andb_true_iff, !Z.leb_le.
    destruct (timeStatus_cases a now) as [[? E]|[[? E]|(? & ? & E)]];
      rewrite E; split; intros Hx; try discriminate; try lia; reflexivity. }
  destruct l as [|a l']; simpl.
  - repeat split; try discriminate; try reflexivity; congruence.
  - repeat split; try discriminate; try reflexivity; congruence.
Qed.

(** *** Deleting an allocation *)

Lemma deleteAllocation_run n db :
  deleteAllocation (Oid n) db
  = match lookup_allocation db n with
    | Some a =>
        (json 200 true "Allocation deleted successfully" (Data a None),
         with_allocations db (remove_first n (allocations db)),
         [Allocation_findByIdAndDelete_call])
    | None =>
        (json 404 false "Allocation not found" NoPayload, db,
         [Allocation_findByIdAndDelete_call])
    end.
Proof.
  unfold deleteAllocation, try_catch, deleteAllocation_try, bind,
    Allocation_findByIdAndDelete, call.
  fold (lookup_allocation db n).
  destruct (lookup_allocation db n); reflexivity.
Qed.

Lemma remove_first_In_iff n l x :
  NoDup (map _id l) ->
  In x (remove_first n l) <-> In x l /\ _id x <> n.
Proof.
  induction l as [|y l IH]; simpl; intros H; [tauto|].
  inversion H as [|? ? Hy Hl]; subst.
  destruct (Nat.eqb_spec (_id y) n) as [E|NE]; simpl.
  - split.
    + intros Hx. split; [auto|]. intros Hxn. apply Hy.
      rewrite E, <- Hxn. apply in_map. assumption.
    + intros [[<-|Hx] Hxn]; [contradiction|assumption].
  - rewrite (IH Hl). split.
    + intros [<-|[Hx Hxn]]; auto.
    + intros [[<-|Hx] Hxn]; auto.
Qed.

Lemma filter_remove_first (p : Allocation -> bool) n l :
  NoDup (map _id l) ->
  filter p (remove_first n l)
  = filter (fun x => negb (Nat.eqb (_id x) n)) (filter p l).
Proof.
  induction l as [|y l IH]; simpl; intros H; [reflexivity|].
  inversion H as [|? ? Hy Hl]; subst.
  destruct (Nat.eqb_spec (_id y) n) as [E|NE]; simpl.
  - assert (Hkeep : filter (fun x => negb (Nat.eqb (_id x) n)) (filter p l)
                    = filter p l).
    { rewrite filter_filter. apply filter_ext_in. intros x Hx.
      destruct (Nat.eqb_spec (_id x) n) as [Exn|_];
        [|rewrite andb_true_r; reflexivity].
      exfalso. apply Hy. rewrite E, <- Exn. apply in_map. assumption. }
    destruct (p y); simpl.
    + destruct (Nat.eqb_spec (_id y) n); [|contradiction]. simpl.
      symmetry. exact Hkeep.
    + symmetry. exact Hkeep.
  - destruct (p y); simpl.
    + destruct (Nat.eqb_spec (_id y) n); [contradiction|]. simpl.
      rewrite (IH Hl). reflexivity.
    + apply IH. assumption.
Qed.

(** X3. deleteAllocation, on every store the engine can reach: an id that is
    not an ObjectId is answered 500 and an id of no allocation 404, both with
    the store unchanged; otherwise the answer is 200 with the deleted
    document, exactly the allocation with that id leaves the collection (the
    others stay, in order), resources are untouched, and the id can no
    longer be found. *)
Theorem deleteAllocation_removes_exactly_one :
  forall db, reachable db ->
    deleteAllocation Malformed db
    = (json 500 false "Failed to delete allocation"
         (ErrorMessage (CastError "ObjectId")),
       db, [Allocation_findByIdAndDelete_call])
    /\ (forall n,
           lookup_allocation db n = None ->
           deleteAllocation (Oid n) db
           = (json 404 false "Allocation not found" NoPayload, db,
              [Allocation_findByIdAndDelete_call]))
    /\ (forall n a,
           lookup_allocation db n = Some a ->
           response_of (deleteAllocation (Oid n) db)
           = json 200 true "Allocation deleted successfully" (Data a None)
           /\ resources (db_of (deleteAllocation (Oid n) db)) = resources db
           /\ (forall x,
                  In x (allocations (db_of (deleteAllocation (Oid n) db)))
                  <-> In x (allocations db) /\ _id x <> n)
           /\ allocations (db_of (deleteAllocation (Oid n) db))
              = filter (fun x => negb (Nat.eqb (_id x) n)) (allocations db)
           /\ lookup_allocation (db_of (deleteAllocation (Oid n) db)) n
              = None).
Proof.
  intros db Hreach.
  assert (Hnd : NoDup (map _id (allocations db)))
    by apply (reachable_invariant db Hreach).
  split; [reflexivity|]. split.
  - intros n Hn. rewrite deleteAllocation_run, Hn. reflexivity.
  - intros n a Ha. rewrite deleteAllocation_run, Ha.
    unfold response_of, db_of. cbn [fst snd with_allocations allocations
                                     resources].
    split; [reflexivity|]. split; [reflexivity|].
    split; [intros x; apply remove_first_In_iff; assumption|].
    split.
    + pose proof (filter_remove_first (fun _ => true) n (allocations db) Hnd)
        as H.
      assert (Hall : forall l : list Allocation, filter (fun _ => true) l = l).
      { induction l as [|y l IH]; simpl; congruence. }
      rewrite !Hall in H. exact H.
    + unfold lookup_allocation. cbn [allocations].
      apply find_remove_first_same. assumption.
Qed.

Lemma remove_first_last l doc :
  (forall a, In a l -> _id a <> _id doc) ->
  remove_first (_id doc) (l ++ [doc]) = l.
Proof.
  induction l as [|y l IH]; simpl; intros H.
  - rewrite Nat.eqb_refl. reflexivity.
  - destruct (Nat.eqb_spec (_id y) (_id doc)) as [E|_].
    + exfalso. apply (H y); auto.
    + rewrite IH; auto.
Qed.

Lemma find_last_fresh l doc :
  (forall a, In a l -> _id a <> _id doc) ->
  find (fun a => Nat.eqb (_id a) (_id doc)) (l ++ [doc]) = Some doc.
Proof.
  induction l as [|y l IH]; simpl; intros H.
  - rewrite Nat.eqb_refl. reflexivity.
  - destruct (Nat.eqb_spec (_id y) (_id doc)) as [E|_].
    + exfalso. apply (H y); auto.
    + apply IH. auto.
Qed.

(** X4. Creating and then deleting is a round trip on the collections: when
    createAllocation answers 201 on a reachable store, deleting the id of the
    document it returned answers 200 with that same document and leaves the
    allocations and the resources exactly as they were before the
    creation. *)
Theorem create_then_delete_restores :
  forall db, reachable db ->
  forall req currentTime doc populated,
    response_of (createAllocation req currentTime db)
    = json 201 true "Allocation created successfully" (Data doc populated) ->
    let db1 := db_of (createAllocation req currentTime db) in
    lookup_allocation db1 (_id doc) = Some doc
    /\ response_of (deleteAllocation (Oid (_id doc)) db1)
       = json 200 true "Allocation deleted successfully" (Data doc None)
    /\ allocations (db_of (deleteAllocation (Oid (_id doc)) db1))
       = allocations db
    /\ resources (db_of (deleteAllocation (Oid (_id doc)) db1))
       = resources db.
Proof.
  intros db Hreach req currentTime doc populated Hresp db1. subst db1.
  destruct (reachable_invariant db Hreach) as (((_ & Hfresh) & _) & _).
  destruct (createAllocation_cases req currentTime db)
    as [resp calls H201 _ _| |rid who s e resource];
    unfold response_of in Hresp; cbn [fst snd] in Hresp.
  - rewrite Hresp in H201. simpl in H201. congruence.
  - discriminate.
  - injection Hresp as <- _. unfold db_of. cbn [fst snd].
    set (doc := created_doc req currentTime db rid who s e).
    assert (Hnew : forall a, In a (allocations db) -> _id a <> _id doc).
    { intros a Ha. apply Hfresh in Ha. change (_id doc) with (nextId db).
      lia. }
    assert (Hlook : lookup_allocation (insert_doc db doc) (_id doc)
                    = Some doc).
    { unfold lookup_allocation. cbn [insert_doc allocations].
      apply find_last_fresh. exact Hnew. }
    split; [exact Hlook|].
    rewrite deleteAllocation_run, Hlook. cbn [fst snd].
    split; [reflexivity|]. split; [|reflexivity].
    cbn [with_allocations insert_doc allocations].
    apply remove_first_last. exact Hnew.
Qed.

(** X5. Deleting frees the slot: on a reachable store, after a successful
    deletion every conflict set is the former one without the deleted
    allocation, so an interval whose only conflicts were with the deleted
    allocation has an empty conflict set afterwards. *)
Theorem delete_frees_the_slot :
  forall db, reachable db ->
  forall n a,
    lookup_allocation db n = Some a ->
    forall rid s e ex,
      conflict_set (db_of (deleteAllocation (Oid n) db)) rid s e ex
      = filter (fun x => negb (Nat.eqb (_id x) n)) (conflict_set db rid s e ex)
      /\ ((forall x, In x (conflict_set db rid s e ex) -> _id x = n) ->
          conflict_set (db_of (deleteAllocation (Oid n) db)) rid s e ex = []).
Proof.
  intros db Hreach n a Ha rid s e ex.
  assert (Hnd : NoDup (map _id (allocations db)))
    by apply (reachable_invariant db Hreach).
  assert (E : conflict_set (db_of (deleteAllocation (Oid n) db)) rid s e ex
              = filter (fun x => negb (Nat.eqb (_id x) n))
                  (conflict_set db rid s e ex)).
  { rewrite deleteAllocation_run, Ha. unfold db_of, conflict_set.
    cbn [fst snd with_allocations allocations].
    apply filter_remove_first. assumption. }
  split; [exact E|].
  intros Honly. rewrite E. clear E. revert Honly.
  generalize (conflict_set db rid s e ex) as l.
  induction l as [|y l IH]; simpl; intros Honly; [reflexivity|].
  rewrite (Honly y (or_introl eq_refl)), Nat.eqb_refl. simpl.
  apply IH. intros x Hx. apply Honly. now right.
Qed.

(** *** Sorting *)

Section Sorting.
Context {A : Type} (key : A -> Z).

Lemma insert_desc_perm (x : A) (l : list A) :
  Permutation (x :: l) (insert_desc key x l).
Proof.
  induction l as [|y l IH]; simpl; [reflexivity|].
  destruct (key y <=? key x); [reflexivity|].
  rewrite perm_swap. constructor. exact IH.
Qed.

Lemma sort_desc_perm (l : list A) : Permutation l (sort_desc key l).
Proof.
  induction l as [|x l IH]; simpl; [constructor|].
  rewrite <- insert_desc_perm. constructor. exact IH.
Qed.

Lemma insert_desc_sorted (x : A) (l : list A) :
  descending key l -> descending key (insert_desc key x l).
Proof.
  unfold descending. induction l as [|y l IH]; simpl; intros H.
  - constructor; constructor.
  - inversion H as [|? ? Hl Hy]; subst.
    destruct (Z.leb_spec (key y) (key x)).
    + constructor; [exact H|]. constructor; [assumption|].
      eapply Forall_impl; [|exact Hy]. simpl. intros; lia.
    + constructor; [apply IH; assumption|].
      apply (Permutation_Forall (insert_desc_perm x l)).
      constructor; [lia|assumption].
Qed.

Lemma sort_desc_sorted (l : list A) : descending key (sort_desc key l).
Proof.
  induction l as [|x l IH]; simpl; [constructor|].
  apply insert_desc_sorted. exact IH.
Qed.

Lemma sort_desc_In (l : list A) (x : A) : In x (sort_desc key l) <-> In x l.
Proof.
  split; apply Permutation_in;
    [symmetry|]; apply sort_desc_perm.
Qed.

Lemma sort_desc_length (l : list A) :
  List.length (sort_desc key l) = List.length l.
Proof. symmetry. apply Permutation_length, sort_desc_perm. Qed.

End Sorting.

(** *** The listings *)

(** X6. getAllAllocations lists every stored allocation exactly once, ordered
    by start time descending, each labelled with its time status; the count
    it reports is the number of stored allocations. *)
Theorem getAllAllocations_lists_all :
  forall (currentTime : Z) (db : Db),
    let answer := getAllAllocations currentTime db in
    Permutation (allocations db) (map aws_allocation (data answer))
    /\ descending startTime (map aws_allocation (data answer))
    /\ (forall item, In item (data answer) ->
          aws_timeStatus item = timeStatus (aws_allocation item) currentTime)
    /\ count answer = List.length (allocations db).
Proof.
  intros currentTime db. cbv zeta.
  unfold getAllAllocations, listing, allocationsWithStatus.
  cbn [data count]. rewrite map_map, map_id, length_map.
  split; [apply sort_desc_perm|]. split; [apply sort_desc_sorted|].
  split; [|apply sort_desc_length].
  intros item Hin. apply in_map_iff in Hin as (a & <- & _). reflexivity.
Qed.

Lemma pending_In db x :
  In x (data (getPendingAllocations db))
  <-> In x (allocations db) /\ approvalStatus x = "pending".
Proof.
  unfold getPendingAllocations, listing. cbn [data].
  rewrite sort_desc_In, filter_In. unfold matches. simpl.
  rewrite andb_true_r, String.eqb_eq. tauto.
Qed.

(** X7. getPendingAllocations returns exactly the stored allocations whose
    approval status is 'pending', each once, newest creation first, and
    counts them; decided allocations are never listed. *)
Theorem getPendingAllocations_lists_pending :
  forall (db : Db),
    let answer := getPendingAllocations db in
    Permutation
      (filter (fun a => String.eqb (approvalStatus a) "pending")
         (allocations db))
      (data answer)
    /\ descending createdAt (data answer)
    /\ count answer = List.length (data answer)
    /\ (forall x, In x (data answer)
                  <-> In x (allocations db) /\ approvalStatus x = "pending")
    /\ (forall x, approvalStatus x = "approved"
                  \/ approvalStatus x = "rejected" ->
                  ~ In x (data answer)).
Proof.
  intros db. cbv zeta.
  split.
  { unfold getPendingAllocations, listing. cbn [data].
    erewrite filter_ext; [apply sort_desc_perm|].
    intros a. unfold matches. simpl. rewrite andb_true_r. reflexivity. }
  split; [apply sort_desc_sorted|]. split; [reflexivity|].
  split; [intros; apply pending_In|].
  intros x Hst Hin. apply pending_In in Hin as [_ Hp].
  destruct Hst; congruence.
Qed.

(** X8. A decision empties the queue of that request and of nothing else:
    when updateAllocationStatus answers 200 for an id on a reachable store,
    the pending queue afterwards holds exactly the former entries with
    another id. *)
Theorem decided_allocation_leaves_queue :
  forall db, reachable db ->
  forall n requested,
    status (response_of (updateAllocationStatus (Oid n) requested db))
    = 200%nat ->
    forall x,
      In x (data (getPendingAllocations
                    (db_of (updateAllocationStatus (Oid n) requested db))))
      <-> In x (data (getPendingAllocations db)) /\ _id x <> n.
Proof.
  intros db Hreach n requested H200 x.
  assert (Hnd : NoDup (map _id (allocations db)))
    by apply (reachable_invariant db Hreach).
  rewrite !pending_In.
  destruct (updateAllocationStatus_cases (Oid n) requested db)
    as [resp calls Hn _ _| |m a st Hid _ Hst Ha _ _ _];
    unfold response_of in H200; cbn [fst snd] in H200;
    [contradiction|discriminate|].
  injection Hid as <-. unfold db_of. cbn [fst snd].
  destruct (lookup_allocation_Some _ _ _ Ha) as [Hin Hida].
  cbn [update_doc with_allocations allocations].
  split.
  - intros [Hx Hp].
    apply replace_first_In in Hx; [|assumption].
    cbn [set_approvalStatus _id] in Hx. rewrite Hida in Hx.
    destruct Hx as [->|[Hx Hne]]; [|auto].
    cbn [set_approvalStatus approvalStatus] in Hp.
    destruct Hst; congruence.
  - intros [[Hx Hp] Hne]. split; [|assumption].
    clear Hin. revert Hx. generalize (allocations db) as l.
    induction l as [|y l IH]; simpl; [tauto|].
    cbn [set_approvalStatus _id]. rewrite Hida.
    destruct (Nat.eqb_spec (_id y) n) as [E|NE]; simpl.
    + intros [<-|Hx]; [contradiction|auto].
    + intros [<-|Hx]; auto.
Qed.

(** X9. Who enters the queue: when createAllocation answers 201, the
    pending queue afterwards is the former one plus the new document if the
    creator is not an administrator, and is unchanged if the creator is
    one. *)
Theorem created_allocation_and_queue :
  forall db req currentTime doc populated,
    response_of (createAllocation req currentTime db)
    = json 201 true "Allocation created successfully" (Data doc populated) ->
    forall x,
      In x (data (getPendingAllocations
                    (db_of (createAllocation req currentTime db))))
      <-> In x (data (getPendingAllocations db))
          \/ (isAdmin (user req) = false /\ x = doc).
Proof.
  intros db req currentTime doc populated Hresp x.
  rewrite !pending_In.
  destruct (createAllocation_cases req currentTime db)
    as [resp calls H201 _ _| |rid who s e resource];
    unfold response_of in Hresp; cbn [fst snd] in Hresp.
  - rewrite Hresp in H201. simpl in H201. congruence.
  - discriminate.
  - injection Hresp as <- _. unfold db_of. cbn [fst snd insert_doc allocations].
    rewrite in_app_iff. simpl.
    set (doc := created_doc req currentTime db rid who s e).
    assert (Hdoc : approvalStatus doc
                   = if isAdmin (user req) then "approved" else "pending")
      by reflexivity.
    split.
    + intros [[Hx|[<-|[]]] Hp]; [left; auto|].
      right. split; [|reflexivity].
      rewrite Hdoc in Hp. destruct (isAdmin (user req));
        [discriminate|reflexivity].
    + intros [[Hx Hp]|[Hadm ->]]; [auto|].
      split; [auto|]. rewrite Hdoc, Hadm. reflexivity.
Qed.

Lemma my_In (u : User) db x :
  In x (data (getMyAllocations u db))
  <-> In x (allocations db) /\ requestedBy x = Some (user_id u).
Proof.
  unfold getMyAllocations, listing. cbn [data].
  rewrite sort_desc_In, filter_In.
  destruct (requestedBy x) as [i|].
  - rewrite Nat.eqb_eq. split; intros [? H]; split; congruence.
  - split; intros [? H]; discriminate.
Qed.

(** X10. getMyAllocations returns exactly the allocations requested by the
    calling user, newest first; a request the user has just created (201) is
    in the user's own list and in no other user's, and the lists of other
    users are unchanged by it. *)
Theorem getMyAllocations_lists_own :
  forall (u : User) (db : Db),
    (forall x, In x (data (getMyAllocations u db))
               <-> In x (allocations db)
                   /\ requestedBy x = Some (user_id u))
    /\ descending createdAt (data (getMyAllocations u db))
    /\ count (getMyAllocations u db)
       = List.length (data (getMyAllocations u db))
    /\ (forall req currentTime doc populated,
           user req = Some u ->
           response_of (createAllocation req currentTime db)
           = json 201 true "Allocation created successfully"
               (Data doc populated) ->
           let db1 := db_of (createAllocation req currentTime db) in
           In doc (data (getMyAllocations u db1))
           /\ forall v, user_id v <> user_id u ->
                forall x, In x (data (getMyAllocations v db1))
                          <-> In x (data (getMyAllocations v db))).
Proof.
  intros u db.
  split; [intros; apply my_In|]. split; [apply sort_desc_sorted|].
  split; [reflexivity|].
  intros req currentTime doc populated Hu Hresp db1. subst db1.
  destruct (createAllocation_cases req currentTime db)
    as [resp calls H201 _ _| |rid who s e resource];
    unfold response_of in Hresp; cbn [fst snd] in Hresp.
  - rewrite Hresp in H201. simpl in H201. congruence.
  - discriminate.
  - injection Hresp as <- _. unfold db_of. cbn [fst snd].
    set (doc := created_doc req currentTime db rid who s e).
    assert (Hby : requestedBy doc = Some (user_id u)).
    { unfold doc. cbn [created_doc requestedBy]. rewrite Hu. reflexivity. }
    split.
    + apply my_In. cbn [insert_doc allocations]. rewrite in_app_iff.
      simpl. auto.
    + intros v Hv x. rewrite !my_In. cbn [insert_doc allocations].
      rewrite in_app_iff. simpl. split.
      * intros [[Hx|[<-|[]]] Hr]; [auto|]. congruence.
      * intros [Hx Hr]. auto.
Qed.

(** *** The dashboard *)

Lemma filter_length_split {A} (p : A -> bool) (l : list A) :
  (List.length (filter p l) + List.length (filter (fun x => negb (p x)) l)
   = List.length l)%nat.
Proof.
  induction l as [|x l IH]; simpl; [reflexivity|].
  destruct (p x); simpl; lia.
Qed.

Lemma filter_perm_length {A} (p : A -> bool) (l l' : list A) :
  Permutation l l' ->
  List.length (filter p l) = List.length (filter p l').
Proof.
  induction 1 as [|x l l' _ IH|x y l|l l' l'' _ IH1 _ IH2]; simpl.
  - reflexivity.
  - destruct (p x); simpl; congruence.
  - destruct (p x), (p y); reflexivity.
  - congruence.
Qed.

Lemma active_matches now a :
  matches [StartTimeLte (ValidDate now); EndTimeGte (ValidDate now)] a
  = String.eqb (timeStatus a now) "Active".
Proof.
  unfold matches, timeStatus. simpl. rewrite andb_true_r.
  destruct (Z.ltb_spec now (startTime a)), (Z.leb_spec (startTime a) now),
    (Z.leb_spec now (endTime a)); try reflexivity; lia.
Qed.

Lemma upcoming_matches now a :
  matches [StartTimeGt (ValidDate now)] a
  = String.eqb (timeStatus a now) "Upcoming".
Proof.
  unfold matches, timeStatus. simpl. rewrite andb_true_r.
  destruct (Z.ltb_spec now (startTime a)), (Z.leb_spec (startTime a) now),
    (Z.leb_spec now (endTime a)); try reflexivity; lia.
Qed.

Lemma labels_partition now (l : list Allocation) :
  (List.length (filter (fun a => String.eqb (timeStatus a now) "Active") l)
   + List.length (filter (fun a => String.eqb (timeStatus a now) "Upcoming") l)
   + List.length (filter (fun a => String.eqb (timeStatus a now) "Completed") l)
   = List.length l)%nat.
Proof.
  induction l as [|a l IH]; simpl; [reflexivity|].
  destruct (timeStatus_cases a now) as [[_ E]|[[_ E]|(_ & _ & E)]];
    rewrite E; simpl; lia.
Qed.

Lemma labelled_count now label db :
  List.length (filter (fun item => String.eqb (aws_timeStatus item) label)
                 (data (getAllAllocations now db)))
  = List.length (filter (fun a => String.eqb (timeStatus a now) label)
                   (allocations db)).
Proof.
  unfold getAllAllocations, listing, allocationsWithStatus. cbn [data].
  rewrite (filter_perm_length _ _ _ (sort_desc_perm startTime (allocations db))).
  induction (sort_desc startTime (allocations db)) as [|a l IH]; simpl;
    [reflexivity|].
  fold (timeStatus a now).
  destruct (String.eqb (timeStatus a now) label); simpl; congruence.
Qed.

(** X11. The dashboard's allocation counters agree with the labels of the
    allocation list at the same clock reading: activeAllocations and
    upcomingAllocations are the numbers of allocations getAllAllocations
    labels 'Active' and 'Upcoming', totalAllocations is its count, and the
    total is the sum of the Active, Upcoming and Completed ones, pending and
    rejected requests included. *)
Theorem dashboard_counts_match_labels :
  forall (currentTime : Z) (db : Db),
    let stats := getDashboardStats currentTime db in
    let labelled label :=
      List.length
        (filter (fun item => String.eqb (aws_timeStatus item) label)
           (data (getAllAllocations currentTime db))) in
    totalAllocations stats = count (getAllAllocations currentTime db)
    /\ activeAllocations stats = labelled "Active"
    /\ upcomingAllocations stats = labelled "Upcoming"
    /\ (totalAllocations stats
        = activeAllocations stats + upcomingAllocations stats
          + labelled "Completed")%nat.
Proof.
  intros currentTime db. cbv beta zeta.
  rewrite !labelled_count.
  unfold getDashboardStats, countDocuments.
  cbn [totalAllocations activeAllocations upcomingAllocations].
  rewrite (filter_ext _ _ (active_matches currentTime)).
  rewrite (filter_ext _ _ (upcoming_matches currentTime)).
  split.
  { unfold getAllAllocations, listing, allocationsWithStatus. cbn [count].
    rewrite length_map, sort_desc_length. reflexivity. }
  split; [reflexivity|]. split; [reflexivity|].
  symmetry. apply labels_partition.
Qed.

Lemma descending_app {A} (key : A -> Z) (l1 l2 : list A) :
  descending key (l1 ++ l2) ->
  forall x y, In x l1 -> In y l2 -> key y <= key x.
Proof.
  unfold descending. induction l1 as [|z l1 IH]; simpl; intros H x y Hx Hy;
    [destruct Hx|].
  inversion H as [|? ? Hl Hz]; subst.
  destruct Hx as [<-|Hx]; [|eauto].
  rewrite Forall_forall in Hz. apply Hz. apply in_app_iff. now right.
Qed.

(** X12. The dashboard's recent allocations are the five most recently
    created ones, or all of them when there are fewer: at most five
    entries, each a stored allocation with its time status and its
    resource's name ('Unknown' exactly when the resource no longer exists),
    and no allocation left out was created after one that is listed. *)
Theorem dashboard_recent_are_newest :
  forall (currentTime : Z) (db : Db),
    let recent := firstn 5 (sort_desc createdAt (allocations db)) in
    List.length (recentAllocations (getDashboardStats currentTime db))
    = Nat.min 5 (List.length (allocations db))
    /\ map recent_id (recentAllocations (getDashboardStats currentTime db))
       = map _id recent
    /\ map recent_status
         (recentAllocations (getDashboardStats currentTime db))
       = map (fun a => timeStatus a currentTime) recent
    /\ map recent_resource
         (recentAllocations (getDashboardStats currentTime db))
       = map (fun a => match lookup_resource db (resourceId a) with
                       | Some resource => name resource
                       | None => "Unknown"
                       end) recent
    /\ (forall x, In x recent -> In x (allocations db))
    /\ (forall x y,
           In x recent -> In y (allocations db) -> ~ In y recent ->
           createdAt y <= createdAt x).
Proof.
  intros currentTime db. cbv zeta.
  unfold getDashboardStats. cbn [recentAllocations].
  rewrite length_map, length_firstn, sort_desc_length, !map_map.
  cbn [recent_id recent_status recent_resource].
  split; [reflexivity|]. split; [reflexivity|]. split; [reflexivity|].
  split; [reflexivity|].
  set (sorted := sort_desc createdAt (allocations db)).
  split.
  - intros x Hx. apply (sort_desc_In createdAt). fold sorted.
    rewrite <- (firstn_skipn 5 sorted). apply in_app_iff. now left.
  - intros x y Hx Hy Hny.
    apply (descending_app createdAt (firstn 5 sorted) (skipn 5 sorted));
      [rewrite firstn_skipn; apply sort_desc_sorted|assumption|].
    apply (sort_desc_In createdAt) in Hy. fold sorted in Hy.
    rewrite <- (firstn_skipn 5 sorted) in Hy.
    apply in_app_iff in Hy as [Hy|Hy]; [contradiction|assumption].
Qed.

(** *** The dashboard and the resource list *)

Lemma getAllResources_run rs now db :
  getAllResources rs now db
  = (Returned (map (fun r => resource_item r now db) rs), db,
     repeat Allocation_findOne_call (List.length rs)).
Proof.
  unfold getAllResources.
  induction rs as [|r rs IH]; simpl; [reflexivity|].
  unfold bind at 1. rewrite resourceWithStatus_run.
  unfold bind at 1. rewrite IH. unfold ret. rewrite app_nil_r.
  reflexivity.
Qed.

Lemma item_allocated r now db :
  String.eqb (rws_status (resource_item r now db)) "Allocated"
  = existsb (Nat.eqb (resource_id r))
      (distinct_resourceId [StartTimeLte (ValidDate now);
                            EndTimeGte (ValidDate now)] db).
Proof.
  unfold resource_item, distinct_resourceId. cbn [rws_status].
  set (q := [StartTimeLte (ValidDate now); EndTimeGte (ValidDate now)]).
  assert (Hm : forall a, matches (active_query (resource_id r) now) a
                         = Nat.eqb (resourceId a) (resource_id r)
                           && matches q a).
  { intros a. reflexivity. }
  destruct (find _ (allocations db)) as [a|] eqn:E.
  - apply find_present in E as [Hin Ha]. rewrite Hm in Ha.
    apply andb_true_iff in Ha as [Hr Hq]. apply Nat.eqb_eq in Hr.
    symmetry. apply existsb_exists. exists (resource_id r).
    split; [|apply Nat.eqb_refl].
    apply nodup_In, in_map_iff. exists a. split; [assumption|].
    apply filter_In. auto.
  - simpl. symmetry. apply not_true_is_false. intros H.
    apply existsb_exists in H as (i & Hi & Heq). apply Nat.eqb_eq in Heq.
    subst i. apply nodup_In, in_map_iff in Hi as (a & Hr & Ha).
    apply filter_In in Ha as [Hin Hq].
    destruct (find_exists (matches (active_query (resource_id r) now))
                (allocations db) a Hin) as [y Hy]; [|congruence].
    rewrite Hm, Hq, Hr, Nat.eqb_refl. reflexivity.
Qed.

Lemma item_available r now db :
  String.eqb (rws_status (resource_item r now db)) "Available"
  = negb (String.eqb (rws_status (resource_item r now db)) "Allocated").
Proof.
  unfold resource_item. cbn [rws_status].
  destruct (find _ (allocations db)); reflexivity.
Qed.

Lemma filter_keeps_distinct_keys {A K} (keep : A -> bool) (key : A -> K)
    (docs : list A) (Hdistinct : NoDup (map key docs)) :
  NoDup (map key (filter keep docs)).
Proof.
  induction docs as [|x l IH]; simpl; [constructor|].
  simpl in Hdistinct. inversion Hdistinct as [|? ? Hx Hl]; subst.
  destruct (keep x); simpl; [|auto]. constructor; [|auto].
  intros Hin. apply Hx. apply in_map_iff in Hin as (y & Hy & Hin).
  apply in_map_iff. exists y. split; [assumption|].
  apply filter_In in Hin. tauto.
Qed.

Lemma allocatedCount_items rs now db :
  allocatedCount (map (fun r => resource_item r now db) rs)
  = List.length
      (filter (fun r => existsb (Nat.eqb (resource_id r))
                          (distinct_resourceId
                             [StartTimeLte (ValidDate now);
                              EndTimeGte (ValidDate now)] db))
         rs).
Proof.
  unfold allocatedCount.
  induction rs as [|r rs IH]; [reflexivity|].
  cbn [map filter]. rewrite item_allocated.
  destruct (existsb _ _); cbn [List.length]; rewrite IH; reflexivity.
Qed.

Lemma availableCount_items rs now db :
  availableCount (map (fun r => resource_item r now db) rs)
  = List.length
      (filter (fun r => negb (existsb (Nat.eqb (resource_id r))
                                (distinct_resourceId
                                   [StartTimeLte (ValidDate now);
                                    EndTimeGte (ValidDate now)] db)))
         rs).
Proof.
  unfold availableCount.
  induction rs as [|r rs IH]; [reflexivity|].
  cbn [map filter]. rewrite item_available, item_allocated.
  destruct (existsb _ _); cbn [negb List.length]; rewrite IH; reflexivity.
Qed.

Lemma allocated_resources_counted currentTime db :
  references_resolve db ->
  List.length
    (filter (fun r => existsb (Nat.eqb (resource_id r))
                        (distinct_resourceId
                           [StartTimeLte (ValidDate currentTime);
                            EndTimeGte (ValidDate currentTime)] db))
       (resources db))
  = List.length
      (distinct_resourceId
         [StartTimeLte (ValidDate currentTime);
          EndTimeGte (ValidDate currentTime)] db).
Proof.
  intros [Hnd Href].
  set (S := distinct_resourceId _ db).
  rewrite <- (length_map resource_id).
  apply Permutation_length, NoDup_Permutation.
  - apply filter_keeps_distinct_keys. assumption.
  - apply NoDup_nodup.
  - intros i. rewrite in_map_iff. split.
    + intros (r & <- & Hr). apply filter_In in Hr as [_ Hr].
      apply existsb_exists in Hr as (j & Hj & Heq).
      apply Nat.eqb_eq in Heq. subst j. exact Hj.
    + intros Hi. pose proof Hi as Hi'.
      apply nodup_In, in_map_iff in Hi' as (a & <- & Ha).
      apply filter_In in Ha as [Hin _].
      destruct (Href a Hin) as (r & Hr & Hid).
      exists r. split; [assumption|]. apply filter_In.
      split; [assumption|]. apply existsb_exists.
      exists (resourceId a). split; [assumption|].
      apply Nat.eqb_eq. assumption.
Qed.

Lemma available_as_count currentTime db :
  references_resolve db ->
  availableResources (getDashboardStats currentTime db)
  = Z.of_nat
      (availableCount
         (map (fun r => resource_item r currentTime db) (resources db))).
Proof.
  intros Href.
  pose proof (allocated_resources_counted currentTime db Href) as Hcount.
  pose proof (filter_length_split
                (fun r => existsb (Nat.eqb (resource_id r))
                            (distinct_resourceId
                               [StartTimeLte (ValidDate currentTime);
                                EndTimeGte (ValidDate currentTime)] db))
                (resources db)) as Hsplit.
  rewrite availableCount_items.
  unfold getDashboardStats. cbn [availableResources]. lia.
Qed.

(** X13. When every allocation refers to a stored resource and resource ids
    are unique, the dashboard's availableResources is the number of
    resources the resource list shows as 'Available' at the same clock
    reading (the Resource Status page's availableCount); it then lies
    between 0 and totalResources, and the page's two counters add up to the
    number of resources. *)
Theorem dashboard_available_matches_list :
  forall (currentTime : Z) (db : Db),
    references_resolve db ->
    exists items,
      getAllResources (resources db) currentTime db
      = (Returned items, db,
         repeat Allocation_findOne_call (List.length (resources db)))
      /\ availableResources (getDashboardStats currentTime db)
         = Z.of_nat (availableCount items)
      /\ 0 <= availableResources (getDashboardStats currentTime db)
         <= Z.of_nat (totalResources (getDashboardStats currentTime db))
      /\ (availableCount items + allocatedCount items
          = totalResources (getDashboardStats currentTime db))%nat.
Proof.
  intros currentTime db Href.
  exists (map (fun r => resource_item r currentTime db) (resources db)).
  split; [apply getAllResources_run|].
  pose proof (available_as_count currentTime db Href) as Hav.
  pose proof (filter_length_split
                (fun r => existsb (Nat.eqb (resource_id r))
                            (distinct_resourceId
                               [StartTimeLte (ValidDate currentTime);
                                EndTimeGte (ValidDate currentTime)] db))
                (resources db)) as Hsplit.
  cbv beta in Hsplit. split; [exact Hav|].
  rewrite Hav, availableCount_items, allocatedCount_items.
  unfold getDashboardStats. cbn [totalResources]. lia.
Qed.

(** *** What approval decisions do not change *)

Lemma filter_map_swap {A B} (g : A -> B) (p : B -> bool) (l : list A) :
  filter p (map g l) = map g (filter (fun x => p (g x)) l).
Proof.
  induction l as [|x l IH]; simpl; [reflexivity|].
  destruct (p (g x)); simpl; congruence.
Qed.

Lemma find_map_swap {A B} (g : A -> B) (p : B -> bool) (l : list A) :
  find p (map g l) = option_map g (find (fun x => p (g x)) l).
Proof.
  induction l as [|x l IH]; simpl; [reflexivity|].
  destruct (p (g x)); [reflexivity|exact IH].
Qed.

Lemma insert_desc_map {A B} (g : A -> B) (key : B -> Z) (key' : A -> Z)
    (x : A) (l : list A) :
  (forall y, key (g y) = key' y) ->
  insert_desc key (g x) (map g l) = map g (insert_desc key' x l).
Proof.
  intros Hk. induction l as [|y l IH]; simpl; [reflexivity|].
  rewrite !Hk. destruct (key' y <=? key' x); simpl; congruence.
Qed.

Lemma sort_desc_map {A B} (g : A -> B) (key : B -> Z) (key' : A -> Z)
    (l : list A) :
  (forall y, key (g y) = key' y) ->
  sort_desc key (map g l) = map g (sort_desc key' l).
Proof.
  intros Hk. induction l as [|x l IH]; simpl; [reflexivity|].
  rewrite IH. apply insert_desc_map. exact Hk.
Qed.

Lemma matches_without_approval q a :
  (forall s, ~ In (ApprovalStatusEq s) q) ->
  matches q (without_approval a) = matches q a.
Proof.
  unfold matches. induction q as [|c q IH]; simpl; intros H; [reflexivity|].
  rewrite IH by (intros s Hs; apply (H s); now right).
  f_equal. destruct c; try reflexivity.
  exfalso. apply (H s). now left.
Qed.

Lemma stats_without_approval now db :
  getDashboardStats now db
  = getDashboardStats now
      (with_allocations db (map without_approval (allocations db))).
Proof.
  unfold getDashboardStats, countDocuments, distinct_resourceId.
  cbn [with_allocations allocations resources].
  rewrite !filter_map_swap, !length_map, !map_map.
  rewrite (sort_desc_map without_approval createdAt createdAt)
    by reflexivity.
  rewrite firstn_map, map_map.
  assert (Hq : forall q, (forall s, ~ In (ApprovalStatusEq s) q) ->
                 filter (fun x => matches q (without_approval x))
                   (allocations db)
                 = filter (matches q) (allocations db)).
  { intros q Hq. apply filter_ext. intros a.
    apply matches_without_approval. exact Hq. }
  rewrite !Hq; [reflexivity| |];
    intros s Hs; simpl in Hs; intuition discriminate.
Qed.

Lemma item_without_approval r now db :
  resource_item r now db
  = resource_item r now
      (with_allocations db (map without_approval (allocations db))).
Proof.
  unfold resource_item. cbn [with_allocations allocations].
  set (q := matches (active_query (resource_id r) now)).
  assert (E : find q (map without_approval (allocations db))
              = option_map without_approval (find q (allocations db))).
  { rewrite find_map_swap. reflexivity. }
  rewrite E. destruct (find q (allocations db)); reflexivity.
Qed.

Lemma replace_first_without_approval a st l :
  find (fun x => Nat.eqb (_id x) (_id a)) l = Some a ->
  map without_approval (replace_first (set_approvalStatus a st) l)
  = map without_approval l.
Proof.
  induction l as [|y l IH]; simpl; [discriminate|].
  cbn [set_approvalStatus _id].
  destruct (Nat.eqb (_id y) (_id a)); simpl.
  - intros [= ->]. reflexivity.
  - intros H. rewrite IH by assumption. reflexivity.
Qed.

Lemma update_keeps_blanked id requested db :
  resources (db_of (updateAllocationStatus id requested db)) = resources db
  /\ map without_approval
       (allocations (db_of (updateAllocationStatus id requested db)))
     = map without_approval (allocations db).
Proof.
  destruct (updateAllocationStatus_cases id requested db)
    as [| |m a st _ _ _ Ha _ _ _]; unfold db_of; cbn [fst snd]; auto.
  split; [reflexivity|].
  cbn [update_doc with_allocations allocations].
  apply replace_first_without_approval.
  destruct (lookup_allocation_Some _ _ _ Ha) as [_ <-]. exact Ha.
Qed.

(** X14. An approval decision is invisible to the status derivations:
    whatever updateAllocationStatus is asked and answers, the dashboard
    statistics and the status, with current allocation, of every resource
    are afterwards what they were before at the same clock reading.
    Rejecting the request that occupies a resource does not make the
    resource available. *)
Theorem decisions_do_not_change_statuses :
  forall (id : IdArg) (requested : option string) (currentTime : Z) (db : Db),
    let db' := db_of (updateAllocationStatus id requested db) in
    getDashboardStats currentTime db' = getDashboardStats currentTime db
    /\ (forall resource,
           response_of (resourceWithStatus resource currentTime db')
           = response_of (resourceWithStatus resource currentTime db))
    /\ (forall rs,
           response_of (getAllResources rs currentTime db')
           = response_of (getAllResources rs currentTime db)).
Proof.
  intros id requested currentTime db db'.
  destruct (update_keeps_blanked id requested db) as [Hres Hall].
  fold db' in Hres, Hall.
  assert (Hdb : with_allocations db' (map without_approval (allocations db'))
                = with_allocations db
                    (map without_approval (allocations db))).
  { unfold with_allocations. rewrite Hres, Hall.
    assert (Hn : nextId db' = nextId db).
    { unfold db'. destruct (updateAllocationStatus_cases id requested db);
        reflexivity. }
    rewrite Hn. reflexivity. }
  assert (Hitem : forall r, resource_item r currentTime db'
                            = resource_item r currentTime db).
  { intros r. rewrite (item_without_approval r currentTime db'), Hdb.
    symmetry. apply item_without_approval. }
  split.
  { rewrite (stats_without_approval currentTime db'), Hdb.
    symmetry. apply stats_without_approval. }
  split.
  - intros resource. rewrite !resourceWithStatus_run.
    unfold response_of. cbn [fst]. f_equal. apply Hitem.
  - intros rs. rewrite !getAllResources_run. unfold response_of. cbn [fst].
    f_equal. apply map_ext. intros r. apply Hitem.
Qed.

(** X15. The mobile resource list compares the status with 'available' in
    lower case, while the server answers 'Available' or 'Allocated': for
    every item of every answer of getAllResources its isAvailable is false,
    also when the web page's counter counts the same item as available. *)
Theorem mobile_list_never_available :
  forall (rs : list Resource) (currentTime : Z) (db : Db),
  exists items calls,
    getAllResources rs currentTime db = (Returned items, db, calls)
    /\ List.length items = List.length rs
    /\ (forall item, In item items ->
          isAvailable item = false
          /\ (rws_status item = "Available" \/ rws_status item = "Allocated"))
    /\ (availableCount items + allocatedCount items
        = List.length items)%nat
    /\ List.length (filter isAvailable items) = 0%nat.
Proof.
  intros rs currentTime db. do 2 eexists.
  split; [apply getAllResources_run|].
  split; [apply length_map|].
  assert (Hitem : forall item,
             In item (map (fun r => resource_item r currentTime db) rs) ->
             isAvailable item = false
             /\ (rws_status item = "Available"
                 \/ rws_status item = "Allocated")).
  { intros item Hin. apply in_map_iff in Hin as (r & <- & _).
    unfold isAvailable, resource_item. cbn [rws_status].
    destruct (find _ (allocations db)); auto. }
  split; [exact Hitem|]. split.
  - rewrite availableCount_items, allocatedCount_items, length_map.
    rewrite Nat.add_comm. apply filter_length_split.
  - revert Hitem.
    generalize (map (fun r => resource_item r currentTime db) rs) as items.
    induction items as [|x l IH]; simpl; intros H; [reflexivity|].
    rewrite (proj1 (H x (or_introl eq_refl))). apply IH.
    intros item Hin. apply H. now right.
Qed.

(** *** Trimming and capitalising *)

Lemma trim_as_list s :
  trim s = string_of_list_ascii (trim_list (list_ascii_of_string s)).
Proof. reflexivity. Qed.

Lemma trimStart_head l c l' :
  trimStart l = c :: l' -> isWhiteSpace c = false.
Proof.
  induction l as [|d l IH]; simpl; [discriminate|].
  destruct (isWhiteSpace d) eqn:E; [exact IH|].
  intros [= <- _]. exact E.
Qed.

Lemma trimStart_fixed l :
  trimStart l = l
  <-> l = [] \/ exists c l', l = c :: l' /\ isWhiteSpace c = false.
Proof.
  split.
  - intros H. destruct l as [|c l']; [auto|]. right. exists c, l'.
    split; [reflexivity|]. eapply trimStart_head. exact H.
  - intros [->|(c & l' & -> & H)]; simpl; [reflexivity|].
    rewrite H. reflexivity.
Qed.

Lemma trimStart_idempotent l : trimStart (trimStart l) = trimStart l.
Proof.
  apply trimStart_fixed. destruct (trimStart l) as [|c l'] eqn:E; [auto|].
  right. exists c, l'. split; [reflexivity|]. eapply trimStart_head. exact E.
Qed.

Lemma trimStart_suffix l : exists p, l = p ++ trimStart l.
Proof.
  induction l as [|c l [p IH]]; simpl; [exists []; reflexivity|].
  destruct (isWhiteSpace c).
  - exists (c :: p). simpl. congruence.
  - exists []. reflexivity.
Qed.

Lemma trim_list_clean l : clean (trim_list l).
Proof.
  unfold clean, trim_list.
  set (m := trimStart l). set (m' := trimStart (rev m)).
  split; [|rewrite rev_involutive; apply trimStart_idempotent].
  apply trimStart_fixed.
  destruct (rev m') as [|c q] eqn:E; [auto|]. right.
  exists c, q. split; [reflexivity|].
  destruct (trimStart_suffix (rev m)) as [p Hp]. fold m' in Hp.
  assert (Hm : m = rev m' ++ rev p).
  { rewrite <- (rev_involutive m), Hp, rev_app_distr. reflexivity. }
  rewrite E in Hm. simpl in Hm.
  eapply (trimStart_head l). fold m. exact Hm.
Qed.

Lemma trim_list_fixed l : clean l -> trim_list l = l.
Proof.
  intros [H1 H2]. unfold trim_list. rewrite H1, H2.
  apply rev_involutive.
Qed.

Lemma trim_trimmed s : trimmed (trim s).
Proof.
  unfold trimmed. rewrite (trim_as_list (trim s)), (trim_as_list s).
  rewrite list_ascii_of_string_of_list_ascii.
  rewrite trim_list_fixed; [reflexivity|apply trim_list_clean].
Qed.

Lemma trimmed_clean s : trimmed s -> clean (list_ascii_of_string s).
Proof.
  unfold trimmed. intros H. rewrite <- H at 1. rewrite trim_as_list.
  rewrite list_ascii_of_string_of_list_ascii. apply trim_list_clean.
Qed.

Lemma clean_trimmed s : clean (list_ascii_of_string s) -> trimmed s.
Proof.
  intros H. unfold trimmed. rewrite trim_as_list, trim_list_fixed by exact H.
  apply string_of_list_ascii_of_string.
Qed.

Lemma list_ascii_of_string_app (s t : string) :
  list_ascii_of_string (s ++ t)%string
  = list_ascii_of_string s ++ list_ascii_of_string t.
Proof. induction s as [|c s IH]; simpl; [reflexivity|]. now rewrite IH. Qed.

Lemma toUpperCase_shape c upper :
  isWhiteSpace c = false -> toUpperCase c = Some upper ->
  upper = "SS"
  \/ exists x, upper = String x EmptyString
               /\ isWhiteSpace x = false /\ is_lower x = false.
Proof.
  destruct c as [[] [] [] [] [] [] [] []]; intros Hw H;
    cbv in Hw; try discriminate Hw; cbv in H; try discriminate H;
    injection H as <-;
    first [left; reflexivity
          |right; eexists; split; [reflexivity|split; reflexivity]].
Qed.

Lemma toUpperCase_None c :
  toUpperCase c = None -> c = ascii_of_nat 181 \/ c = ascii_of_nat 255.
Proof.
  destruct c as [[] [] [] [] [] [] [] []]; intros H; cbv in H;
    try discriminate H; [right|left]; reflexivity.
Qed.

Lemma clean_new_head c rest u :
  clean (c :: rest) -> u <> [] ->
  (forall x, In x u -> isWhiteSpace x = false) ->
  clean (u ++ rest).
Proof.
  intros [H1 H2] Hne Hu. split.
  - destruct u as [|x u']; [contradiction|]. simpl.
    rewrite (Hu x (or_introl eq_refl)). reflexivity.
  - rewrite rev_app_distr. simpl in H2. apply trimStart_fixed.
    apply trimStart_fixed in H2. right.
    destruct (rev rest) as [|d q] eqn:E; simpl in *.
    + destruct (rev u) as [|y v] eqn:Ev.
      * apply (f_equal (@rev ascii)) in Ev. rewrite rev_involutive in Ev.
        contradiction.
      * exists y, v. split; [reflexivity|]. apply Hu. apply in_rev.
        rewrite Ev. now left.
    + destruct H2 as [H2|(d' & q' & [= <- <-] & Hd)]; [discriminate|].
      exists d, (q ++ rev u). auto.
Qed.

Lemma capitalised_clean c rest upper :
  clean (c :: rest) -> toUpperCase c = Some upper ->
  clean (list_ascii_of_string upper ++ rest).
Proof.
  intros Hc Hup. pose proof Hc as [H1 _].
  apply trimStart_fixed in H1 as [H1|(c' & l' & [= <- <-] & Hw)];
    [discriminate|].
  apply (clean_new_head c); [assumption| |].
  - destruct (toUpperCase_shape c upper Hw Hup) as [->|(x & -> & _)];
      discriminate.
  - intros y Hy.
    destruct (toUpperCase_shape c upper Hw Hup) as [->|(x & -> & Hx & _)];
      simpl in Hy.
    + destruct Hy as [<-|[<-|[]]]; reflexivity.
    + destruct Hy as [<-|[]]. exact Hx.
Qed.

Lemma capitalised_trimmed c rest upper :
  trimmed (String c rest) -> toUpperCase c = Some upper ->
  trimmed (upper ++ rest)%string.
Proof.
  intros Ht Hup. apply clean_trimmed. rewrite list_ascii_of_string_app.
  apply (capitalised_clean c); [|assumption].
  exact (trimmed_clean _ Ht).
Qed.

Lemma capitalised_first c rest upper :
  trimmed (String c rest) -> toUpperCase c = Some upper ->
  (upper ++ rest)%string <> EmptyString
  /\ forall x tail, (upper ++ rest)%string = String x tail ->
       is_lower x = false.
Proof.
  intros Ht Hup. apply trimmed_clean in Ht. destruct Ht as [H1 _].
  apply trimStart_fixed in H1 as [H1|(c' & l' & [= <- <-] & Hw)];
    [discriminate|].
  destruct (toUpperCase_shape c upper Hw Hup) as [->|(x & -> & _ & Hx)];
    simpl; (split; [discriminate|]); intros y tail [= <- _];
    [reflexivity|exact Hx].
Qed.

(** *** Creating resources *)

Lemma validate_length_ok limit s msg1 msg2 :
  (if String.eqb s EmptyString then [SchemaMessage msg1]
   else if (limit <? String.length s)%nat then [SchemaMessage msg2] else [])
  = [] ->
  s <> EmptyString /\ (String.length s <= limit)%nat.
Proof.
  destruct (String.eqb_spec s EmptyString); [discriminate|].
  destruct (Nat.ltb_spec limit (String.length s)); [discriminate|].
  intros _. split; [assumption|lia].
Qed.

Lemma createResource_cases req currentTime db :
  createResource_result req currentTime db (createResource req currentTime db).
Proof.
  unfold createResource.
  destruct (truthy (body_name req)) as [name0|] eqn:Hn; [|constructor].
  destruct (truthy (body_type req)) as [type0|] eqn:Ht; [|constructor].
  cbv zeta.
  match goal with
  | |- context [validate_resource ?d] =>
      destruct (validate_resource d) as [|e errors] eqn:Hv
  end; [|constructor].
  unfold validate_resource in Hv. cbn [name type description] in Hv.
  apply app_eq_nil in Hv as [Hvn Hv]. apply app_eq_nil in Hv as [Hvt Hvd].
  apply validate_length_ok in Hvn as [Hne Hlen].
  apply validate_length_ok in Hvt as [Hte Htlen].
  assert (Hdlen : (String.length
                     (trim (match truthy (body_description req) with
                            | Some d => d
                            | None => EmptyString
                            end)) <= 500)%nat).
  { unfold validate_description in Hvd.
    destruct (Nat.ltb_spec 500
                (String.length
                   (trim (match truthy (body_description req) with
                          | Some d => d
                          | None => EmptyString
                          end)))); [discriminate|lia]. }
  destruct (trim name0) as [|c rest] eqn:Hname; [congruence|].
  pose proof (trim_trimmed name0) as Htrim. rewrite Hname in Htrim.
  unfold Resource_pre_save.
  cbn [name resource_id type description resource_createdAt].
  destruct (toUpperCase c) as [upper|] eqn:Hup;
    [|apply (resource_unrepresented req currentTime db name0 c rest);
      assumption].
  pose proof (capitalised_trimmed c rest upper Htrim Hup) as Hsaved.
  unfold trimmed in Hsaved. rewrite Hsaved.
  apply (resource_created req currentTime db name0 type0 c rest upper);
    try assumption.
  destruct (capitalised_first c rest upper Htrim Hup) as [Hnonempty Hfirst].
  unfold well_named. cbn [name type description].
  split; [exact Hnonempty|]. split; [exact Hsaved|].
  split; [exact Hfirst|].
  split.
  { exists (String c rest). split.
    - split; [discriminate|]. split; assumption.
    - exists c, rest, upper. auto. }
  split; [assumption|]. split; assumption.
Qed.

(** X16. createResource either refuses with a 400 and leaves the store as
    it was, which it does whenever name or type is missing or empty and
    whenever the name is blank, or it appends one resource and touches no
    allocation: the new resource takes the store's next id, its type is
    the trimmed type, and its name the trimmed name with the upper case of
    its first character, which toUpperCase may give as two characters, in
    place of that character.  The only requests without an outcome in the
    model are those whose trimmed name starts with U+00B5 or U+00FF. *)
Theorem createResource_outcomes :
  forall (req : ResourceRequest) (currentTime : Z) (db : Db),
    (truthy (body_name req) = None \/ truthy (body_type req) = None ->
     createResource req currentTime db
     = Some (ResourceRefused 400 "Name and type are required fields" [], db))
    /\ (forall name0,
           truthy (body_name req) = Some name0 -> trim name0 = EmptyString ->
           exists msg errors,
             createResource req currentTime db
             = Some (ResourceRefused 400 msg errors, db))
    /\ (forall code msg errors db',
           createResource req currentTime db
           = Some (ResourceRefused code msg errors, db') ->
           code = 400%nat /\ db' = db)
    /\ (forall saved db',
           createResource req currentTime db
           = Some (ResourceCreated saved, db') ->
           resources db' = resources db ++ [saved]
           /\ allocations db' = allocations db
           /\ resource_id saved = nextId db
           /\ exists name0 type0 c rest upper,
                truthy (body_name req) = Some name0
                /\ truthy (body_type req) = Some type0
                /\ trim name0 = String c rest
                /\ toUpperCase c = Some upper
                /\ name saved = (upper ++ rest)%string
                /\ type saved = trim type0)
    /\ (createResource req currentTime db = None ->
        exists name0 c rest,
          truthy (body_name req) = Some name0
          /\ trim name0 = String c rest
          /\ (c = ascii_of_nat 181 \/ c = ascii_of_nat 255)).
Proof.
  intros req currentTime db.
  split.
  { unfold createResource. intros [->| ->]; [reflexivity|].
    destruct (truthy (body_name req)); reflexivity. }
  split.
  { intros name0 Hn Hblank.
    destruct (createResource_cases req currentTime db)
      as [msg errors|name1 c rest Hn1 Htrim _
         |name1 type0 c rest upper Hn1 _ Htrim _]; [eauto| |];
      congruence. }
  split.
  { intros code msg errors db' H.
    destruct (createResource_cases req currentTime db);
      [injection H as <- _ _ <-; auto|discriminate|discriminate]. }
  split.
  { intros saved db' H.
    destruct (createResource_cases req currentTime db)
      as [| |name0 type0 c rest upper Hn Ht Htrim Hup saved0 _];
      [discriminate|discriminate|].
    injection H as <- <-. cbn [resources allocations].
    split; [reflexivity|]. split; [reflexivity|]. split; [reflexivity|].
    exists name0, type0, c, rest, upper.
    repeat split; try assumption; reflexivity. }
  intros H.
  destruct (createResource_cases req currentTime db)
    as [|name0 c rest Hn Htrim Hup|]; [discriminate| |discriminate].
  exists name0, c, rest. auto using toUpperCase_None.
Qed.

(** Names beyond ASCII.  A first letter U+00E9 is stored as U+00C9; a name
    of 100 characters starting with U+00DF passes the validation and is
    stored with 101 characters, starting with 'SS'; a name starting with
    the micro sign would be stored with U+039C first. *)
Example createResource_eclair :
  exists saved db',
    createResource eclair_request 0 served0 = Some (ResourceCreated saved, db')
    /\ name saved = String (ascii_of_nat 201) "clair room".
Proof. eexists. eexists. split; reflexivity. Qed.

Example createResource_strasse :
  exists saved db',
    createResource strasse_request 0 served0
    = Some (ResourceCreated saved, db')
    /\ String.length (name saved) = 101%nat
    /\ exists rest, name saved = String "S" (String "S" rest).
Proof.
  eexists. eexists. split; [reflexivity|]. split; [reflexivity|].
  eexists. reflexivity.
Qed.

Example createResource_micro :
  createResource
    {| body_name := Some (String (ascii_of_nat 181) "m");
       body_type := Some "Unit"; body_description := None |} 0 served0
  = None.
Proof. reflexivity. Qed.

(** *** The stores of a running server *)

Lemma replace_first_In_weak doc l x :
  In x (replace_first doc l) -> x = doc \/ In x l.
Proof.
  induction l as [|y l IH]; simpl; [tauto|].
  destruct (Nat.eqb (_id y) (_id doc)); simpl; intros [H|H]; auto.
  destruct (IH H); auto.
Qed.

Lemma handle_keeps_resources r currentTime db :
  resources (db_of (handle r currentTime db)) = resources db
  /\ (nextId db <= nextId (db_of (handle r currentTime db)))%nat
  /\ forall a, In a (allocations (db_of (handle r currentTime db))) ->
       (exists a0, In a0 (allocations db) /\ resourceId a0 = resourceId a)
       \/ (exists res, In res (resources db)
                       /\ resource_id res = resourceId a).
Proof.
  destruct r as [req|id requested|id]; cbn [handle].
  - destruct (createAllocation_cases req currentTime db)
      as [| |rid who s e resource _ _ _ _ _ _ Hres _ _];
      unfold db_of; cbn [fst snd];
      try (split; [reflexivity|]; split; [lia|]; intros x Hx; left; eauto).
    cbn [insert_doc resources nextId allocations].
    split; [reflexivity|]. split; [lia|].
    intros x Hx. apply in_app_iff in Hx as [Hx|[<-|[]]]; [left; eauto|].
    right. apply find_present in Hres as [Hin Hid].
    apply Nat.eqb_eq in Hid. exists resource. auto.
  - destruct (updateAllocationStatus_cases id requested db)
      as [| |m a0 st _ _ _ Ha0 _ _ _];
      unfold db_of; cbn [fst snd];
      try (split; [reflexivity|]; split; [lia|]; intros x Hx; left; eauto).
    cbn [update_doc with_allocations resources nextId allocations].
    split; [reflexivity|]. split; [lia|].
    intros x Hx. left. apply replace_first_In_weak in Hx as [->|Hx]; [|eauto].
    exists a0. split; [|reflexivity].
    apply (lookup_allocation_Some _ _ _ Ha0).
  - destruct (deleteAllocation_db id db) as [->|(n & _ & ->)];
      cbn [with_allocations resources nextId allocations].
    + split; [reflexivity|]. split; [lia|]. intros x Hx. left. eauto.
    + split; [reflexivity|]. split; [lia|]. intros x Hx. left.
      exists x. split; [|reflexivity]. eapply remove_first_In. eassumption.
Qed.

Lemma handle_invariant r currentTime db :
  store_invariant db -> store_invariant (db_of (handle r currentTime db)).
Proof.
  destruct r; cbn [handle]; intros H.
  - apply createAllocation_invariant; assumption.
  - apply updateAllocationStatus_invariant; assumption.
  - apply deleteAllocation_invariant; assumption.
Qed.

Lemma served_keeps_invariant db : served db -> served_invariant db.
Proof.
  induction 1 as [n|db req currentTime reply db' _ IH Hrun
                 |db r currentTime _ IH].
  - split; [|split].
    + split; [split; [split|]|split]; simpl.
      * constructor.
      * intros a [].
      * intros a [].
      * intros a [].
      * intros A B [].
    + split; simpl; [constructor|intros a []].
    + intros r [].
  - destruct IH as (Hstore & [Hnd Href] & Hres). revert Hrun.
    destruct (createResource_cases req currentTime db)
      as [msg errors| |name0 type0 c rest upper _ _ _ _ saved Hnamed];
      intros Hrun; [injection Hrun as _ <-|discriminate|injection Hrun as _ <-].
    + split; [|split]; [assumption|split; assumption|assumption].
    + destruct Hstore as (((Hids & Hfresh) & Hvalid) & Hrange & Hno).
      split; [|split].
      * split; [split; [split|]|split]; cbn [allocations nextId]; auto.
        intros a Ha. apply Hfresh in Ha. lia.
      * split; cbn [resources allocations].
        -- rewrite map_app. simpl. apply NoDup_snoc; [assumption|].
           intros Hin. apply in_map_iff in Hin as (r & Hr & Hin).
           apply Hres in Hin as [Hlt _]. lia.
        -- intros a Ha. destruct (Href a Ha) as (r & Hr & Hid).
           exists r. split; [|assumption]. apply in_app_iff. now left.
      * cbn [resources nextId]. intros r Hr.
        apply in_app_iff in Hr as [Hr|[<-|[]]].
        -- destruct (Hres r Hr). split; [lia|assumption].
        -- split; [simpl; lia|exact Hnamed].
  - destruct IH as (Hstore & [Hnd Href] & Hres).
    destruct (handle_keeps_resources r currentTime db) as (Hr & Hn & Ha).
    split; [|split].
    + apply handle_invariant. assumption.
    + split; rewrite Hr; [assumption|].
      intros a Hin. destruct (Ha a Hin) as [(a0 & Hin0 & E)|Hex];
        [|exact Hex].
      rewrite <- E. apply Href. assumption.
    + rewrite Hr. intros res Hin. destruct (Hres res Hin).
      split; [lia|assumption].
Qed.


Lemma lookup_resource_present db rid :
  (exists r, In r (resources db) /\ resource_id r = rid) ->
  exists r, lookup_resource db rid = Some r.
Proof.
  intros (r & Hin & Hid). unfold lookup_resource.
  apply (find_exists _ _ r Hin). apply Nat.eqb_eq. assumption.
Qed.

(** X18. On such a server every allocation refers to a stored resource, at
    all times.  Hence the dashboard's availableResources is the number of
    resources the resource list shows as 'Available', it is never negative,
    and no recent allocation is shown with the resource name 'Unknown'. *)
Theorem served_references_resolve :
  forall db, served db ->
    (forall a, In a (allocations db) ->
       exists r, lookup_resource db (resourceId a) = Some r)
    /\ forall currentTime,
         (exists items,
             response_of (getAllResources (resources db) currentTime db)
             = Returned items
             /\ availableResources (getDashboardStats currentTime db)
                = Z.of_nat (availableCount items))
         /\ 0 <= availableResources (getDashboardStats currentTime db)
         /\ (forall entry,
                In entry (recentAllocations (getDashboardStats currentTime db)) ->
                exists a r,
                  In a (allocations db)
                  /\ lookup_resource db (resourceId a) = Some r
                  /\ recent_id entry = _id a
                  /\ recent_resource entry = name r).
Proof.
  intros db Hs.
  destruct (served_keeps_invariant db Hs) as (_ & Hrefs & _).
  assert (Hlook : forall a, In a (allocations db) ->
                    exists r, lookup_resource db (resourceId a) = Some r).
  { intros a Ha. apply lookup_resource_present. apply Hrefs. assumption. }
  split; [exact Hlook|]. intros currentTime.
  pose proof (available_as_count currentTime db Hrefs) as Hav.
  split.
  { exists (map (fun r => resource_item r currentTime db) (resources db)).
    rewrite getAllResources_run. auto. }
  split; [lia|].
  intros entry Hin. unfold getDashboardStats in Hin.
  cbn [recentAllocations] in Hin.
  apply in_map_iff in Hin as (a & <- & Ha).
  assert (Hstored : In a (allocations db)).
  { apply (sort_desc_In createdAt).
    rewrite <- (firstn_skipn 5 (sort_desc createdAt (allocations db))).
    apply in_app_iff. now left. }
  destruct (Hlook a Hstored) as [r Hr].
  exists a, r. cbn [recent_id recent_resource]. rewrite Hr. auto.
Qed.

(** X19. A resource is available from the moment it is created: when
    createResource succeeds on such a server, the new resource is reported
    'Available' without current allocation at every clock reading, and the
    status of every other resource is what it was. *)
Theorem created_resource_is_available :
  forall db, served db ->
  forall req currentTime saved db',
    createResource req currentTime db = Some (ResourceCreated saved, db') ->
    In saved (resources db')
    /\ (forall now,
           response_of (resourceWithStatus saved now db')
           = Returned {| rws_resource := saved;
                         rws_status := "Available";
                         currentAllocation := None |})
    /\ (forall r now,
           response_of (resourceWithStatus r now db')
           = response_of (resourceWithStatus r now db)).
Proof.
  intros db Hs req currentTime saved db' Hrun.
  destruct (served_keeps_invariant db Hs) as (_ & [_ Href] & Hres).
  assert (Hc : resources db' = resources db ++ [saved]
               /\ allocations db' = allocations db
               /\ resource_id saved = nextId db).
  { revert Hrun.
    destruct (createResource_cases req currentTime db);
      intros Hrun; [discriminate|discriminate|].
    injection Hrun as <- <-. auto. }
  destruct Hc as (Hr & Ha & Hid).
  split; [rewrite Hr; apply in_app_iff; right; now left|].
  split.
  - intros now. rewrite resourceWithStatus_run. unfold response_of.
    cbn [fst]. rewrite Ha.
    rewrite (find_absent _ (allocations db)); [reflexivity|].
    intros a Hin. apply not_true_is_false. intros Hm.
    apply matches_occupies in Hm as [Hrid _].
    destruct (Href a Hin) as (r & Hrin & Hrid').
    apply Hres in Hrin as [Hlt _]. lia.
  - intros r now. rewrite !resourceWithStatus_run. unfold response_of.
    cbn [fst]. rewrite Ha. reflexivity.
Qed.

(** *** Who may do what *)

Lemma protect_passes users authorization p :
  protect users authorization = inr p
  <-> exists n account,
        authorization = BearerOf (Oid n)
        /\ find (fun u => Nat.eqb (account_id u) n) users = Some account
        /\ account_status account <> "blocked"
        /\ p = profile_of account.
Proof.
  unfold protect. split.
  - destruct authorization as [| |[n|]]; try discriminate.
    destruct (find _ users) as [u|] eqn:E; [|discriminate].
    destruct (String.eqb_spec (account_status u) "blocked");
      [discriminate|]. intros [= <-]. exists n, u. auto.
  - intros (n & account & -> & -> & Hs & ->).
    destruct (String.eqb_spec (account_status account) "blocked");
      [contradiction|reflexivity].
Qed.

Lemma adminOnly_isAdmin user :
  adminOnly user = None <-> isAdmin user = true.
Proof.
  unfold adminOnly, isAdmin. destruct user as [u|]; [|split; discriminate].
  destruct (String.eqb (role u) "Super User"); split;
    (reflexivity || discriminate).
Qed.

Lemma route_refuses_standard_callers users authorization r currentTime db :
  (forall req, r <> CreateAllocation req) ->
  (forall account,
      protect users authorization = inr account ->
      profile_role account <> "Super User") ->
  exists refusal,
    route users authorization r currentTime db = (refusal, db, [])
    /\ success refusal = false
    /\ (status refusal = 401%nat \/ status refusal = 403%nat).
Proof.
  intros Hr Hnot. unfold route.
  destruct (protect users authorization) as [refusal|account] eqn:Hp.
  - exists refusal. split; [reflexivity|].
    unfold protect in Hp.
    destruct authorization as [| |[n|]];
      try (injection Hp as <-; simpl; auto).
    destruct (find _ users) as [u|]; [|injection Hp as <-; simpl; auto].
    destruct (String.eqb (account_status u) "blocked");
      [injection Hp as <-; simpl; auto|discriminate].
  - specialize (Hnot account eq_refl).
    assert (Hadm : adminOnly (Some (as_user account))
                   = Some (json 403 false
                             "Access denied. Admin privileges required."
                             NoPayload)).
    { unfold adminOnly, as_user. cbn [role].
      destruct (String.eqb_spec (profile_role account) "Super User");
        [contradiction|reflexivity]. }
    exists (json 403 false "Access denied. Admin privileges required."
              NoPayload).
    destruct r as [req| |]; [exfalso; apply (Hr req); reflexivity| |];
      rewrite Hadm; simpl; auto.
Qed.

(** X20. Decisions and deletions are reserved to administrators: whatever
    the request to PUT /:id/status or DELETE /:id, if the caller is not
    authenticated by protect as an account that is not blocked and whose
    role is 'Super User', the answer is a 401 or 403 refusal, no call is made
    on the store and the store is unchanged; for such an administrator the
    route answers as the controller does. *)
Theorem decisions_need_an_administrator :
  forall users authorization r currentTime db,
    (forall req, r <> CreateAllocation req) ->
    ((forall account,
         protect users authorization = inr account ->
         profile_role account <> "Super User") ->
     db_of (route users authorization r currentTime db) = db
     /\ snd (route users authorization r currentTime db) = []
     /\ success (response_of (route users authorization r currentTime db))
        = false
     /\ (status (response_of (route users authorization r currentTime db))
         = 401%nat
         \/ status (response_of (route users authorization r currentTime db))
            = 403%nat))
    /\ (forall account,
           protect users authorization = inr account ->
           profile_role account = "Super User" ->
           route users authorization r currentTime db
           = handle r currentTime db).
Proof.
  intros users authorization r currentTime db Hr. split.
  - intros Hnot.
    destruct (route_refuses_standard_callers users authorization r
                currentTime db Hr Hnot) as (refusal & -> & Hs & Hc).
    unfold db_of, response_of. cbn [fst snd]. auto.
  - intros account Hp Hrole. unfold route. rewrite Hp.
    assert (Hadm : adminOnly (Some (as_user account)) = None).
    { unfold adminOnly, as_user. cbn [role]. rewrite Hrole. reflexivity. }
    destruct r as [req| |]; [exfalso; apply (Hr req); reflexivity| |];
      rewrite Hadm; reflexivity.
Qed.

(** X21. What a caller who is not an administrator can do to the store, on
    any of the three writing routes: nothing, or add one allocation whose
    approval status is 'pending' and whose requestedBy is the caller.  The
    stored allocations stay as they are, and so does the list of approved
    allocations. *)
Theorem standard_callers_only_add_pending :
  forall users authorization r currentTime db,
    (forall account,
        protect users authorization = inr account ->
        profile_role account <> "Super User") ->
    let db' := db_of (route users authorization r currentTime db) in
    resources db' = resources db
    /\ approved_allocations db' = approved_allocations db
    /\ (allocations db' = allocations db
        \/ exists doc account,
             protect users authorization = inr account
             /\ allocations db' = allocations db ++ [doc]
             /\ approvalStatus doc = "pending"
             /\ requestedBy doc = Some (profile_id account)).
Proof.
  intros users authorization r currentTime db Hnot db'.
  destruct r as [req|id requested|id].
  - subst db'. unfold route.
    destruct (protect users authorization) as [refusal|account] eqn:Hp;
      [unfold db_of; cbn [fst snd]; auto|].
    specialize (Hnot account eq_refl).
    set (req' := with_user req (Some (as_user account))).
    assert (Hadm : isAdmin (user req') = false).
    { unfold req', with_user, isAdmin, as_user. cbn [user role].
      destruct (String.eqb_spec (profile_role account) "Super User");
        [contradiction|reflexivity]. }
    destruct (createAllocation_cases req' currentTime db)
      as [| |rid who s e resource]; unfold db_of; cbn [fst snd]; auto.
    set (doc := created_doc req' currentTime db rid who s e).
    assert (Hst : approvalStatus doc = "pending").
    { unfold doc. cbn [created_doc approvalStatus]. rewrite Hadm.
      reflexivity. }
    split; [reflexivity|]. split.
    + unfold approved_allocations. cbn [insert_doc allocations].
      rewrite filter_app. cbn [filter]. rewrite Hst. apply app_nil_r.
    + right. exists doc, account. split; [reflexivity|].
      split; [reflexivity|]. split; [exact Hst|reflexivity].
  - destruct (route_refuses_standard_callers users authorization
                (UpdateAllocationStatus id requested) currentTime db)
      as (refusal & E & _); [discriminate|exact Hnot|].
    subst db'. rewrite E. unfold db_of. cbn [fst snd]. auto.
  - destruct (route_refuses_standard_callers users authorization
                (DeleteAllocation id) currentTime db)
      as (refusal & E & _); [discriminate|exact Hnot|].
    subst db'. rewrite E. unfold db_of. cbn [fst snd]. auto.
Qed.


Lemma toLowerCase_char_idempotent c :
  toLowerCase_char (toLowerCase_char c) = toLowerCase_char c.
Proof. destruct c as [[] [] [] [] [] [] [] []]; reflexivity. Qed.

Lemma toLowerCase_idempotent s : toLowerCase (toLowerCase s) = toLowerCase s.
Proof.
  induction s as [|c s IH]; simpl; [reflexivity|].
  now rewrite IH, toLowerCase_char_idempotent.
Qed.




(** The filter of login's query: the entered email, trimmed and in lower
    case. *)
Lemma login_filter e :
  User_email_setters (toLowerCase e) = trim (toLowerCase e).
Proof. unfold User_email_setters. now rewrite toLowerCase_idempotent. Qed.

(** X22. A blocked account is locked out of every writing route, an
    administrator's included: with a valid token of an account whose status
    is 'blocked' each of the three routes answers the 403 'blocked' refusal
    and leaves the store unchanged; and login refuses the account with the
    same 403 before looking at the password. *)
Theorem blocked_accounts_are_locked_out :
  forall users n account,
    find (fun u => Nat.eqb (account_id u) n) users = Some account ->
    account_status account = "blocked" ->
    (forall r currentTime db,
        route users (BearerOf (Oid n)) r currentTime db
        = (json 403 false
             "Your account has been blocked. Contact administrator."
             NoPayload, db, []))
    /\ (forall matchPassword email password,
           find (fun u => String.eqb (account_email u)
                            (trim (toLowerCase email)))
             users = Some account ->
           email <> EmptyString -> password <> EmptyString ->
           login matchPassword (Some email) (Some password) users
           = LoginRefused 403
               "Your account has been blocked. Contact administrator.").
Proof.
  intros users n account Hfind Hblocked. split.
  - intros r currentTime db. unfold route, protect.
    rewrite Hfind, Hblocked. reflexivity.
  - intros matchPassword email password Hmail He Hp. unfold login.
    destruct email; [contradiction|]. destruct password; [contradiction|].
    cbn [truthy]. rewrite login_filter, Hmail, Hblocked. reflexivity.
Qed.



(** *** The further properties on the scenarios *)

Lemma store2_reachable : reachable store2.
Proof. do 2 apply reachable_handle. apply reachable_init. Qed.

Lemma served2_served : served served2.
Proof.
  apply served_handle.
  apply (served_createResource served0 projector_request 0
           (ResourceCreated projector) served1);
    [apply served_init|reflexivity].
Qed.

Lemma store3_references_resolve : references_resolve store3.
Proof.
  split.
  - simpl. repeat constructor. simpl. tauto.
  - intros a [<-|[<-|[]]]; exists roomA; split;
      (reflexivity || (left; reflexivity)).
Qed.

Lemma bob_is_no_administrator :
  forall account,
    protect staff (BearerOf (Oid 8%nat)) = inr account ->
    profile_role account <> "Super User".
Proof. intros account [= <-]. discriminate. Qed.

Lemma deleteAllocation_removes_exactly_one_witness :
  reachable store3
  /\ allocations (db_of (deleteAllocation (Oid 100%nat) store3))
     = [request_at 101%nat 630 690 "approved"].
Proof.
  split; [exact store3_reachable|].
  destruct (deleteAllocation_removes_exactly_one store3 store3_reachable)
    as (_ & _ & H).
  destruct (H 100%nat (request_at 100%nat 600 660 "pending") eq_refl)
    as (_ & _ & _ & E & _).
  rewrite E. reflexivity.
Defined.

Lemma create_then_delete_restores_witness :
  reachable store3
  /\ exists doc populated,
       response_of (createAllocation (booking admin_user 700 760) 0 store3)
       = json 201 true "Allocation created successfully" (Data doc populated)
       /\ allocations
            (db_of (deleteAllocation (Oid (_id doc))
                      (db_of (createAllocation (booking admin_user 700 760)
                                0 store3))))
          = allocations store3.
Proof.
  split; [exact store3_reachable|].
  eexists. eexists. split; [reflexivity|].
  exact (proj1 (proj2 (proj2
           (create_then_delete_restores store3 store3_reachable
              (booking admin_user 700 760) 0 _ _ eq_refl)))).
Defined.

Lemma delete_frees_the_slot_witness :
  reachable store3
  /\ lookup_allocation store3 101%nat
     = Some (request_at 101%nat 630 690 "approved")
  /\ conflict_set (db_of (deleteAllocation (Oid 101%nat) store3))
       1%nat 600 700 None = [].
Proof.
  split; [exact store3_reachable|]. split; [reflexivity|].
  apply (proj2 (delete_frees_the_slot store3 store3_reachable 101%nat
                  (request_at 101%nat 630 690 "approved") eq_refl
                  1%nat 600 700 None)).
  intros x [<-|[]]. reflexivity.
Defined.

Lemma decided_allocation_leaves_queue_witness :
  reachable store2
  /\ status (response_of
               (updateAllocationStatus (Oid 101%nat) (Some "approved") store2))
     = 200%nat
  /\ forall x,
       In x (data (getPendingAllocations store3))
       <-> In x (data (getPendingAllocations store2)) /\ _id x <> 101%nat.
Proof.
  split; [exact store2_reachable|]. split; [reflexivity|].
  exact (decided_allocation_leaves_queue store2 store2_reachable 101%nat
           (Some "approved") eq_refl).
Defined.

Lemma created_allocation_and_queue_witness :
  exists doc populated,
    response_of (createAllocation (booking standard_user 700 760) 0 store3)
    = json 201 true "Allocation created successfully" (Data doc populated)
    /\ In doc (data (getPendingAllocations
                       (db_of (createAllocation
                                 (booking standard_user 700 760) 0 store3)))).
Proof.
  eexists. eexists. split; [reflexivity|].
  apply (created_allocation_and_queue store3 (booking standard_user 700 760)
           0 _ _ eq_refl).
  right. split; reflexivity.
Defined.

Lemma getMyAllocations_lists_own_witness :
  exists doc populated,
    response_of (createAllocation (booking standard_user 700 760) 0 store3)
    = json 201 true "Allocation created successfully" (Data doc populated)
    /\ In doc (data (getMyAllocations standard_user
                       (db_of (createAllocation
                                 (booking standard_user 700 760) 0 store3)))).
Proof.
  eexists. eexists. split; [reflexivity|].
  destruct (getMyAllocations_lists_own standard_user store3)
    as (_ & _ & _ & H).
  exact (proj1 (H (booking standard_user 700 760) 0 _ _ eq_refl eq_refl)).
Defined.

Lemma dashboard_available_matches_list_witness :
  references_resolve store3
  /\ exists items,
       getAllResources (resources store3) 650 store3
       = (Returned items, store3,
          repeat Allocation_findOne_call (List.length (resources store3)))
       /\ availableResources (getDashboardStats 650 store3)
          = Z.of_nat (availableCount items).
Proof.
  split; [exact store3_references_resolve|].
  destruct (dashboard_available_matches_list 650 store3
              store3_references_resolve) as (items & Hrun & Hcount & _).
  exists items. split; assumption.
Defined.

Lemma createResource_outcomes_witness :
  createResource projector_request 0 served0
  = Some (ResourceCreated projector, served1)
  /\ resources served1 = resources served0 ++ [projector].
Proof.
  split; [reflexivity|].
  destruct (createResource_outcomes projector_request 0 served0)
    as (_ & _ & _ & H & _).
  exact (proj1 (H projector served1 eq_refl)).
Defined.


Lemma served_references_resolve_witness :
  served served2
  /\ forall a, In a (allocations served2) ->
       exists r, lookup_resource served2 (resourceId a) = Some r.
Proof.
  split; [exact served2_served|].
  exact (proj1 (served_references_resolve served2 served2_served)).
Defined.

Lemma created_resource_is_available_witness :
  served served0
  /\ createResource projector_request 0 served0
     = Some (ResourceCreated projector, served1)
  /\ forall now,
       response_of (resourceWithStatus projector now served1)
       = Returned {| rws_resource := projector;
                     rws_status := "Available";
                     currentAllocation := None |}.
Proof.
  split; [exact (served_init 1%nat)|]. split; [reflexivity|].
  exact (proj1 (proj2 (created_resource_is_available served0
                         (served_init 1%nat) projector_request 0
                         projector served1 eq_refl))).
Defined.

Lemma decisions_need_an_administrator_witness :
  (forall req, DeleteAllocation (Oid 100%nat) <> CreateAllocation req)
  /\ db_of (route staff (BearerOf (Oid 8%nat)) (DeleteAllocation (Oid 100%nat))
              0 store3) = store3
  /\ route staff (BearerOf (Oid 7%nat)) (DeleteAllocation (Oid 100%nat))
       0 store3
     = handle (DeleteAllocation (Oid 100%nat)) 0 store3.
Proof.
  assert (Hr : forall req,
             DeleteAllocation (Oid 100%nat) <> CreateAllocation req)
    by discriminate.
  split; [exact Hr|]. split.
  - exact (proj1 (proj1 (decisions_need_an_administrator staff
                           (BearerOf (Oid 8%nat))
                           (DeleteAllocation (Oid 100%nat)) 0 store3 Hr)
                    bob_is_no_administrator)).
  - exact (proj2 (decisions_need_an_administrator staff
                    (BearerOf (Oid 7%nat))
                    (DeleteAllocation (Oid 100%nat)) 0 store3 Hr)
             (profile_of alice) eq_refl eq_refl).
Defined.

Lemma standard_callers_only_add_pending_witness :
  (forall account,
      protect staff (BearerOf (Oid 8%nat)) = inr account ->
      profile_role account <> "Super User")
  /\ approved_allocations
       (db_of (route staff (BearerOf (Oid 8%nat))
                 (CreateAllocation (booking admin_user 700 760)) 0 store3))
     = approved_allocations store3.
Proof.
  split; [exact bob_is_no_administrator|].
  exact (proj1 (proj2 (standard_callers_only_add_pending staff
                         (BearerOf (Oid 8%nat))
                         (CreateAllocation (booking admin_user 700 760))
                         0 store3 bob_is_no_administrator))).
Defined.

Lemma blocked_accounts_are_locked_out_witness :
  find (fun u => Nat.eqb (account_id u) 9%nat) staff = Some carol
  /\ account_status carol = "blocked"
  /\ forall r currentTime db,
       route staff (BearerOf (Oid 9%nat)) r currentTime db
       = (json 403 false
            "Your account has been blocked. Contact administrator."
            NoPayload, db, []).
Proof.
  split; [reflexivity|]. split; [reflexivity|].
  exact (proj1 (blocked_accounts_are_locked_out staff 9%nat carol
                  eq_refl eq_refl)).
Defined.


(** *** Requests served one at a time, and requests that interleave *)









Lemma play_interleaved events :
  forall s, interleaved s -> interleaved (play events s).
Proof.
  induction events as [|e events IH]; intros s H; [exact H|].
  apply IH. destruct e as [r currentTime|i]; cbn [happen].
  - destruct s as [db pool]. apply interleaved_request. exact H.
  - apply interleaved_resume. exact H.
Qed.

Lemma raced_interleaved : interleaved raced.
Proof. apply play_interleaved. apply interleaved_init. Qed.



(** The guard of the approval fails the same way: two approvals of
    overlapping pending requests whose handlers interleave both take
    effect. *)
Example interleaved_approvals_overlap :
  interleaved raced_approvals
  /\ allocations (fst raced_approvals)
     = [request_at 100%nat 600 660 "approved";
        request_at 101%nat 630 690 "approved"]
  /\ ~ no_approved_overlap (fst raced_approvals).
Proof.
  split; [apply play_interleaved; apply interleaved_init|].
  split; [reflexivity|]. intros H.
  apply (H (request_at 100%nat 600 660 "approved")
           (request_at 101%nat 630 690 "approved")).
  - simpl. auto.
  - simpl. auto.
  - discriminate.
  - reflexivity.
  - reflexivity.
  - reflexivity.
  - split; simpl; lia.
Qed.

(** *** What interleaving keeps *)

Lemma Allocation_find_reads q db : snd (fst (Allocation_find q db)) = db.
Proof.
  unfold Allocation_find, call. destruct (castQuery q); reflexivity.
Qed.

Lemma Allocation_findById_reads id db :
  snd (fst (Allocation_findById id db)) = db.
Proof. destruct id; reflexivity. Qed.

Lemma Resource_findById_reads id db :
  snd (fst (Resource_findById id db)) = db.
Proof. destruct id; reflexivity. Qed.

Lemma Allocation_create_sound i currentTime db :
  sound_documents db ->
  sound_documents (snd (fst (Allocation_create i currentTime db))).
Proof.
  intros ((Hnd & Hlt) & Hvalid & Hrange).
  unfold Allocation_create, call.
  destruct (new_Allocation i (nextId db) currentTime) as [errors|doc] eqn:Hnew;
    [repeat split; assumption|].
  destruct (validate doc) as [|e errors] eqn:Hv;
    [|repeat split; assumption].
  unfold pre_save.
  destruct (Z.leb_spec (endTime doc) (startTime doc));
    [repeat split; assumption|].
  assert (Hid : _id doc = nextId db).
  { unfold new_Allocation in Hnew.
    destruct (in_resourceId i), (in_startTime i), (in_endTime i);
      try discriminate.
    injection Hnew as <-. reflexivity. }
  cbn [fst snd]. split; [split|split].
  - cbn [allocations]. rewrite map_app. simpl. apply NoDup_snoc; [assumption|].
    intros Hin. apply in_map_iff in Hin as (a & Ha & Hin).
    apply Hlt in Hin. lia.
  - cbn [allocations nextId]. intros a Ha.
    apply in_app_iff in Ha as [Ha|[<-|[]]]; [apply Hlt in Ha|]; lia.
  - intros a Ha. cbn [allocations] in Ha.
    apply in_app_iff in Ha as [Ha|[<-|[]]]; auto.
  - intros a Ha. cbn [allocations] in Ha.
    apply in_app_iff in Ha as [Ha|[<-|[]]]; [auto|lia].
Qed.

Lemma Allocation_save_sound doc db :
  sound_documents db ->
  sound_documents (snd (fst (Allocation_save doc db))).
Proof.
  intros ((Hnd & Hlt) & Hvalid & Hrange).
  unfold Allocation_save, call.
  destruct (validate doc) as [|e errors] eqn:Hv;
    [|repeat split; assumption].
  unfold pre_save.
  destruct (Z.leb_spec (endTime doc) (startTime doc));
    [repeat split; assumption|].
  cbn [fst snd]. unfold with_allocations. split; [split|split].
  - cbn [allocations]. rewrite replace_first_ids. assumption.
  - cbn [allocations nextId]. intros a Ha.
    apply (in_map _id) in Ha. rewrite replace_first_ids in Ha.
    apply in_map_iff in Ha as (b & <- & Hb). auto.
  - intros a Ha. cbn [allocations] in Ha.
    apply replace_first_In_weak in Ha as [->|Ha]; auto.
  - intros a Ha. cbn [allocations] in Ha.
    apply replace_first_In_weak in Ha as [->|Ha]; [lia|auto].
Qed.

Lemma Allocation_findByIdAndDelete_sound id db :
  sound_documents db ->
  sound_documents (snd (fst (Allocation_findByIdAndDelete id db))).
Proof.
  intros ((Hnd & Hlt) & Hvalid & Hrange).
  unfold Allocation_findByIdAndDelete, call.
  destruct id as [n|]; [|repeat split; assumption].
  destruct (find _ (allocations db)) as [found|];
    [|repeat split; assumption].
  cbn [fst snd]. unfold with_allocations. split; [split|split];
    cbn [allocations nextId].
  - apply remove_first_NoDup. assumption.
  - intros a Ha. apply remove_first_In in Ha. auto.
  - intros a Ha. apply remove_first_In in Ha. auto.
  - intros a Ha. apply remove_first_In in Ha. auto.
Qed.

Lemma start_keeps_sound r currentTime :
  keeps_sound (task (start r currentTime)).
Proof.
  destruct r as [req|id requested|id]; cbn [start task].
  - unfold createAllocation_task.
    destruct (body_resourceId req); [|exact I].
    destruct (truthy (body_assignedTo req)); [|exact I].
    destruct (body_startTime req); [|exact I].
    destruct (body_endTime req); [|exact I].
    destruct (date_le _ _); [exact I|].
    destruct (date_lt _ _); [exact I|].
    split; [intros db H; rewrite Resource_findById_reads; exact H|].
    intros [resource|]; [|exact I].
    split; [intros db H; unfold find_conflictingAllocations;
            rewrite Allocation_find_reads; exact H|].
    intros conflicting.
    destruct (0 <? List.length conflicting)%nat; [exact I|].
    cbv zeta.
    split; [intros db H; apply Allocation_create_sound; exact H|].
    intros saved. split; [intros db H; exact H|].
    intros populated. exact I.
  - unfold updateAllocationStatus_task.
    destruct requested as [st|]; [|exact I].
    destruct (negb _); [exact I|].
    split; [intros db H; rewrite Allocation_findById_reads; exact H|].
    intros [allocation|]; [|exact I].
    assert (Hupdate :
              keeps_sound
                (saved <~ Allocation_save (set_approvalStatus allocation st) ;;
                 populated <~ populate saved ;;
                 Finished (json 200 true
                             ("Allocation " ++ st ++ " successfully")%string
                             (Data saved populated)))).
    { split; [intros db H; apply Allocation_save_sound; exact H|].
      intros saved. split; [intros db H; exact H|].
      intros populated. exact I. }
    cbv zeta. destruct (String.eqb st "approved"); [|exact Hupdate].
    split; [intros db H; unfold find_conflicts;
            rewrite Allocation_find_reads; exact H|].
    intros conflicts.
    destruct (0 <? List.length conflicts)%nat; [exact I|exact Hupdate].
  - split; [intros db H; apply Allocation_findByIdAndDelete_sound; exact H|].
    intros [deleted|]; exact I.
Qed.

Lemma Forall_update_nth {A} (P : A -> Prop) i x (l : list A) :
  Forall P l -> P x -> Forall P (update_nth i x l).
Proof.
  intros Hl Hx. revert i.
  induction Hl as [|y l Hy Hl IH]; intros i; [destruct i; constructor|].
  destruct i as [|i]; simpl; constructor; auto.
Qed.

Lemma interleaved_sound s :
  interleaved s ->
  sound_documents (fst s)
  /\ Forall (fun h => keeps_sound (task h)) (snd s).
Proof.
  induction 1 as [rs n|db pool rs _ [IHdb IHpool]
                 |db pool r currentTime _ [IHdb IHpool]|s i _ [IHdb IHpool]].
  - split; [|constructor]. split; [split|split]; simpl.
    + constructor.
    + intros a [].
    + intros a [].
    + intros a [].
  - split; [|exact IHpool]. exact IHdb.
  - split; [exact IHdb|]. apply Forall_app. split; [exact IHpool|].
    constructor; [apply start_keeps_sound|constructor].
  - destruct s as [db pool]. unfold resume. cbn [fst snd] in *.
    destruct (nth_error pool i) as [h|] eqn:Hnth; [|auto].
    pose proof (proj1 (Forall_forall _ _) IHpool h
                  (nth_error_In _ _ Hnth)) as Hh.
    destruct h as [t handler]. cbn [task catch] in *.
    destruct t as [response|X m k]; [auto|].
    destruct Hh as [Hm Hk]. specialize (Hm db IHdb).
    destruct (m db) as [[[x|e] db1] l1]; cbn [fst snd] in *.
    + split; [exact Hm|]. apply Forall_update_nth; [exact IHpool|].
      apply Hk.
    + split; [exact Hm|]. apply Forall_update_nth; [exact IHpool|].
      exact I.
Qed.

(** X24. Whatever the interleaving of the handlers, the stored allocations
    keep unique ids and valid paths, and every stored interval ends after it
    starts: each save validates the document it writes, on its own.  Only
    the absence of overlapping approved allocations depends on the requests
    being served one at a time. *)
Theorem interleaved_keeps_valid_ranges :
  forall s, interleaved s ->
    NoDup (map _id (allocations (fst s)))
    /\ (forall a, In a (allocations (fst s)) ->
          endTime a > startTime a /\ validate a = []).
Proof.
  intros s Hs.
  destruct (interleaved_sound s Hs) as [((Hnd & _) & Hvalid & Hrange) _].
  split; [exact Hnd|]. intros a Ha. split; [apply Hrange|apply Hvalid]; exact Ha.
Qed.


Lemma interleaved_keeps_valid_ranges_witness :
  interleaved raced
  /\ NoDup (map _id (allocations (fst raced)))
  /\ forall a, In a (allocations (fst raced)) -> endTime a > startTime a.
Proof.
  split; [exact raced_interleaved|].
  destruct (interleaved_keeps_valid_ranges raced raced_interleaved)
    as [Hnd Hall].
  split; [exact Hnd|]. intros a Ha. exact (proj1 (Hall a Ha)).
Defined.

